(** * pyQCD: the ensemble data set, the correlator folding and the code-generator tags

    A shallow embedding of [pyQCD/core/dataset.py], of the parts of
    [pyQCD/core/twopoint.py] that fold and project correlators, and of
    [pyQCD/utils/codegen/coretags.py].

    Conventions of the embedding:
    - Python [int] is [Z]; [/] and [%] on two ints are Python 2's floor
      division and modulo ([dataset.py] does not import [division]), which are
      [Z.div] and [Z.modulo].
    - Python [float], [numpy.float64] and the entries of a [numpy.ndarray] are
      idealised as real numbers ([R]): rounding, [inf] and [nan] are not
      represented.
    - An operation that can raise returns a [result]; the exception carries
      the Python class and which of the source's messages it was built from.
    - A zip archive is the list of its members in the order they were
      written; a name written twice is found at its latest entry, as
      [zipfile] does. *)

From Stdlib Require Import ZArith List String Ascii Bool Lia Reals Lra.
From Stdlib Require Import DecimalString DecimalZ.
From Equations Require Import Equations.
Import ListNotations.

Local Open Scope string_scope.
Local Open Scope list_scope.
Local Open Scope Z_scope.

(** ** Python values, exceptions and the error monad *)

Module Py.

(** A class object; [tp_name] is its [__name__]. *)
Inductive pytype : Type := PyClass (tp_name : string).

Definition tp_name (t : pytype) : string :=
  match t with PyClass n => n end.

Definition pytype_eqb (t u : pytype) : bool :=
  String.eqb (tp_name t) (tp_name u).

(** The message templates of the exceptions the sources raise. *)
Inductive message : Type :=
| SuppliedTypeDoesNotMatch (supplied required : pytype)
    (* "Supplied data type {} does not match the required data type {}" *)
| DatumDoesNotExist (index : Z)
    (* "Datum {} does not exist" *)
| BinSizeLessThanOne (binsize : Z)
    (* "Supplied bin size {} is less than 1" *)
| IndexGreaterThanNumData (index num_data : Z)
    (* "Supplied index {} is greater than the number of data {}" *)
| CannotBeSummed
    (* "Supplied types {} and {} cannot be summed" *)
| UnsupportedDivisor
    (* "Unsupported divisor of type {}" *)
| NotIterable
    (* raised by [zip] on an argument that cannot be iterated *)
| BadOperand
    (* raised by an arithmetic operator on operands it does not accept *)
| LowNotBelowHigh
    (* "low >= high", from [numpy.random.randint] *)
| CannotBroadcast.
    (* "operands could not be broadcast together" *)

Inductive exn : Type :=
| TypeError (m : message)
| ValueError (m : message)
| KeyError (name : string)
| IndexError
| ZeroDivisionError
| NameError (name : string)
| AttributeError (name : string)
| IOError (name : string).

Inductive result (A : Type) : Type :=
| Ok (a : A)
| Raise (e : exn).
Arguments Ok {A} a.
Arguments Raise {A} e.

Definition bind {A B : Type} (c : result A) (k : A -> result B) : result B :=
  match c with
  | Ok a => k a
  | Raise e => Raise e
  end.

Definition fmap {A B : Type} (f : A -> B) (c : result A) : result B :=
  bind c (fun a => Ok (f a)).

(** [for x in xs: acc = body(acc, x)], stopping at the first exception. *)
Fixpoint for_each {A X : Type} (xs : list X) (acc : A)
         (body : A -> X -> result A) : result A :=
  match xs with
  | [] => Ok acc
  | x :: xs' => bind (body acc x) (fun acc' => for_each xs' acc' body)
  end.

(** [[f(x) for x in xs]], stopping at the first exception. *)
Fixpoint comprehension {X Y : Type} (f : X -> result Y) (xs : list X)
  : result (list Y) :=
  match xs with
  | [] => Ok []
  | x :: xs' =>
      bind (f x) (fun y => bind (comprehension f xs') (fun ys => Ok (y :: ys)))
  end.

(** [xrange(lo, hi)] *)
Definition xrange (lo hi : Z) : list Z :=
  map (fun k => lo + Z.of_nat k) (seq 0 (Z.to_nat (hi - lo))).

(** ["{}".format(n)] for an int: its decimal numeral. *)
Definition format_int (n : Z) : string :=
  NilZero.string_of_int (Z.to_int n).

(** The values the measurement algebra inspects with [type(a)]. A [dict]
    is the list of its items in iteration order, which is the order of both
    [keys()] and [values()]. [PyLong] is Python 2's [long]: what an
    operation on ints returns when the result does not fit an int. *)
#[local] Unset Elimination Schemes.
Inductive pyval : Type :=
| PyNone
| PyBool (b : bool)
| PyInt (z : Z)
| PyLong (z : Z)
| PyFloat (x : R)
| PyStr (s : string)
| NpFloat64 (x : R)
| NpNdarray (a : list R)
| PyList (l : list pyval)
| PyTuple (l : list pyval)
| PyDict (d : list (pyval * pyval))
| PyObject (t : pytype).
#[local] Set Elimination Schemes.

(** [a.keys()] and [a.values()] *)
Definition keys (d : list (pyval * pyval)) : list pyval := map fst d.
Definition values (d : list (pyval * pyval)) : list pyval := map snd d.

(** [dict(zip(ks, vs))]; the keys of a dict are distinct, so no entry
    replaces an earlier one. *)
Definition dict_zip (ks vs : list pyval) : pyval := PyDict (combine ks vs).

(** Iterating over a value, as [zip] does with its arguments. *)
Definition iterate (v : pyval) : result (list pyval) :=
  match v with
  | PyList l | PyTuple l => Ok l
  | PyDict d => Ok (keys d)
  | NpNdarray a => Ok (map NpFloat64 a)
  | _ => Raise (TypeError NotIterable)
  end.

(** [v != None] is [negb (is_None v)]; an array of the numpy the source was
    written for compares unequal to [None] as a whole. *)
Definition is_None (v : pyval) : bool :=
  match v with PyNone => true | _ => false end.

End Py.
Import Py.

Declare Scope py_scope.
Delimit Scope py_scope with py.
Notation "x <- c ;; k" := (bind c (fun x => k))
  (at level 61, c at next level, right associativity) : py_scope.
Local Open Scope py_scope.

(** ** Zip archives *)

Module Zip.

Section Members.
Context {P : Type}.

(** The members of an archive, oldest first. *)
Definition archive : Type := list (string * P).

(** [zfile.write(name)] in mode ['a']: the member is appended, also when
    the name is already there. *)
Definition write (z : archive) (name : string) (p : P) : archive :=
  z ++ [(name, p)].

(** [zfile.getinfo(name)]: the latest member of that name. *)
Fixpoint getinfo (z : archive) (name : string) : option P :=
  match z with
  | [] => None
  | (n, p) :: z' =>
      match getinfo z' name with
      | Some q => Some q
      | None => if String.eqb n name then Some p else None
      end
  end.

Definition namelist (z : archive) : list string := map fst z.
End Members.

Arguments archive P : clear implicits.

Inductive compression : Type := ZIP_STORED | ZIP_DEFLATED.

End Zip.

(** ** [pyQCD/core/dataset.py] *)

Module DataSet.

(** *** Arithmetic on the numeric leaves *)

(** [type(a) == int or type(a) == float or type(a) == np.float64
     or type(a) == np.ndarray] *)
Definition is_numeric (a : pyval) : bool :=
  match a with
  | PyInt _ | PyFloat _ | NpFloat64 _ | NpNdarray _ => true
  | _ => false
  end.

Inductive operator : Type := Plus | Minus | Times.

Definition int_op (o : operator) : Z -> Z -> Z :=
  match o with Plus => Z.add | Minus => Z.sub | Times => Z.mul end.

Definition real_op (o : operator) : R -> R -> R :=
  match o with Plus => Rplus | Minus => Rminus | Times => Rmult end.

(** Two arrays of one dimension are combined entry by entry; an array of
    one entry is stretched to the other's length. *)
Definition broadcast (f : R -> R -> R) (a b : list R) : result (list R) :=
  match a, b with
  | [x], _ => Ok (map (f x) b)
  | _, [y] => Ok (map (fun x => f x y) a)
  | _, _ =>
      if Nat.eqb (List.length a) (List.length b)
      then Ok (map (fun p => f (fst p) (snd p)) (combine a b))
      else Raise (ValueError CannotBroadcast)
  end.

(** [sys.maxint] of a 64-bit build of Python 2: an int holds the numbers
    from [-maxint - 1] to [maxint]. *)
Definition maxint : Z := 9223372036854775807.

Definition is_int (z : Z) : bool := (- maxint - 1 <=? z) && (z <=? maxint).

(** The result of an operation on two ints: an int when it fits, and a
    [long] when it does not. *)
Definition int_or_long (z : Z) : pyval :=
  if is_int z then PyInt z else PyLong z.

(** [a + b], [a - b] and [a * b] on ints, floats, [numpy.float64] and
    arrays, the types that the measurement algebra lets through to its
    numeric case. *)
Definition arith (o : operator) (a b : pyval) : result pyval :=
  match a, b with
  | PyInt x, PyInt y => Ok (int_or_long (int_op o x y))
  | PyInt x, PyFloat y => Ok (PyFloat (real_op o (IZR x) y))
  | PyFloat x, PyInt y => Ok (PyFloat (real_op o x (IZR y)))
  | PyFloat x, PyFloat y => Ok (PyFloat (real_op o x y))
  | PyInt x, NpFloat64 y => Ok (NpFloat64 (real_op o (IZR x) y))
  | PyFloat x, NpFloat64 y => Ok (NpFloat64 (real_op o x y))
  | NpFloat64 x, PyInt y => Ok (NpFloat64 (real_op o x (IZR y)))
  | NpFloat64 x, PyFloat y => Ok (NpFloat64 (real_op o x y))
  | NpFloat64 x, NpFloat64 y => Ok (NpFloat64 (real_op o x y))
  | PyInt x, NpNdarray ys => Ok (NpNdarray (map (real_op o (IZR x)) ys))
  | PyFloat x, NpNdarray ys | NpFloat64 x, NpNdarray ys =>
      Ok (NpNdarray (map (real_op o x) ys))
  | NpNdarray xs, PyInt y =>
      Ok (NpNdarray (map (fun x => real_op o x (IZR y)) xs))
  | NpNdarray xs, PyFloat y | NpNdarray xs, NpFloat64 y =>
      Ok (NpNdarray (map (fun x => real_op o x y) xs))
  | NpNdarray xs, NpNdarray ys => fmap NpNdarray (broadcast (real_op o) xs ys)
  | _, _ => Raise (TypeError BadOperand)
  end.

Definition real_is_zero (x : R) : bool :=
  if Req_dec_T x 0%R then true else false.

(** [a / div] for a numeric [a] and an int or float [div]. Two ints divide
    with Python 2's floor division, which leaves the ints only for
    [(-maxint - 1) / -1]; an int or a float divided by zero raises
    [ZeroDivisionError], numpy's values do not raise. *)
Definition truediv (a div : pyval) : result pyval :=
  match a, div with
  | PyInt x, PyInt d =>
      if d =? 0 then Raise ZeroDivisionError else Ok (int_or_long (x / d))
  | PyInt x, PyFloat d =>
      if real_is_zero d then Raise ZeroDivisionError
      else Ok (PyFloat (IZR x / d))
  | PyFloat x, PyInt d =>
      if d =? 0 then Raise ZeroDivisionError else Ok (PyFloat (x / IZR d))
  | PyFloat x, PyFloat d =>
      if real_is_zero d then Raise ZeroDivisionError else Ok (PyFloat (x / d))
  | NpFloat64 x, PyInt d => Ok (NpFloat64 (x / IZR d))
  | NpFloat64 x, PyFloat d => Ok (NpFloat64 (x / d))
  | NpNdarray xs, PyInt d => Ok (NpNdarray (map (fun x => (x / IZR d)%R) xs))
  | NpNdarray xs, PyFloat d => Ok (NpNdarray (map (fun x => (x / d)%R) xs))
  | _, _ => Raise (TypeError BadOperand)
  end.

(** [np.sqrt(a)] for a numeric [a] *)
Definition np_sqrt (a : pyval) : result pyval :=
  match a with
  | PyInt x => Ok (NpFloat64 (sqrt (IZR x)))
  | PyFloat x | NpFloat64 x => Ok (NpFloat64 (sqrt x))
  | NpNdarray xs => Ok (NpNdarray (map sqrt xs))
  | _ => Raise (TypeError BadOperand)
  end.

(** *** The recursion of the measurement algebra *)

(** The number of constructors of a value, counting a tuple and a dict one
    more than the list of the same items: the measure under which the calls
    of [_add_measurements] and its sisters decrease. *)
Fixpoint size (v : pyval) : nat :=
  match v with
  | PyList l => 1 + list_sum (map size l)
  | PyTuple l => 2 + list_sum (map size l)
  | PyDict d => 2 + list_sum (map (fun kv => size (snd kv)) d)
  | _ => 1
  end.

Definition weight (a b : pyval) : nat :=
  2 * (size a + size b) +
  match a, b with
  | PyList _, PyDict _ => 1
  | _, _ => 0
  end.

(** [[f(x, y) for x, y in zip(xs, ys)]], where [f] is told that its
    arguments come from the two lists. *)
Fixpoint zip_with_in {X Y B : Type} (xs : list X) (ys : list Y) {struct xs}
  : (forall x y, In x xs -> In y ys -> result B) -> result (list B) :=
  match xs as xs0, ys as ys0
        return (forall x y, In x xs0 -> In y ys0 -> result B) -> result (list B)
  with
  | x :: xs', y :: ys' => fun f =>
      r <- f x y (or_introl eq_refl) (or_introl eq_refl) ;;
      rs <- zip_with_in xs' ys'
              (fun x' y' Hx Hy => f x' y' (or_intror Hx) (or_intror Hy)) ;;
      Ok (r :: rs)
  | _, _ => fun _ => Ok []
  end.

(** [[f(x, y) for x, y in zip(xs, ys)]] *)
Fixpoint zip_with {X Y B : Type} (f : X -> Y -> result B)
         (xs : list X) (ys : list Y) : result (list B) :=
  match xs, ys with
  | x :: xs', y :: ys' =>
      r <- f x y ;; rs <- zip_with f xs' ys' ;; Ok (r :: rs)
  | _, _ => Ok []
  end.

Lemma size_in (x : pyval) (l : list pyval) :
  In x l -> (size x <= list_sum (map size l))%nat.
Proof.
  induction l as [|y l IH]; simpl; [tauto|].
  intros [->|H]; [lia|]. specialize (IH H). lia.
Qed.

Lemma size_values (d : list (pyval * pyval)) :
  list_sum (map size (values d)) = list_sum (map (fun kv => size (snd kv)) d).
Proof. unfold values. now rewrite map_map. Qed.

(** The common body of [_add_measurements], [_sub_measurements] and
    [_mul_measurements], which differ in the operator of the numeric case
    only. The two [if type(.) == tuple] conversions come first; the cases
    then follow the source's [if]/[elif] chain in its order. *)
Equations? measurements (o : operator) (a b : pyval) : result pyval
  by wf (weight a b) lt :=
  measurements o (PyTuple xs) b := measurements o (PyList xs) b;
  measurements o a (PyTuple ys) := measurements o a (PyList ys);
  measurements o (PyList xs) (PyList ys) :=
    fmap PyList (zip_with_in xs ys (fun x y _ _ => measurements o x y));
  measurements o (PyDict da) (PyDict db) :=
    measurements o (PyDict da) (PyList (values db));
  measurements o (PyDict da) (PyList ys) :=
    r <- measurements o (PyList (values da)) (PyList ys) ;;
    rs <- iterate r ;;
    Ok (dict_zip (keys da) rs);
  measurements o (PyList xs) (PyDict db) :=
    measurements o (PyDict db) (PyList xs);
  measurements o a b :=
    if is_numeric a && is_numeric b then arith o a b
    else Raise (TypeError CannotBeSummed).
Proof.
  all: unfold weight; simpl; try rewrite size_values; try lia.
  all: try (destruct b; simpl; lia).
  all: try (destruct a; simpl; lia).
  match goal with
  | Hx : In _ _, Hy : In _ _ |- _ =>
      apply size_in in Hx; apply size_in in Hy
  end.
  destruct x, y; simpl in *; lia.
Qed.

Definition _add_measurements : pyval -> pyval -> result pyval :=
  measurements Plus.
Definition _sub_measurements : pyval -> pyval -> result pyval :=
  measurements Minus.
Definition _mul_measurements : pyval -> pyval -> result pyval :=
  measurements Times.

(** [[f(x) for x in xs]], where [f] is told that its argument comes from
    the list. *)
Fixpoint comprehension_in {X B : Type} (xs : list X) {struct xs}
  : (forall x, In x xs -> result B) -> result (list B) :=
  match xs as xs0 return (forall x, In x xs0 -> result B) -> result (list B)
  with
  | [] => fun _ => Ok []
  | x :: xs' => fun f =>
      r <- f x (or_introl eq_refl) ;;
      rs <- comprehension_in xs' (fun x' Hx => f x' (or_intror Hx)) ;;
      Ok (r :: rs)
  end.

(** [type(div) != float and type(div) != int] *)
Definition bad_divisor (div : pyval) : bool :=
  match div with
  | PyFloat _ | PyInt _ => false
  | _ => true
  end.

(** [_div_measurements(a, div)]. The divisor is checked at every call; a
    value that is no list, tuple, dict or number runs off the end of the
    function, which returns [None]. *)
Equations? _div_measurements (a div : pyval) : result pyval
  by wf (size a) lt :=
  _div_measurements a div with bad_divisor div => {
    | true => Raise (TypeError UnsupportedDivisor)
    | false with a => {
      | PyList l =>
          fmap PyList
            (comprehension_in l (fun x _ => _div_measurements x div))
      | PyTuple l =>
          fmap PyList
            (comprehension_in l (fun x _ => _div_measurements x div))
      | PyDict d =>
          r <- _div_measurements (PyList (values d)) div ;;
          rs <- iterate r ;;
          Ok (dict_zip (keys d) rs)
      | PyFloat x => truediv (PyFloat x) div
      | PyInt x => truediv (PyInt x) div
      | NpFloat64 x => truediv (NpFloat64 x) div
      | NpNdarray xs => truediv (NpNdarray xs) div
      | _ => Ok PyNone } }.
Proof.
  all: simpl; try rewrite size_values; try lia.
  all: match goal with H : In _ _ |- _ => apply size_in in H; lia end.
Qed.

(** [_sqrt_measurements(a)], with the same fall through to [None]. *)
Equations? _sqrt_measurements (a : pyval) : result pyval
  by wf (size a) lt :=
  _sqrt_measurements (PyList l) :=
    fmap PyList (comprehension_in l (fun x _ => _sqrt_measurements x));
  _sqrt_measurements (PyTuple l) :=
    fmap PyList (comprehension_in l (fun x _ => _sqrt_measurements x));
  _sqrt_measurements (PyDict d) :=
    r <- _sqrt_measurements (PyList (values d)) ;;
    rs <- iterate r ;;
    Ok (dict_zip (keys d) rs);
  _sqrt_measurements (PyFloat x) := np_sqrt (PyFloat x);
  _sqrt_measurements (PyInt x) := np_sqrt (PyInt x);
  _sqrt_measurements (NpFloat64 x) := np_sqrt (NpFloat64 x);
  _sqrt_measurements (NpNdarray xs) := np_sqrt (NpNdarray xs);
  _sqrt_measurements _ := Ok PyNone.
Proof.
  all: simpl; try rewrite size_values; try lia.
  all: match goal with H : In _ _ |- _ => apply size_in in H; lia end.
Qed.

(** [len(data)] as an int *)
Definition len {X : Type} (data : list X) : Z := Z.of_nat (List.length data).

Definition Rsum (xs : list R) : R := fold_right Rplus 0%R xs.

(** [np.mean(data, axis=0)] and [np.std(data, axis=0)] of an array of one
    dimension *)
Definition np_mean (xs : list R) : R := (Rsum xs / IZR (len xs))%R.
Definition np_std (xs : list R) : R :=
  sqrt (np_mean (map (fun x => Rsqr (x - np_mean xs)) xs)).

(** [_mean(data)] *)
Definition _mean (data : pyval) : result pyval :=
  match data with
  | PyList data =>
      match data with
      | [] => Raise IndexError
      | datum0 :: rest =>
          out <- for_each rest datum0
                   (fun out datum => _add_measurements out datum) ;;
          _div_measurements out (PyInt (len data))
      end
  | NpNdarray xs => Ok (NpFloat64 (np_mean xs))
  | _ => Ok PyNone
  end.

(** The sum of squared deviations that [_std] and [_std_jackknife] build
    in the same way. *)
Definition squared_deviations (data : list pyval) (mean : pyval)
  : result pyval :=
  match data with
  | [] => Raise IndexError
  | datum0 :: rest =>
      diff <- _sub_measurements datum0 mean ;;
      out <- _mul_measurements diff diff ;;
      for_each rest out
        (fun out datum =>
           diff <- _sub_measurements datum mean ;;
           square <- _mul_measurements diff diff ;;
           _add_measurements out square)
  end.

(** [_std(data)] *)
Definition _std (data : pyval) : result pyval :=
  match data with
  | PyList data =>
      mean <- _mean (PyList data) ;;
      out <- squared_deviations data mean ;;
      quotient <- _div_measurements out (PyInt (len data)) ;;
      _sqrt_measurements quotient
  | NpNdarray xs => Ok (NpFloat64 (np_std xs))
  | _ => Ok PyNone
  end.

(** [_std_jackknife(data)]; [div = float(len(data)) / (len(data) - 1)] *)
Definition _std_jackknife (data : pyval) : result pyval :=
  match data with
  | PyList data =>
      mean <- _mean (PyList data) ;;
      out <- squared_deviations data mean ;;
      div <- truediv (PyFloat (IZR (len data))) (PyInt (len data - 1)) ;;
      quotient <- _div_measurements out div ;;
      _sqrt_measurements quotient
  | NpNdarray xs => Ok (NpFloat64 (np_std xs))
  | _ => Ok PyNone
  end.

(** *** Strings as [load] takes them apart *)

(** [fname.startswith(name)] and [fname.find(text) < 0] *)
Definition startswith (fname name : string) : bool := String.prefix name fname.

Definition lacks (fname text : string) : bool :=
  match String.index 0 text fname with
  | None => true
  | Some _ => false
  end.

(** [fname[start:-4]] for [start <= len(fname)] *)
Definition slice_to_minus_4 (fname : string) (start : nat) : string :=
  String.substring start (String.length fname - 4 - start) fname.

(** [max(data)] of a non-empty list of ints *)
Definition py_max (data : list Z) : Z :=
  match data with
  | [] => 0
  | x :: rest => fold_left Z.max rest x
  end.

(** What [load] returns: the store, an exception of the archive, the failure
    of [cPickle.load] on a member that is no pickle, or the [ValueError] of
    [int] with the literal it could not read. *)
Inductive loaded (A : Type) : Type :=
| Loaded (a : A)
| LoadFailed (e : exn)
| NotAPickle (name : string)
| InvalidLiteral (literal : string).
Arguments Loaded {A} a.
Arguments LoadFailed {A} e.
Arguments NotAPickle {A} name.
Arguments InvalidLiteral {A} literal.

(** [[int(s) for s in literals]], stopping at the first literal that [int]
    rejects. *)
Fixpoint ints (int : string -> option Z) (literals : list string)
  : string + list Z :=
  match literals with
  | [] => inr []
  | s :: rest =>
      match int s with
      | None => inl s
      | Some n =>
          match ints int rest with
          | inl bad => inl bad
          | inr ns => inr (n :: ns)
          end
      end
  end.

(** *** The stored data type *)

(** What [DataSet] asks of the class whose instances it stores: the
    operators its methods apply to a datum. [save] and [load] are the
    archive's [Npz] payload below. *)
Class Datatype (D : Type) : Type := {
  type_of : D -> pytype;            (* type(datum) *)
  d_add : D -> D -> D;              (* a + b, a += b *)
  d_sub : D -> D -> D;              (* a - b *)
  d_div : D -> Z -> result D;       (* a / n, a /= n, n an int *)
  d_square : D -> D;                (* a ** 2 *)
  d_root : D -> D                   (* a ** 0.5 *)
}.

(** A scalar measurement: a class that wraps one real number. *)
Record Scalar : Type := { value : R }.

#[export] Instance Scalar_Datatype : Datatype Scalar := {
  type_of _ := PyClass "Scalar";
  d_add a b := {| value := value a + value b |};
  d_sub a b := {| value := value a - value b |};
  d_div a n :=
    if n =? 0 then Raise ZeroDivisionError
    else Ok {| value := value a / IZR n |};
  d_square a := {| value := value a * value a |};
  d_root a := {| value := sqrt (value a) |}
}.



Section Store.
Context {D : Type} `{Datatype D}.

(** A member of the archive: the pickled type marker or a saved datum. *)
Inductive member : Type :=
| Pickled (t : pytype)
| Npz (d : D).

(** The attributes of a [DataSet] object, with the members of the zip
    file [filename] and the files of the directory [pyQCDcache]. *)
Record DataSet : Type := {
  datatype : pytype;
  num_data : Z;
  filename : string;
  jackknifes_cached : bool;
  large_file : bool;
  storage_mode : Zip.compression;
  zfile : Zip.archive member;
  pyQCDcache : Zip.archive D
}.

(** [DataSet(datatype, filename, compress)]. [zlib] tells whether the
    interpreter has the zlib module; without it [zipfile] raises the
    [RuntimeError] that the constructor catches. *)
Definition __init__ (zlib : bool) (datatype : pytype) (filename : string)
           (compress : bool) : DataSet :=
  let storage_mode := if compress then Zip.ZIP_DEFLATED else Zip.ZIP_STORED in
  let failed := compress && negb zlib in
  {| datatype := datatype;
     num_data := 0;
     filename := filename;
     jackknifes_cached := false;
     large_file := negb failed;
     storage_mode := if failed then Zip.ZIP_STORED else storage_mode;
     zfile := Zip.write [] "type" (Pickled datatype);
     pyQCDcache := [] |}.

(** ["{}{}.npz".format(self.datatype.__name__, index)] *)
Definition member_name (self : DataSet) (index : Z) : string :=
  (tp_name (datatype self) ++ format_int index ++ ".npz")%string.

Definition with_zfile (self : DataSet) (z : Zip.archive member) : DataSet :=
  {| datatype := datatype self; num_data := num_data self;
     filename := filename self;
     jackknifes_cached := jackknifes_cached self;
     large_file := large_file self; storage_mode := storage_mode self;
     zfile := z; pyQCDcache := pyQCDcache self |}.

Definition with_num_data (self : DataSet) (n : Z) : DataSet :=
  {| datatype := datatype self; num_data := n;
     filename := filename self;
     jackknifes_cached := jackknifes_cached self;
     large_file := large_file self; storage_mode := storage_mode self;
     zfile := zfile self; pyQCDcache := pyQCDcache self |}.

Definition with_cache (self : DataSet) (cached : bool)
           (files : Zip.archive D) : DataSet :=
  {| datatype := datatype self; num_data := num_data self;
     filename := filename self;
     jackknifes_cached := cached;
     large_file := large_file self; storage_mode := storage_mode self;
     zfile := zfile self; pyQCDcache := files |}.

Definition add_datum (self : DataSet) (datum : D) : result DataSet :=
  if negb (pytype_eqb (type_of datum) (datatype self)) then
    Raise (TypeError (SuppliedTypeDoesNotMatch (type_of datum) (datatype self)))
  else
    let zfile' :=
      Zip.write (zfile self) (member_name self (num_data self)) (Npz datum) in
    Ok (with_num_data (with_zfile self zfile') (num_data self + 1)).

Definition get_datum (self : DataSet) (index : Z) : result D :=
  let filename := member_name self index in
  match Zip.getinfo (zfile self) filename with
  | Some (Npz output) => Ok output
  | Some (Pickled _) => Raise (IOError filename)
  | None => Raise (KeyError filename)
  end.

Definition set_datum (self : DataSet) (index : Z) (datum : D)
  : result DataSet :=
  if negb (pytype_eqb (type_of datum) (datatype self)) then
    Raise (TypeError (SuppliedTypeDoesNotMatch (type_of datum) (datatype self)))
  else if index >=? num_data self then
    Raise (TypeError (DatumDoesNotExist index))
  else
    let filename := member_name self (num_data self) in
    Ok (with_zfile self (Zip.write (zfile self) filename (Npz datum))).

Definition apply_function (self : DataSet) (func : D -> result D)
  : result DataSet :=
  for_each (xrange 0 (num_data self)) self
    (fun self i =>
       datum <- get_datum self i ;;
       new_datum <- func datum ;;
       set_datum self i new_datum).

(** [measure(func, data)]; an empty [data] stands for all indices. *)
Definition measure (self : DataSet) (func : D -> result pyval) (data : list Z)
  : result pyval :=
  let data := match data with
              | [] => xrange 0 (num_data self)
              | _ => data
              end in
  match data with
  | [] => Raise IndexError
  | first :: rest =>
      datum_sum <- get_datum self first ;;
      datum_sum <- for_each rest datum_sum
                     (fun datum_sum i =>
                        datum <- get_datum self i ;; Ok (d_add datum_sum datum)) ;;
      datum_sum <- d_div datum_sum (len data) ;;
      func datum_sum
  end.

Definition statistics (self : DataSet) : result (D * D) :=
  data_sum <- get_datum self 0 ;;
  data_sum <- for_each (xrange 0 (num_data self)) data_sum
                (fun data_sum i =>
                   datum <- get_datum self i ;; Ok (d_add data_sum datum)) ;;
  data_mean <- d_div data_sum (num_data self) ;;
  datum0 <- get_datum self 0 ;;
  data_std <- for_each (xrange 0 (num_data self))
                (d_square (d_sub datum0 data_mean))
                (fun data_std i =>
                   datum <- get_datum self i ;;
                   Ok (d_add data_std (d_square (d_sub datum data_mean)))) ;;
  data_std <- d_div data_std (num_data self) ;;
  Ok (data_mean, d_root data_std).

Definition _get_bin (self : DataSet) (binsize binnum : Z) : result D :=
  out <- get_datum self (binsize * binnum) ;;
  let first_datum := binsize * binnum + 1 in
  let last_datum := binsize * (binnum + 1) in
  let last_datum :=
    if last_datum >? num_data self then num_data self else last_datum in
  out <- for_each (xrange first_datum last_datum) out
           (fun out i => datum <- get_datum self i ;; Ok (d_add out datum)) ;;
  d_div out binsize.

(** [num_bins = self.num_data / binsize], plus one when a remainder is
    left *)
Definition number_of_bins (self : DataSet) (binsize : Z) : Z :=
  let num_bins := num_data self / binsize in
  if num_data self mod binsize >? 0 then num_bins + 1 else num_bins.

(** The sum of the bins [0 .. num_bins-1], as [jackknife_datum],
    [generate_jackknife_cache] and [jackknife] compute it. *)
Definition sum_of_bins (self : DataSet) (binsize num_bins : Z) : result D :=
  data_sum <- _get_bin self binsize 0 ;;
  for_each (xrange 1 num_bins) data_sum
    (fun data_sum i =>
       bin <- _get_bin self binsize i ;; Ok (d_add data_sum bin)).


Definition jackknife_datum (self : DataSet) (index binsize : Z)
  : result D :=
  if binsize <? 1 then Raise (ValueError (BinSizeLessThanOne binsize))
  else if index >=? num_data self then
    Raise (ValueError (IndexGreaterThanNumData index (num_data self)))
  else
    let num_bins := number_of_bins self binsize in
    data_sum <- sum_of_bins self binsize num_bins ;;
    bin <- _get_bin self binsize index ;;
    d_div (d_sub data_sum bin) (num_bins - 1).
(** ["pyQCDcache/{}_jackknife_binsize{}_{}.npz"
     .format(self.datatype.__name__, binsize, i)] *)
Definition jackknife_filename (self : DataSet) (binsize i : Z) : string :=
  ("pyQCDcache/" ++ tp_name (datatype self) ++ "_jackknife_binsize"
     ++ format_int binsize ++ "_" ++ format_int i ++ ".npz")%string.

Definition generate_jackknife_cache (self : DataSet) (binsize : Z)
  : result DataSet :=
  if binsize <? 1 then Raise (ValueError (BinSizeLessThanOne binsize))
  else
    let num_bins := number_of_bins self binsize in
    data_sum <- sum_of_bins self binsize num_bins ;;
    files <- for_each (xrange 0 num_bins) (pyQCDcache self)
      (fun files i =>
         bin <- _get_bin self binsize i ;;
         new_datum <- d_div (d_sub data_sum bin) (num_bins - 1) ;;
         Ok (Zip.write files (jackknife_filename self binsize i) new_datum)) ;;
    Ok (with_cache self true files).

Definition jackknife (self : DataSet) (func : D -> result pyval)
           (binsize : Z) (use_cache : bool)
  : result (pyval * pyval * DataSet) :=
  if binsize <? 1 then Raise (ValueError (BinSizeLessThanOne binsize))
  else
    let num_bins := number_of_bins self binsize in
    let collect (out : list pyval) (measurement : pyval) :=
      if is_None measurement then out else out ++ [measurement] in
    state <-
      (if use_cache then
         self <- (if negb (jackknifes_cached self)
                  then generate_jackknife_cache self binsize
                  else Ok self) ;;
         out <- for_each (xrange 0 num_bins) []
           (fun out i =>
              let name := jackknife_filename self binsize i in
              match Zip.getinfo (pyQCDcache self) name with
              | None => Raise (IOError name)
              | Some jackknife_datum =>
                  measurement <- func jackknife_datum ;;
                  Ok (collect out measurement)
              end) ;;
         Ok (out, self)
       else
         data_sum <- sum_of_bins self binsize num_bins ;;
         out <- for_each (xrange 0 num_bins) []
           (fun out i =>
              bin <- _get_bin self binsize i ;;
              new_datum <- d_div (d_sub data_sum bin) (num_bins - 1) ;;
              measurement <- func new_datum ;;
              Ok (collect out measurement)) ;;
         Ok (out, self)) ;;
    let '(out, self) := state in
    mean <- _mean (PyList out) ;;
    std <- _std_jackknife (PyList out) ;;
    Ok (mean, std, self).
(** [DataSet.load(filename)], given the members of the zip file [filename]
    and the files of [pyQCDcache]. [int] is the builtin on strings, [None]
    being its [ValueError]. Without zlib the archive is opened again
    uncompressed and [compress] is false. *)
Definition load (zlib : bool) (int : string -> option Z) (filename : string)
           (archive : Zip.archive member) (cache : Zip.archive D)
  : loaded DataSet :=
  let compress := zlib in
  match Zip.getinfo archive "type" with
  | None => LoadFailed (KeyError "type")
  | Some (Npz _) => NotAPickle "type"
  | Some (Pickled datatype) =>
      let out := __init__ zlib datatype "000.zip" compress in
      let out :=
        {| datatype := datatype; num_data := num_data out;
           filename := filename;
           jackknifes_cached := jackknifes_cached out;
           large_file := large_file out; storage_mode := storage_mode out;
           zfile := archive; pyQCDcache := cache |} in
      let name := tp_name datatype in
      let fnames :=
        filter (fun fname => startswith fname name && lacks fname "jackknife")
               (Zip.namelist archive) in
      match ints int (map (fun fname =>
                             slice_to_minus_4 fname (String.length name))
                          fnames) with
      | inl literal => InvalidLiteral literal
      | inr data =>
          Loaded (if 0 <? len data then with_num_data out (py_max data + 1)
                  else out)
      end
  end.
End Store.

Arguments member D : clear implicits.
Arguments DataSet D : clear implicits.

End DataSet.

(** ** [pyQCD/core/twopoint.py] *)

Module TwoPoint.

(** [np.sign(x)] *)
Definition np_sign (x : R) : R :=
  if Rlt_dec x 0 then (-1)%R else if Rlt_dec 0 x then 1%R else 0%R.

Definition real_eqb (x y : R) : bool :=
  if Req_dec_T x y then true else false.

(** [a[i]] on an array of one dimension: a negative index counts from the
    end. *)
Definition item {X : Type} (a : list X) (i : Z) : result X :=
  let n := Z.of_nat (List.length a) in
  let j := if i <? 0 then i + n else i in
  if (j <? 0) || (j >=? n) then Raise IndexError
  else match nth_error a (Z.to_nat j) with
       | Some x => Ok x
       | None => Raise IndexError
       end.

(** [a[1:]] and [a[:0:-1]] *)
Definition from_1 {X : Type} (a : list X) : list X := skipn 1 a.
Definition down_to_1 {X : Type} (a : list X) : list X := rev (skipn 1 a).

(** [u + v], [u - v] for two arrays of one length, and [u / 2] *)
Definition array_add (u v : list R) : list R :=
  map (fun p => (fst p + snd p)%R) (combine u v).
Definition array_sub (u v : list R) : list R :=
  map (fun p => (fst p - snd p)%R) (combine u v).
Definition array_half (u : list R) : list R := map (fun x => (x / 2)%R) u.

Definition fold_correlator (correlator : list R) : result (list R) :=
  c1 <- item correlator 1 ;;
  clast <- item correlator (-1) ;;
  c0 <- item correlator 0 ;;
  if real_eqb (np_sign c1) (np_sign clast) then
    Ok (c0 :: array_half (array_add (down_to_1 correlator) (from_1 correlator)))
  else
    Ok (c0 :: array_half (array_sub (from_1 correlator) (down_to_1 correlator))).

(** The names bound in the module's global scope: its imports and its
    functions, and the names that the star import of [constants] supplies
    ([Gammas] and the list of interpolators). *)
Definition module_globals : list string :=
  [ "absolute_import"; "division"; "unicode_literals"; "print_function";
    "warnings"; "np"; "spop"; "Gammas"; "interpolators";
    "spin_prod"; "prop_adjoint"; "parmap";
    "fold_correlator"; "filter_correlators"; "compute_meson_corr";
    "_get_all_momenta"; "_compute_correlator"; "compute_meson_corr256";
    "fit_correlators"; "fit_1_correlator"; "compute_energy";
    "compute_energy_sqr"; "compute_effmass" ].

(** Reading a name that is no local variable: it is looked up among the
    globals, and [NameError] is raised when it is not there. *)
Definition load_global (name : string) : result string :=
  if existsb (String.eqb name) module_globals then Ok name
  else Raise (NameError name).

(** [p[0]**2 + p[1]**2 + p[2]**2] and the scan of [_get_all_momenta] *)
Definition _get_all_momenta (p : list Z) (L T : Z) : result (list (list Z)) :=
  p0 <- item p 0 ;; p1 <- item p 1 ;; p2 <- item p 2 ;;
  let p2 := p0 ^ 2 + p1 ^ 2 + p2 ^ 2 in
  let range := xrange (- L / 2) (L / 2) in
  Ok (flat_map (fun px =>
        flat_map (fun py =>
          flat_map (fun pz =>
            if px ^ 2 + py ^ 2 + pz ^ 2 =? p2
            then [[px mod L; py mod L; pz mod L]] else [])
          range) range) range).

Definition momentum_eqb (p q : list Z) : bool :=
  if list_eq_dec Z.eq_dec p q then true else false.

(** [out[key] = v] on a dict *)
Fixpoint setitem {V : Type} (out : list (list Z * V)) (key : list Z) (v : V)
  : list (list Z * V) :=
  match out with
  | [] => [(key, v)]
  | (k, w) :: out' =>
      if momentum_eqb k key then (k, v) :: out' else (k, w) :: setitem out' key v
  end.

(** The key of a dict of correlators:
    [(label, masses, momentum, source_type, sink_type)] *)
Record attributes : Type := {
  label : string;
  masses : list R;
  momentum : list Z;
  source_type : string;
  sink_type : string
}.

Definition masses_eqb (p q : list R) : bool :=
  if list_eq_dec Req_dec_T p q then true else false.

Definition attributes_eqb (a b : attributes) : bool :=
  String.eqb (label a) (label b) && masses_eqb (masses a) (masses b)
  && momentum_eqb (momentum a) (momentum b)
  && String.eqb (source_type a) (source_type b)
  && String.eqb (sink_type a) (sink_type b).

(** One round of the loop over [filter_params]:
    [if param != None: [attrib for attrib in attributes if attrib[i] == param]] *)
Definition narrow {X : Type} (eqb : X -> X -> bool) (field : attributes -> X)
           (param : option X) (correlator_attributes : list attributes)
  : list attributes :=
  match param with
  | None => correlator_attributes
  | Some p => filter (fun attrib => eqb (field attrib) p) correlator_attributes
  end.

(** [data[attrib]] *)
Definition getitem {V : Type} (data : list (attributes * V)) (attrib : attributes)
  : result V :=
  match find (fun kv => attributes_eqb (fst kv) attrib) data with
  | Some kv => Ok (snd kv)
  | None => Raise (KeyError (label attrib))
  end.

Inductive filtered (V : Type) : Type :=
| TheCorrelator (c : V)
| Correlators (d : list (attributes * V)).
Arguments TheCorrelator {V} c.
Arguments Correlators {V} d.

Section Filter.
(** [round(mass, 8)] *)
Variable round8 : R -> R.
Context {V : Type}.

Definition filter_correlators (data : list (attributes * V))
           (label' : option string) (masses' : option (list R))
           (momentum' : option (list Z))
           (source_type' sink_type' : option string)
  : result (filtered V) :=
  let correlator_attributes := map fst data in
  let masses' := option_map (map round8) masses' in
  let correlator_attributes :=
    narrow String.eqb label label' correlator_attributes in
  let correlator_attributes :=
    narrow masses_eqb masses masses' correlator_attributes in
  let correlator_attributes :=
    narrow momentum_eqb momentum momentum' correlator_attributes in
  let correlator_attributes :=
    narrow String.eqb source_type source_type' correlator_attributes in
  let correlator_attributes :=
    narrow String.eqb sink_type sink_type' correlator_attributes in
  match correlator_attributes with
  | [attrib] => fmap TheCorrelator (getitem data attrib)
  | _ =>
      correlators <- comprehension (getitem data) correlator_attributes ;;
      Ok (Correlators (combine correlator_attributes correlators))
  end.
End Filter.

Inductive interpolator (tensor : Type) : Type :=
| Named (label : string)
| Matrix (gamma : tensor).
Arguments Named {tensor} label.
Arguments Matrix {tensor} gamma.

(** [momenta]: the three ints of one momentum, or a list of momenta *)
Inductive momenta_argument : Type :=
| OneMomentum (p : list Z)
| ManyMomenta (ps : list (list Z)).

Inductive correlators (tensor : Type) : Type :=
| SingleArray (c : tensor)
| Mapping (d : list (list Z * tensor)).
Arguments SingleArray {tensor} c.
Arguments Mapping {tensor} d.

Section Propagators.
(** The arrays of numpy and what the propagator module, the table of
    gamma matrices and numpy do with them. *)
Variable tensor : Type.
Variable Gammas : list (string * tensor).
Variable spin_prod : tensor -> tensor -> tensor.
Variable prop_adjoint : tensor -> tensor.
Variable einsum_txyzijab_txyzjiba : tensor -> tensor -> tensor.
Variable fftn_axes_1_2_3 : tensor -> tensor.
Variable shape : tensor -> list Z.
(** [c[:, px, py, pz]] *)
Variable at_momentum : tensor -> Z -> Z -> Z -> result tensor.
(** [np.mean(cs, axis=0)] of the stacked arrays *)
Variable mean_axis_0 : list tensor -> tensor.

(** [Gammas[interpolator]] inside [try: ... except TypeError: pass]: an
    array is unhashable, the [TypeError] is caught and the array kept; a
    label that is not in the table raises [KeyError]. *)
Definition resolve (i : interpolator tensor) : result tensor :=
  match i with
  | Matrix gamma => Ok gamma
  | Named label =>
      match find (fun e => String.eqb (fst e) label) Gammas with
      | Some e => Ok (snd e)
      | None => Raise (KeyError label)
      end
  end.

Definition _compute_correlator (prop1 prop2 gamma1 gamma2 : tensor) : tensor :=
  let gp1 := spin_prod gamma1 (prop_adjoint prop1) in
  let gp2 := spin_prod gamma2 prop2 in
  einsum_txyzijab_txyzjiba gp1 gp2.

(** [self.L]: [self] is no local variable of the function. No object of
    the module's globals has an attribute [L]. *)
Definition self_L : result Z :=
  _ <- load_global "self" ;; Raise (AttributeError "L").

Definition compute_meson_corr (propagator1 propagator2 : tensor)
           (source_interpolator sink_interpolator : interpolator tensor)
           (momenta : momenta_argument) (average_momenta fold : bool)
  : result (correlators tensor) :=
  source_interpolator <- resolve source_interpolator ;;
  sink_interpolator <- resolve sink_interpolator ;;
  momenta <- match momenta with
             | OneMomentum p => _ <- item p 0 ;; Ok [p]
             | ManyMomenta ps => _ <- item ps 0 ;; Ok ps
             end ;;
  L <- item (shape propagator1) 1 ;;
  T <- item (shape propagator1) 0 ;;
  let spatial_correlator :=
    _compute_correlator propagator1 propagator2
                        source_interpolator sink_interpolator in
  let mom_correlator := fftn_axes_1_2_3 spatial_correlator in
  out <- for_each momenta []
    (fun out momentum =>
       if average_momenta then
         equiv_momenta <- _get_all_momenta momentum L T ;;
         match equiv_momenta with
         | [] => Raise IndexError
         | _ =>
             equiv_correlators <-
               comprehension
                 (fun q =>
                    qx <- item q 0 ;; qy <- item q 1 ;; qz <- item q 2 ;;
                    at_momentum mom_correlator qx qy qz)
                 equiv_momenta ;;
             Ok (setitem out momentum (mean_axis_0 equiv_correlators))
         end
       else
         momentum <- comprehension
                       (fun i => L' <- self_L ;; Ok (i mod L')) momentum ;;
         m0 <- item momentum 0 ;;
         m1 <- item momentum 1 ;;
         m2 <- item momentum 2 ;;
         correlator <- at_momentum mom_correlator m0 m1 m2 ;;
         Ok (setitem out momentum correlator)) ;;
  match out with
  | [(_, c)] => Ok (SingleArray c)
  | _ => Ok (Mapping out)
  end.
End Propagators.

End TwoPoint.

(** ** [pyQCD/utils/codegen/coretags.py] *)

Module CoreTags.

Section Environment.
(** The template environment [env] of the package, which every function
    imports, and what it does with a template. *)
Variable environment : Type.
Variable template : Type.
Variable env : environment.
Variable get_template : environment -> string -> result template.

Section Typedef.
(** The type descriptor: any value. *)
Context {ContainerDef : Type}.
Variable render : template -> ContainerDef -> result string.

Definition allocation_code (typedef : ContainerDef) : result string :=
  let env := env in
  template <- get_template env "core/allocation.pyx" ;;
  render template typedef.

Definition setget_code (typedef : ContainerDef) : result string :=
  let env := env in
  Ok "".

Definition buffer_code (typedef : ContainerDef) : result string :=
  let env := env in
  Ok "".

Definition static_func_code (typedef : ContainerDef) : result string :=
  let env := env in
  Ok "".
End Typedef.
End Environment.

End CoreTags.

(** ** Vocabulary of the specification *)

Module Spec.
Import DataSet.

Section Ensembles.
Context {D : Type} `{Datatype D}.

(** The store [self] holds the measurements [vs]: its count is their
    number and [get_datum] returns them by position. *)
Definition holds (self : DataSet D) (vs : list D) : Prop :=
  num_data self = len vs /\
  forall (i : nat) (v : D),
    nth_error vs i = Some v -> get_datum self (Z.of_nat i) = Ok v.

(** A store filled by [add_datum], one measurement after the other. *)
Definition filled (empty : DataSet D) (vs : list D) : result (DataSet D) :=
  for_each vs empty add_datum.

(** The measurements [vs[lo], ..., vs[hi-1]] *)
Definition between (vs : list D) (lo hi : Z) : list D :=
  firstn (Z.to_nat (hi - lo)) (skipn (Z.to_nat lo) vs).

(** The members of bin [binnum]: at most [binsize] measurements from
    position [binsize * binnum] on. *)
Definition bin_members (vs : list D) (binsize binnum : Z) : list D :=
  firstn (Z.to_nat binsize) (skipn (Z.to_nat (binsize * binnum)) vs).

(** The sum [first + x1 + ... + xk], added from the left. *)
Definition d_sum (first : D) (rest : list D) : D :=
  fold_left d_add rest first.

(** The jackknife datum as the specification words it: the sum of the
    averages of all bins but the one that contains [index], divided by
    [num_bins - 1]. *)
Definition leave_out_bin_of (self : DataSet D) (index binsize : Z)
  : result D :=
  let num_bins := number_of_bins self binsize in
  let others :=
    filter (fun k => negb (k =? index / binsize)) (xrange 0 num_bins) in
  bins <- comprehension (_get_bin self binsize) others ;;
  match bins with
  | [] => Raise IndexError
  | bin0 :: rest => d_div (d_sum bin0 rest) (num_bins - 1)
  end.
End Ensembles.

(** An empty store of scalar measurements. *)
Definition empty_scalars : DataSet Scalar :=
  __init__ true (PyClass "Scalar") "ensemble.zip" true.

Definition scalars (xs : list R) : list Scalar := map Build_Scalar xs.

(** The store that [add_datum] fills with the scalars [xs], in their order. *)
Definition stored (xs : list R) : DataSet Scalar :=
  match filled empty_scalars (scalars xs) with
  | Ok self => self
  | Raise _ => empty_scalars
  end.

(** The arithmetic mean and the population standard deviation of real
    numbers. *)
Definition mean (xs : list R) : R := (Rsum xs / IZR (len xs))%R.
Definition population_std (xs : list R) : R :=
  sqrt (Rsum (map (fun x => Rsqr (x - mean xs)) xs) / IZR (len xs)).

(** The average over all [i] of [jackknife_datum(i, binsize=1)]. *)
Definition jackknife_average (self : DataSet Scalar) : result R :=
  data <- comprehension (fun i => jackknife_datum self i 1)
                        (xrange 0 (num_data self)) ;;
  Ok (mean (map value data)).

(** The results of a measurement function that the measurement algebra
    works on: numbers and arrays, and lists, tuples and dicts of them. An
    int is a number that fits one. *)
#[local] Unset Elimination Schemes.
Inductive supported : pyval -> Prop :=
| supported_int z : is_int z = true -> supported (PyInt z)
| supported_float x : supported (PyFloat x)
| supported_float64 x : supported (NpFloat64 x)
| supported_ndarray a : supported (NpNdarray a)
| supported_list l : Forall supported l -> supported (PyList l)
| supported_tuple l : Forall supported l -> supported (PyTuple l)
| supported_dict d :
    Forall (fun kv => supported (snd kv)) d -> supported (PyDict d).
#[local] Set Elimination Schemes.


(** A number: an int, a float or a [numpy.float64]. *)
Definition is_scalar (v : pyval) : bool :=
  match v with
  | PyInt z => is_int z
  | PyFloat _ | NpFloat64 _ => true
  | _ => false
  end.

(** Two values with the same numbers and arrays in the same places, the
    second without tuples: what [_sub_measurements] meets when it subtracts
    the mean of one measurement from that measurement. *)
#[local] Unset Elimination Schemes.

(** The supported values without tuples. *)
Inductive flat : pyval -> Prop :=
| flat_scalar a : is_scalar a = true -> flat a
| flat_array a : flat (NpNdarray a)
| flat_list l : Forall flat l -> flat (PyList l)
| flat_dict d : Forall flat (values d) -> flat (PyDict d).

#[local] Set Elimination Schemes.

(** A leaf that is no number, no array, no sequence and no mapping. *)
Definition unsupported_leaf (v : pyval) : bool :=
  match v with
  | PyNone | PyBool _ | PyStr _ | PyObject _ => true
  | _ => false
  end.

(** A series that is symmetric about its midpoint: [C[t] = C[T-t]] for
    [1 <= t <= T-1]. *)
Definition symmetric (C : list R) : Prop :=
  forall t : Z,
    1 <= t <= len C - 1 -> TwoPoint.item C t = TwoPoint.item C (len C - t).

Section Members.
Context {D : Type} `{Datatype D}.

(** The members of a store that only [add_datum] has written to: the type
    marker and one member for each index below the count. *)
Definition members_below_count (self : DataSet D) : Prop :=
  forall name, In name (Zip.namelist (zfile self)) ->
    name = "type" \/
    exists j, 0 <= j < num_data self /\ name = member_name self j.
End Members.

Definition Zsum (zs : list Z) : Z := fold_right Z.add 0 zs.

(** The sum of the squared deviations from the arithmetic mean. *)
Definition squared_deviation_sum (xs : list R) : R :=
  Rsum (map (fun x => Rsqr (x - mean xs)) xs).

(** A series that is antisymmetric about its midpoint: [C[t] = -C[T-t]]
    for [1 <= t <= T-1]. *)
Definition antisymmetric (C : list R) : Prop :=
  forall (t : Z) (a b : R),
    1 <= t <= len C - 1 ->
    TwoPoint.item C t = Ok a -> TwoPoint.item C (len C - t) = Ok b ->
    a = (- b)%R.

(** Two arrays combined entry by entry, as [array_add] and [array_sub] do. *)
Definition pointwise (f : R -> R -> R) (u v : list R) : list R :=
  map (fun p => f (fst p) (snd p)) (combine u v).

(** A criterion of [filter_correlators] that is met: no criterion, or the
    value it asks for. *)
Definition meets {X : Type} (eqb : X -> X -> bool) (x : X) (param : option X)
  : bool :=
  match param with
  | None => true
  | Some p => eqb x p
  end.

(** The attributes that meet all five criteria, the masses asked for being
    rounded first. *)
Definition selected (round8 : R -> R)
           (label' : option string) (masses' : option (list R))
           (momentum' : option (list Z))
           (source_type' sink_type' : option string)
           (a : TwoPoint.attributes) : bool :=
  meets String.eqb (TwoPoint.label a) label'
  && meets TwoPoint.masses_eqb (TwoPoint.masses a)
           (option_map (map round8) masses')
  && meets TwoPoint.momentum_eqb (TwoPoint.momentum a) momentum'
  && meets String.eqb (TwoPoint.source_type a) source_type'
  && meets String.eqb (TwoPoint.sink_type a) sink_type'.

Section Archives.
Context {D : Type} `{Datatype D}.

(** The archive of a store as [__init__] and [add_datum] leave it: the type
    marker is the pickled data type, every other member is the one of an
    index below the count, and the member of the last index is there. *)
Definition kept_by_add_datum (self : DataSet D) : Prop :=
  Zip.getinfo (zfile self) "type" = Some (Pickled (datatype self)) /\
  members_below_count self /\
  0 <= num_data self /\
  (0 < num_data self ->
   In (member_name self (num_data self - 1)) (Zip.namelist (zfile self))).
End Archives.

(** The reading of a plain decimal numeral, with a minus sign for a
    negative number: what [int] returns on the text that [format] writes
    for an int. *)
Definition decimal (s : string) : option Z :=
  option_map Z.of_int (NilZero.int_of_string s).

End Spec.

(** ** Archives, member names and loops *)

Module Facts.
Import DataSet Spec.

Lemma bind_Ok {A B : Type} (a : A) (k : A -> result B) :
  bind (Ok a) k = k a.
Proof. reflexivity. Qed.

Lemma getinfo_write_same {P : Type} (z : Zip.archive P) (name : string) (p : P) :
  Zip.getinfo (Zip.write z name p) name = Some p.
Proof.
  unfold Zip.write. induction z as [|[n q] z IH]; simpl.
  - now rewrite String.eqb_refl.
  - now rewrite IH.
Qed.

Lemma getinfo_write_other {P : Type} (z : Zip.archive P) (name name' : string)
      (p : P) :
  name <> name' ->
  Zip.getinfo (Zip.write z name p) name' = Zip.getinfo z name'.
Proof.
  intros Hne. unfold Zip.write. induction z as [|[n q] z IH]; simpl.
  - apply String.eqb_neq in Hne. now rewrite Hne.
  - now rewrite IH.
Qed.

Lemma append_length (s t : string) :
  String.length (s ++ t)%string = (String.length s + String.length t)%nat.
Proof. induction s as [|c s IH]; simpl; [reflexivity | now rewrite IH]. Qed.

Lemma append_inv_head (s t u : string) :
  (s ++ t)%string = (s ++ u)%string -> t = u.
Proof. induction s as [|c s IH]; simpl; intros E; [assumption|]. injection E. exact IH. Qed.

Lemma append_inv_tail (t s u : string) :
  (s ++ t)%string = (u ++ t)%string -> s = u.
Proof.
  revert u. induction s as [|c s IH]; intros [|c' u] E; simpl in E.
  - reflexivity.
  - apply (f_equal String.length) in E. simpl in E.
    rewrite append_length in E. lia.
  - apply (f_equal String.length) in E. simpl in E.
    rewrite append_length in E. lia.
  - injection E as -> E. f_equal. now apply IH.
Qed.

Lemma format_int_inj (i j : Z) : format_int i = format_int j -> i = j.
Proof.
  unfold format_int. intros E.
  assert (canonical : forall z, Z.to_int z <> Decimal.Pos Decimal.Nil /\
                                Z.to_int z <> Decimal.Neg Decimal.Nil).
  { intros [|p|p]; simpl; split; try discriminate;
      intros [= E']; now apply (DecimalPos.Unsigned.to_uint_nonnil p). }
  apply DecimalZ.to_int_inj.
  assert (S : Some (Z.to_int i) = Some (Z.to_int j)).
  { rewrite <- (NilZero.isi (Z.to_int i)) by apply canonical.
    rewrite <- (NilZero.isi (Z.to_int j)) by apply canonical.
    now rewrite E. }
  now injection S.
Qed.

Section Stores.
Context {D : Type} `{Datatype D}.

Lemma member_name_inj (self : DataSet D) (i j : Z) :
  member_name self i = member_name self j -> i = j.
Proof.
  unfold member_name. intros E.
  apply append_inv_head, append_inv_tail in E. now apply format_int_inj.
Qed.

Lemma xrange_nil (lo hi : Z) : hi <= lo -> xrange lo hi = [].
Proof.
  intros Hle. unfold xrange.
  replace (Z.to_nat (hi - lo)) with 0%nat by lia. reflexivity.
Qed.

Lemma xrange_cons (lo hi : Z) : lo < hi -> xrange lo hi = lo :: xrange (lo + 1) hi.
Proof.
  intros Hlt. unfold xrange.
  replace (Z.to_nat (hi - lo)) with (S (Z.to_nat (hi - (lo + 1)))) by lia.
  simpl. f_equal; [lia|].
  rewrite <- seq_shift, map_map. apply map_ext. intros k. lia.
Qed.

Lemma xrange_length (lo hi : Z) : List.length (xrange lo hi) = Z.to_nat (hi - lo).
Proof. unfold xrange. now rewrite length_map, length_seq. Qed.

Lemma holds_get (self : DataSet D) (vs : list D) (i : Z) (v : D) :
  holds self vs -> 0 <= i -> nth_error vs (Z.to_nat i) = Some v ->
  get_datum self i = Ok v.
Proof.
  intros [_ Hget] Hi Hnth. rewrite <- (Z2Nat.id i Hi). now apply Hget.
Qed.

Lemma skipn_nth_error {X : Type} (l : list X) (n : nat) (x : X) :
  nth_error l n = Some x -> skipn n l = x :: skipn (S n) l.
Proof.
  revert n. induction l as [|y l IH]; intros [|n]; simpl; try discriminate.
  - now intros [= ->].
  - intros Hn. now rewrite (IH n Hn).
Qed.

(** A loop [for i in xrange(lo, hi): acc += f(self.get_datum(i))] adds
    [f(vs[lo]), ..., f(vs[hi-1])] to [acc]. *)
Lemma accumulate_loop (self : DataSet D) (vs : list D) (f : D -> D) :
  holds self vs ->
  forall (k : nat) (lo hi : Z) (acc : D),
    Z.to_nat (hi - lo) = k -> 0 <= lo -> hi <= len vs ->
    for_each (xrange lo hi) acc
      (fun acc i => datum <- get_datum self i ;; Ok (d_add acc (f datum)))
    = Ok (fold_left d_add (map f (between vs lo hi)) acc).
Proof.
  intros Hh. induction k as [|k IH]; intros lo hi acc Hk Hlo Hhi.
  - rewrite xrange_nil by lia. unfold between. rewrite Hk. reflexivity.
  - rewrite xrange_cons by lia.
    assert (Hlen : (Z.to_nat lo < List.length vs)%nat) by (unfold len in Hhi; lia).
    destruct (nth_error vs (Z.to_nat lo)) as [v|] eqn:Hv;
      [|apply nth_error_None in Hv; lia].
    simpl for_each. rewrite (holds_get self vs lo v Hh Hlo Hv). simpl bind.
    rewrite (IH (lo + 1) hi) by lia.
    f_equal. unfold between. rewrite Hk.
    replace (Z.to_nat (hi - (lo + 1))) with k by lia.
    replace (Z.to_nat (lo + 1)) with (S (Z.to_nat lo)) by lia.
    rewrite (skipn_nth_error _ _ _ Hv). reflexivity.
Qed.

Lemma sum_loop (self : DataSet D) (vs : list D) :
  holds self vs ->
  forall (lo hi : Z) (acc : D),
    0 <= lo -> hi <= len vs ->
    for_each (xrange lo hi) acc
      (fun acc i => datum <- get_datum self i ;; Ok (d_add acc datum))
    = Ok (fold_left d_add (between vs lo hi) acc).
Proof.
  intros Hh lo hi acc Hlo Hhi.
  rewrite <- (map_id (between vs lo hi)).
  exact (accumulate_loop self vs (fun d => d) Hh _ lo hi acc eq_refl Hlo Hhi).
Qed.


Lemma pytype_eqb_eq (t u : pytype) : pytype_eqb t u = true <-> t = u.
Proof.
  destruct t as [n], u as [m]. unfold pytype_eqb. simpl.
  rewrite String.eqb_eq. split; [now intros -> | now intros [= ->]].
Qed.

Lemma holds_init (zlib : bool) (t : pytype) (name : string) (compress : bool) :
  holds (__init__ zlib t name compress : DataSet D) [].
Proof. split; [reflexivity | intros [|i] v; discriminate]. Qed.

Lemma add_datum_holds (self : DataSet D) (vs : list D) (v : D) :
  holds self vs -> type_of v = datatype self ->
  exists self', add_datum self v = Ok self' /\ holds self' (vs ++ [v]) /\
                datatype self' = datatype self.
Proof.
  intros [Hn Hget] Ht. unfold add_datum.
  replace (pytype_eqb (type_of v) (datatype self)) with true
    by (symmetry; now apply pytype_eqb_eq).
  simpl negb. cbv iota. eexists. split; [reflexivity|]. split; [|reflexivity].
  split.
  - simpl. unfold len in *. rewrite length_app. simpl. lia.
  - intros i w Hi. unfold get_datum, member_name. simpl.
    fold (member_name self (Z.of_nat i)). fold (member_name self (num_data self)).
    destruct (Nat.lt_ge_cases i (List.length vs)) as [Hlt|Hge].
    + rewrite nth_error_app1 in Hi by assumption.
      rewrite getinfo_write_other.
      * exact (Hget i w Hi).
      * intros E. apply member_name_inj in E. unfold len in Hn. lia.
    + rewrite nth_error_app2 in Hi by assumption.
      destruct (i - List.length vs)%nat as [|j] eqn:Hj; simpl in Hi;
        [|destruct j; discriminate].
      injection Hi as ->.
      replace (Z.of_nat i) with (num_data self) by (unfold len in Hn; lia).
      now rewrite getinfo_write_same.
Qed.

(** Filling a store with measurements of its data type succeeds, and the
    store then holds them. *)
Lemma filled_holds (vs : list D) :
  forall (self : DataSet D) (vs0 : list D),
    holds self vs0 -> Forall (fun v => type_of v = datatype self) vs ->
    exists self', filled self vs = Ok self' /\ holds self' (vs0 ++ vs) /\
                  datatype self' = datatype self.
Proof.
  unfold filled. induction vs as [|v vs IH]; intros self vs0 Hh Hall.
  - exists self. rewrite app_nil_r.
    split; [reflexivity | split; [assumption | reflexivity]].
  - inversion Hall as [|? ? Hv Hvs]; subst.
    destruct (add_datum_holds self vs0 v Hh Hv) as (s1 & E1 & H1 & T1).
    simpl. rewrite E1. simpl.
    destruct (IH s1 (vs0 ++ [v]) H1) as (s2 & E2 & H2 & T2).
    { rewrite T1. exact Hvs. }
    exists s2. rewrite <- app_assoc in H2. simpl in H2.
    split; [exact E2 | split; [exact H2 | congruence]].
Qed.

(** What [_get_bin] computes on a store that holds [vs]. *)
Lemma get_bin_members (self : DataSet D) (vs : list D) (binsize binnum : Z) :
  holds self vs -> 1 <= binsize -> 0 <= binnum ->
  binsize * binnum < num_data self ->
  exists first rest,
    bin_members vs binsize binnum = first :: rest /\
    len (first :: rest) = Z.min binsize (num_data self - binsize * binnum) /\
    _get_bin self binsize binnum = d_div (d_sum first rest) binsize.
Proof.
  intros Hh Hb Hk Hlt. pose proof Hh as [Hn _]. unfold len in Hn.
  assert (Hpos : 0 <= binsize * binnum) by lia.
  destruct (nth_error vs (Z.to_nat (binsize * binnum))) as [first|] eqn:Hfirst;
    [|apply nth_error_None in Hfirst; lia].
  exists first, (firstn (Z.to_nat (binsize - 1))
                        (skipn (S (Z.to_nat (binsize * binnum))) vs)).
  assert (Hmembers : bin_members vs binsize binnum =
            first :: firstn (Z.to_nat (binsize - 1))
                            (skipn (S (Z.to_nat (binsize * binnum))) vs)).
  { unfold bin_members. rewrite (skipn_nth_error _ _ _ Hfirst).
    replace (Z.to_nat binsize) with (S (Z.to_nat (binsize - 1))) by lia.
    apply firstn_cons. }
  split; [exact Hmembers|]. split.
  - unfold len. cbn [List.length]. rewrite length_firstn, length_skipn. lia.
  - unfold _get_bin.
    rewrite (holds_get self vs _ first Hh Hpos Hfirst). simpl bind.
    rewrite (sum_loop self vs Hh).
    + simpl bind. unfold d_sum. do 2 f_equal. unfold between.
      replace (Z.to_nat (binsize * binnum + 1))
        with (S (Z.to_nat (binsize * binnum))) by lia.
      destruct (binsize * (binnum + 1) >? num_data self) eqn:Hcmp.
      * rewrite !firstn_all2; [reflexivity | |]; rewrite length_skipn; lia.
      * f_equal. lia.
    + lia.
    + unfold len. destruct (binsize * (binnum + 1) >? num_data self) eqn:Hcmp; lia.
Qed.

End Stores.
End Facts.

(** ** Stores of scalars, unsupported leaves and symmetric series *)

Module ScalarFacts.
Import DataSet Spec Facts.

Lemma stored_holds (xs : list R) : holds (stored xs) (scalars xs).
Proof.
  unfold stored.
  destruct (filled_holds (scalars xs) empty_scalars [] (holds_init _ _ _ _))
    as (self & E & Hh & _).
  - apply Forall_forall. intros v _. reflexivity.
  - rewrite E. exact Hh.
Qed.

Lemma div_unsupported_leaf (a div : pyval) :
  unsupported_leaf a = true -> bad_divisor div = false ->
  _div_measurements a div = Ok PyNone.
Proof.
  intros Ha Hd.
  destruct a; try discriminate; simp _div_measurements; rewrite Hd; reflexivity.
Qed.

Lemma sqrt_unsupported_leaf (a : pyval) :
  unsupported_leaf a = true -> _sqrt_measurements a = Ok PyNone.
Proof.
  intros Ha. destruct a; try discriminate; now simp _sqrt_measurements.
Qed.

(** The sister operations do raise on such a leaf. *)
Lemma measurements_unsupported_leaf (o : operator) (a b : pyval) :
  unsupported_leaf a = true ->
  measurements o a b = Raise (TypeError CannotBeSummed).
Proof.
  intros Ha.
  destruct a; try discriminate; destruct b; simp measurements; reflexivity.
Qed.

Lemma item_in_range {X : Type} (a : list X) (i : Z) :
  0 <= i < len a ->
  exists x, nth_error a (Z.to_nat i) = Some x /\ TwoPoint.item a i = Ok x.
Proof.
  intros Hi. unfold len in Hi. unfold TwoPoint.item. cbv zeta.
  replace (i <? 0) with false by lia. cbv iota.
  replace (i <? 0) with false by lia.
  replace (i >=? Z.of_nat (List.length a)) with false by lia.
  cbn [orb].
  destruct (nth_error a (Z.to_nat i)) as [x|] eqn:Hx.
  - exists x. split; reflexivity.
  - apply nth_error_None in Hx. lia.
Qed.

Lemma item_last {X : Type} (a : list X) :
  1 <= len a -> TwoPoint.item a (-1) = TwoPoint.item a (len a - 1).
Proof.
  intros Hn. unfold len in *. unfold TwoPoint.item. cbv zeta.
  replace (-1 <? 0) with true by lia.
  replace (Z.of_nat (List.length a) - 1 <? 0) with false by lia. cbv iota.
  replace (-1 + Z.of_nat (List.length a)) with (Z.of_nat (List.length a) - 1)
    by lia.
  reflexivity.
Qed.

Lemma half_of_double (l : list R) :
  TwoPoint.array_half (TwoPoint.array_add l l) = l.
Proof.
  unfold TwoPoint.array_half, TwoPoint.array_add.
  induction l as [|x l IH]; simpl; [reflexivity|].
  rewrite IH. f_equal. lra.
Qed.

(** The samples after the first of a symmetric series read the same in both
    directions. *)
Lemma symmetric_tail (c0 : R) (tl : list R) :
  symmetric (c0 :: tl) -> rev tl = tl.
Proof.
  intros Hsym. apply nth_error_ext. intros k.
  rewrite nth_error_rev.
  destruct (Nat.ltb_spec k (List.length tl)) as [Hk|Hk].
  - assert (Ht : 1 <= Z.of_nat (S k) <= len (c0 :: tl) - 1)
      by (unfold len; simpl List.length; lia).
    specialize (Hsym _ Ht).
    destruct (item_in_range (c0 :: tl) (Z.of_nat (S k))) as (x & Hx & Ex);
      [unfold len; simpl List.length; lia|].
    destruct (item_in_range (c0 :: tl) (len (c0 :: tl) - Z.of_nat (S k)))
      as (y & Hy & Ey); [unfold len; simpl List.length; lia|].
    rewrite Ex, Ey in Hsym. injection Hsym as ->.
    rewrite Nat2Z.id in Hx. simpl in Hx.
    replace (Z.to_nat (len (c0 :: tl) - Z.of_nat (S k)))
      with (S (List.length tl - S k)) in Hy
      by (unfold len; simpl List.length; lia).
    simpl in Hy. congruence.
  - symmetry. now apply nth_error_None.
Qed.

End ScalarFacts.

(** ** The measurement algebra on supported values *)

Module AlgebraFacts.
Import DataSet Spec Facts.

Section Induction.
Variable P : pyval -> Prop.
Hypothesis Hnone : P PyNone.
Hypothesis Hbool : forall b, P (PyBool b).
Hypothesis Hint : forall z, P (PyInt z).
Hypothesis Hlong : forall z, P (PyLong z).
Hypothesis Hfloat : forall x, P (PyFloat x).
Hypothesis Hstr : forall s, P (PyStr s).
Hypothesis Hfloat64 : forall x, P (NpFloat64 x).
Hypothesis Hndarray : forall a, P (NpNdarray a).
Hypothesis Hlist : forall l, Forall P l -> P (PyList l).
Hypothesis Htuple : forall l, Forall P l -> P (PyTuple l).
Hypothesis Hdict : forall d, Forall P (values d) -> P (PyDict d).
Hypothesis Hobject : forall t, P (PyObject t).

Fixpoint pyval_nested_ind (v : pyval) : P v :=
  match v with
  | PyNone => Hnone
  | PyBool b => Hbool b
  | PyInt z => Hint z
  | PyLong z => Hlong z
  | PyFloat x => Hfloat x
  | PyStr s => Hstr s
  | NpFloat64 x => Hfloat64 x
  | NpNdarray a => Hndarray a
  | PyList l =>
      Hlist l ((fix all (l : list pyval) : Forall P l :=
                  match l with
                  | [] => Forall_nil P
                  | x :: l' => Forall_cons x (pyval_nested_ind x) (all l')
                  end) l)
  | PyTuple l =>
      Htuple l ((fix all (l : list pyval) : Forall P l :=
                   match l with
                   | [] => Forall_nil P
                   | x :: l' => Forall_cons x (pyval_nested_ind x) (all l')
                   end) l)
  | PyDict d =>
      Hdict d ((fix all (d : list (pyval * pyval)) : Forall P (values d) :=
                  match d with
                  | [] => Forall_nil P
                  | kv :: d' => Forall_cons (snd kv) (pyval_nested_ind (snd kv)) (all d')
                  end) d)
  | PyObject t => Hobject t
  end.
End Induction.


Lemma zip_with_in_eq {X Y B : Type} (f : X -> Y -> result B) (xs : list X) :
  forall ys, zip_with_in xs ys (fun x y _ _ => f x y) = zip_with f xs ys.
Proof.
  induction xs as [|x xs IH]; intros [|y ys]; simpl; try reflexivity.
  destruct (f x y); simpl; [|reflexivity]. now rewrite IH.
Qed.

Lemma measurements_lists (o : operator) (l l' : list pyval) :
  measurements o (PyList l) (PyList l') =
  fmap PyList (zip_with (measurements o) l l').
Proof. simp measurements. now rewrite zip_with_in_eq. Qed.










Lemma comprehension_map {X Y : Type} (f : X -> result Y) (g : X -> Y) (l : list X) :
  Forall (fun x => f x = Ok (g x)) l -> comprehension f l = Ok (map g l).
Proof.
  induction 1 as [|x l Hx Hl IH]; simpl; [reflexivity|].
  now rewrite Hx, IH.
Qed.




Lemma Forall_both {X : Type} (P Q R : X -> Prop) (l : list X) :
  Forall P l -> Forall Q l -> (forall x, P x -> Q x -> R x) -> Forall R l.
Proof.
  intros HP HQ Himp. induction HP as [|x l Hx HP IH]; [constructor|].
  inversion HQ; subst. constructor; auto.
Qed.

Ltac by_induction_hypothesis :=
  match goal with
  | IH : Forall ?P ?l, Hl : Forall ?Q ?l |- Forall _ ?l =>
      apply (Forall_both P Q _ l IH Hl); solve [auto]
  end.


Lemma int_or_long_int (z : Z) : is_int z = true -> int_or_long z = PyInt z.
Proof. unfold int_or_long. now intros ->. Qed.


Lemma flat_supported (r : pyval) : flat r -> supported r.
Proof.
  induction r using pyval_nested_ind; intros Hr; inversion Hr; subst;
    try discriminate; try (constructor; assumption).
  - constructor. by_induction_hypothesis.
  - constructor. unfold values in *. rewrite Forall_map in *.
    by_induction_hypothesis.
Qed.













Local Open Scope R_scope.

Lemma scalar_eq (a b : Scalar) : value a = value b -> a = b.
Proof. destruct a, b. simpl. now intros ->. Qed.

Lemma fold_left_add_value (rest : list Scalar) (first : Scalar) :
  value (fold_left d_add rest first) = value first + Rsum (map value rest).
Proof.
  revert first. induction rest as [|v rest IH]; intros first; simpl.
  - lra.
  - rewrite IH. simpl. lra.
Qed.

(** [_get_bin] on a store of scalars: the sum of the members of the bin
    over [binsize]. *)
Lemma get_bin_scalars (self : DataSet Scalar) (vs : list Scalar)
      (binsize binnum : Z) :
  holds self vs -> (1 <= binsize)%Z -> (0 <= binnum)%Z ->
  (binsize * binnum < num_data self)%Z ->
  _get_bin self binsize binnum =
  Ok {| value := Rsum (map value (bin_members vs binsize binnum)) / IZR binsize |}.
Proof.
  intros Hh Hb Hk Hlt.
  destruct (get_bin_members self vs binsize binnum Hh Hb Hk Hlt)
    as (first & rest & -> & _ & ->).
  simpl d_div. replace (binsize =? 0)%Z with false by lia.
  f_equal. apply scalar_eq. simpl. unfold d_sum.
  now rewrite fold_left_add_value.
Qed.



End AlgebraFacts.

(** ** Statistics and jackknife data of a store of scalars *)

Module EnsembleFacts.
Import DataSet Spec Facts ScalarFacts AlgebraFacts.
Local Open Scope R_scope.

Section CheckedArguments.
Context {D : Type} `{Datatype D}.

(** The two checks of [jackknife_datum]. *)
Lemma jackknife_datum_checks (self : DataSet D) (index binsize : Z) :
  ((binsize < 1)%Z ->
   jackknife_datum self index binsize =
   Raise (ValueError (BinSizeLessThanOne binsize))) /\
  ((1 <= binsize)%Z -> (num_data self <= index)%Z ->
   jackknife_datum self index binsize =
   Raise (ValueError (IndexGreaterThanNumData index (num_data self)))).
Proof.
  unfold jackknife_datum. split.
  - intros Hb. now replace (binsize <? 1)%Z with true by lia.
  - intros Hb Hi. replace (binsize <? 1)%Z with false by lia.
    now replace (index >=? num_data self)%Z with true by lia.
Qed.
End CheckedArguments.

Lemma between_all {X : Type} (vs : list X) :
  between vs 0 (len vs) = vs.
Proof.
  unfold between, len. simpl skipn. rewrite Z.sub_0_r, Nat2Z.id.
  apply firstn_all.
Qed.

(** What [statistics] returns on a store of scalars: the first measurement
    enters the sum and the sum of squares once more than the others. *)
Lemma statistics_on_scalars (self : DataSet Scalar) (v0 : Scalar)
      (rest : list Scalar) :
  holds self (v0 :: rest) ->
  let xs := map value (v0 :: rest) in
  let n := IZR (len xs) in
  let m := (value v0 + Rsum xs) / n in
  statistics self =
  Ok ({| value := m |},
      {| value := sqrt (((value v0 - m) * (value v0 - m)
                         + Rsum (map (fun x => (x - m) * (x - m)) xs)) / n) |}).
Proof.
  intros Hh xs n m. pose proof Hh as [Hn _].
  assert (Hlen : len xs = len (v0 :: rest))
    by (unfold xs, len; now rewrite length_map).
  assert (Hpos : (1 <= num_data self)%Z)
    by (rewrite Hn; unfold len; simpl List.length; lia).
  assert (Hall : between (v0 :: rest) 0 (num_data self) = v0 :: rest)
    by (rewrite Hn; apply between_all).
  unfold statistics.
  rewrite (holds_get self (v0 :: rest) 0 v0 Hh) by (reflexivity || lia).
  cbn [bind].
  rewrite (sum_loop self (v0 :: rest) Hh) by lia. cbn [bind].
  rewrite Hall.
  cbn [d_div Scalar_Datatype]. replace (num_data self =? 0)%Z with false by lia.
  cbn [bind].
  rewrite (accumulate_loop self (v0 :: rest) _ Hh _ _ _ _ eq_refl) by lia.
  cbn [bind]. rewrite Hall.
  replace (num_data self =? 0)%Z with false by lia.
  assert (Hmean : value (fold_left d_add (v0 :: rest) v0) / IZR (num_data self) = m).
  { rewrite fold_left_add_value. unfold m, n. now rewrite Hlen, <- Hn. }
  f_equal. f_equal; apply scalar_eq; cbn [value].
  - exact Hmean.
  - f_equal. rewrite fold_left_add_value. cbn [d_square d_sub Scalar_Datatype value].
    rewrite Hmean. unfold n. rewrite Hlen, <- Hn. f_equal. f_equal.
    unfold xs. rewrite !map_map. reflexivity.
Qed.

Lemma for_each_ext {A X : Type} (xs : list X) (body body' : A -> X -> result A) :
  (forall acc x, In x xs -> body acc x = body' acc x) ->
  forall acc, for_each xs acc body = for_each xs acc body'.
Proof.
  induction xs as [|x xs IH]; intros Hext acc; simpl; [reflexivity|].
  rewrite Hext by now left.
  destruct (body' acc x); simpl; [|reflexivity].
  apply IH. intros acc' y Hy. apply Hext. now right.
Qed.

Lemma xrange_In (lo hi i : Z) : In i (xrange lo hi) -> (lo <= i < hi)%Z.
Proof.
  unfold xrange. rewrite in_map_iff. intros (k & <- & Hk).
  apply in_seq in Hk. lia.
Qed.

(** A bin of size 1 is its one measurement. *)
Lemma get_bin_of_size_1 (self : DataSet Scalar) (vs : list Scalar) (i : Z) :
  holds self vs -> (0 <= i < num_data self)%Z ->
  _get_bin self 1 i = get_datum self i.
Proof.
  intros Hh Hi. pose proof Hh as [Hn _]. unfold len in Hn.
  destruct (nth_error vs (Z.to_nat i)) as [v|] eqn:Hv;
    [|apply nth_error_None in Hv; lia].
  rewrite (get_bin_scalars self vs) by (try assumption; lia).
  rewrite (holds_get self vs i v Hh) by (assumption || lia).
  f_equal. apply scalar_eq. cbn [value].
  unfold bin_members. rewrite Z.mul_1_l, (skipn_nth_error _ _ _ Hv).
  simpl. lra.
Qed.

(** [jackknife_datum(index, 1)] on a store of at least two scalars: the sum
    of the others over their number. *)
Lemma jackknife_datum_of_size_1 (self : DataSet Scalar) (vs : list Scalar)
      (index : Z) (v : Scalar) :
  holds self vs -> (2 <= len vs)%Z -> (0 <= index)%Z ->
  nth_error vs (Z.to_nat index) = Some v ->
  jackknife_datum self index 1 =
  Ok {| value := (Rsum (map value vs) - value v) / IZR (len vs - 1) |}.
Proof.
  intros Hh Hlen Hi Hv. pose proof Hh as [Hn _].
  assert (Hlt : (index < num_data self)%Z).
  { rewrite Hn. unfold len.
    assert (Hsome : nth_error vs (Z.to_nat index) <> None) by congruence.
    apply nth_error_Some in Hsome. lia. }
  destruct vs as [|v0 rest]; [unfold len in Hlen; simpl in Hlen; lia|].
  unfold jackknife_datum. change (1 <? 1)%Z with false. cbv iota.
  replace (index >=? num_data self)%Z with false by lia.
  assert (Hbins : number_of_bins self 1 = num_data self).
  { unfold number_of_bins. now rewrite Z.mod_1_r, Z.div_1_r. }
  rewrite Hbins. unfold sum_of_bins.
  rewrite (get_bin_of_size_1 self _ 0 Hh) by lia.
  rewrite (holds_get self _ 0 v0 Hh) by (reflexivity || lia).
  cbn [bind].
  rewrite (for_each_ext _ _
             (fun acc i => datum <- get_datum self i ;; Ok (d_add acc datum))).
  2:{ intros acc i Hin. apply xrange_In in Hin.
      now rewrite (get_bin_of_size_1 self _ i Hh) by lia. }
  rewrite (sum_loop self _ Hh) by lia. cbn [bind].
  rewrite (get_bin_of_size_1 self _ index Hh) by lia.
  rewrite (holds_get self _ index v Hh Hi Hv). cbn [bind].
  cbn [d_div Scalar_Datatype].
  replace (num_data self - 1 =? 0)%Z with false by lia.
  f_equal. apply scalar_eq. cbn [value d_sub Scalar_Datatype].
  rewrite fold_left_add_value, Hn. f_equal. f_equal.
  unfold between, len. simpl List.length.
  change (Z.to_nat 1) with 1%nat. simpl skipn.
  rewrite firstn_all2 by lia. simpl. lra.
Qed.

Lemma comprehension_over_positions {X Y : Type} (f : Z -> result Y) (g : X -> Y)
      (vs : list X) :
  forall lo : Z,
    (forall i v, nth_error vs i = Some v -> f (lo + Z.of_nat i)%Z = Ok (g v)) ->
    comprehension f (xrange lo (lo + len vs)) = Ok (map g vs).
Proof.
  induction vs as [|v vs IH]; intros lo Hf.
  - rewrite xrange_nil by (unfold len; simpl; lia). reflexivity.
  - rewrite xrange_cons by (unfold len; simpl List.length; lia).
    cbn [comprehension].
    replace lo with (lo + Z.of_nat 0)%Z at 1 by lia.
    rewrite (Hf 0%nat v eq_refl). cbn [bind].
    replace (lo + len (v :: vs))%Z with (lo + 1 + len vs)%Z
      by (unfold len; simpl List.length; lia).
    rewrite IH; [reflexivity|].
    intros i w Hw. replace (lo + 1 + Z.of_nat i)%Z with (lo + Z.of_nat (S i))%Z by lia.
    now apply Hf.
Qed.

Lemma Rsum_of_others (c d : R) (xs : list R) :
  Rsum (map (fun x => (c - x) / d) xs) = (IZR (len xs) * c - Rsum xs) / d.
Proof.
  induction xs as [|x xs IH]; simpl.
  - unfold len. simpl. unfold Rdiv. ring.
  - rewrite IH. unfold len. simpl List.length.
    rewrite Nat2Z.inj_succ, succ_IZR. unfold Rdiv. ring.
Qed.

(** X7. On a store of at least two scalars the jackknife data of bin size 1,
    [jackknife_datum(i, 1)] for every index [i], average to the arithmetic
    mean of the stored measurements. *)
Lemma jackknife_average_is_mean (self : DataSet Scalar) (vs : list Scalar) :
  holds self vs -> (2 <= len vs)%Z ->
  jackknife_average self = Ok (mean (map value vs)).
Proof.
  intros Hh Hlen. pose proof Hh as [Hn _].
  unfold jackknife_average.
  replace (num_data self) with (0 + len vs)%Z by lia.
  rewrite (comprehension_over_positions _
             (fun v => {| value := (Rsum (map value vs) - value v)
                                   / IZR (len vs - 1) |})).
  2:{ intros i v Hv. apply (jackknife_datum_of_size_1 self vs); try assumption.
      - lia.
      - now rewrite Z.add_0_l, Nat2Z.id. }
  cbn [bind]. f_equal. unfold mean. rewrite map_map. cbn [value].
  rewrite <- (map_map value (fun x => (Rsum (map value vs) - x) / IZR (len vs - 1))).
  rewrite Rsum_of_others.
  unfold len in *. rewrite !length_map.
  rewrite minus_IZR.
  assert (Hnz : IZR (Z.of_nat (List.length vs)) <> 0) by (apply not_0_IZR; lia).
  assert (Hnz1 : IZR (Z.of_nat (List.length vs)) - 1 <> 0).
  { rewrite <- minus_IZR. apply not_0_IZR. lia. }
  field. split; assumption.
Qed.

(** [measure] seeds its sum with the first index and loops over the others:
    on the scalars 1 and 2 its mean is 3/2. *)
Lemma measure_of_1_2 :
  measure (stored [1; 2]) (fun d => Ok (PyFloat (value d))) [] =
  Ok (PyFloat (3 / 2)).
Proof. cbv -[Rplus Rminus Rmult Rdiv Rinv IZR]. do 2 f_equal; lra. Qed.

End EnsembleFacts.

(** ** The claims *)

Module Claims.
Import DataSet Spec Facts ScalarFacts AlgebraFacts EnsembleFacts.

Section AnyStore.
Context {D : Type} `{Datatype D}.

(** C2. [set_datum(index, datum)] raises the type-mismatch [TypeError] when
    [type(datum)] is not the declared data type; with a datum of the declared
    type it raises the [TypeError] "Datum {} does not exist" when [index] is
    not less than the count; otherwise it appends the datum to the archive
    under the member name of the count [num_data], which is not the member
    name of [index], so that the member read for [index] is what it was. *)
Theorem set_datum_saves_under_count (self : DataSet D) (index : Z) (datum : D) :
  (type_of datum <> datatype self ->
   set_datum self index datum =
   Raise (TypeError (SuppliedTypeDoesNotMatch (type_of datum) (datatype self))))
  /\
  (type_of datum = datatype self -> num_data self <= index ->
   set_datum self index datum = Raise (TypeError (DatumDoesNotExist index)))
  /\
  (type_of datum = datatype self -> index < num_data self ->
   exists self',
     set_datum self index datum = Ok self' /\
     zfile self' =
       Zip.write (zfile self) (member_name self (num_data self)) (Npz datum) /\
     member_name self (num_data self) <> member_name self index /\
     get_datum self' index = get_datum self index /\
     get_datum self' (num_data self) = Ok datum /\
     num_data self' = num_data self).
Proof.
  unfold set_datum. repeat split.
  - intros Hne.
    destruct (pytype_eqb (type_of datum) (datatype self)) eqn:E;
      [apply pytype_eqb_eq in E; contradiction | reflexivity].
  - intros Heq Hge. apply pytype_eqb_eq in Heq. rewrite Heq. simpl.
    replace (index >=? num_data self) with true by lia. reflexivity.
  - intros Heq Hlt. apply pytype_eqb_eq in Heq. rewrite Heq. simpl.
    replace (index >=? num_data self) with false by lia.
    assert (Hname : member_name self (num_data self) <> member_name self index).
    { intros E. apply member_name_inj in E. lia. }
    eexists. split; [reflexivity|].
    split; [reflexivity|]. split; [exact Hname|].
    split; [|split; [|reflexivity]].
    + unfold get_datum, member_name. simpl.
      fold (member_name self index). fold (member_name self (num_data self)).
      now rewrite getinfo_write_other.
    + unfold get_datum, member_name. simpl.
      fold (member_name self (num_data self)).
      now rewrite getinfo_write_same.
Qed.

(** C10. On a store that holds [vs], for a bin size of at least 1 and a bin
    that starts inside the store, [_get_bin] returns the sum of the members of
    the bin divided by [binsize], whatever their number: the bin has
    [min(binsize, num_data - binsize * binnum)] members, and the last bin of
    a store whose count is no multiple of [binsize] has only
    [num_data mod binsize] of them. [bootstrap], [jackknife_datum],
    [jackknife] and [generate_jackknife_cache] take every bin average from
    [_get_bin]. *)
Theorem get_bin_divides_by_binsize (self : DataSet D) (vs : list D)
        (binsize binnum : Z) :
  holds self vs -> 1 <= binsize -> 0 <= binnum ->
  binsize * binnum < num_data self ->
  exists first rest,
    bin_members vs binsize binnum = first :: rest /\
    _get_bin self binsize binnum = d_div (d_sum first rest) binsize /\
    len (first :: rest) = Z.min binsize (num_data self - binsize * binnum) /\
    (binnum = num_data self / binsize ->
     len (first :: rest) = num_data self mod binsize /\
     len (first :: rest) < binsize).
Proof.
  intros Hh Hb Hk Hlt.
  destruct (get_bin_members self vs binsize binnum Hh Hb Hk Hlt)
    as (first & rest & Hmembers & Hlen & Hbin).
  exists first, rest.
  split; [exact Hmembers|]. split; [exact Hbin|]. split; [exact Hlen|].
  intros ->. rewrite Hlen.
  pose proof (Z.mod_pos_bound (num_data self) binsize) as Hmod.
  rewrite (Z.mod_eq (num_data self) binsize) in * by lia. lia.
Qed.

End AnyStore.

Lemma set_datum_on_a_store_of_two :
  set_datum (__init__ true (PyClass "Propagator") "props.zip" true)
            0 {| value := 5 |} =
  Raise (TypeError (SuppliedTypeDoesNotMatch (PyClass "Scalar")
                                             (PyClass "Propagator")))
  /\
  set_datum (stored [1; 2]%R) 2 {| value := 5 |} =
  Raise (TypeError (DatumDoesNotExist 2))
  /\
  exists self',
    set_datum (stored [1; 2]%R) 0 {| value := 5 |} = Ok self' /\
    get_datum self' 0 = Ok {| value := 1 |} /\
    get_datum self' 2 = Ok {| value := 5 |}.
Proof.
  split; [|split].
  - refine (proj1 (set_datum_saves_under_count
                     (__init__ true (PyClass "Propagator") "props.zip" true)
                     0 {| value := 5 |}) _).
    discriminate.
  - refine (proj1 (proj2 (set_datum_saves_under_count
                            (stored [1; 2]%R) 2 {| value := 5 |})) _ _).
    + reflexivity.
    + vm_compute. discriminate.
  - destruct (set_datum_saves_under_count (stored [1; 2]%R) 0 {| value := 5 |})
      as (_ & _ & Hsaved).
    destruct (Hsaved eq_refl eq_refl) as (self' & E & _ & _ & G0 & G2 & _).
    exists self'. split; [exact E|]. split; [rewrite G0; reflexivity | exact G2].
Defined.

Lemma get_bin_of_a_short_bin :
  _get_bin (stored [1; 2; 3]%R) 2 1 = Ok {| value := 3 / 2 |}.
Proof.
  destruct (get_bin_divides_by_binsize
              (stored [1; 2; 3]%R) (scalars [1; 2; 3]%R) 2 1)
    as (first & rest & Hmembers & -> & _).
  - apply stored_holds.
  - lia.
  - lia.
  - reflexivity.
  - injection Hmembers as <- <-. reflexivity.
Defined.

(** C8. Whatever the type descriptor and the template environment, each of
    [setget_code], [buffer_code] and [static_func_code] returns the empty
    text and does not raise. *)
Theorem placeholders_return_empty_text
        (environment template : Type) (env : environment)
        (ContainerDef : Type) (typedef : ContainerDef) :
  CoreTags.setget_code environment env typedef = Ok "" /\
  CoreTags.buffer_code environment env typedef = Ok "" /\
  CoreTags.static_func_code environment env typedef = Ok "".
Proof. repeat split. Qed.

(** C9. On a leaf that is no number, no array, no sequence and no mapping,
    [_div_measurements] (with an int or float divisor) and
    [_sqrt_measurements] return [None] without raising, where the
    specification has an [UnsupportedType] error. *)
Theorem div_and_sqrt_return_None_on_unsupported_leaf (a : pyval) :
  unsupported_leaf a = true ->
  (forall div, bad_divisor div = false -> _div_measurements a div = Ok PyNone)
  /\ _sqrt_measurements a = Ok PyNone.
Proof.
  intros Ha. split.
  - intros div Hd. now apply div_unsupported_leaf.
  - now apply sqrt_unsupported_leaf.
Qed.

Lemma div_and_sqrt_of_text :
  unsupported_leaf (PyStr "pion") = true /\
  (forall div, bad_divisor div = false ->
               _div_measurements (PyStr "pion") div = Ok PyNone) /\
  _sqrt_measurements (PyStr "pion") = Ok PyNone.
Proof.
  split; [reflexivity|].
  apply (div_and_sqrt_return_None_on_unsupported_leaf (PyStr "pion")).
  reflexivity.
Defined.

Section Correlators.
Variable tensor : Type.
Variable Gammas : list (string * tensor).
Variables spin_prod einsum : tensor -> tensor -> tensor.
Variables prop_adjoint fftn : tensor -> tensor.
Variable shape : tensor -> list Z.
Variable at_momentum : tensor -> Z -> Z -> Z -> result tensor.
Variable mean_axis_0 : list tensor -> tensor.

(** C6. With [average_momenta=False] and one momentum of three components,
    [compute_meson_corr] returns no correlator: it raises, and the exception
    is the [NameError] for [self] unless an interpolator label is not in the
    table ([KeyError]) or the propagator has fewer than two axes
    ([IndexError]). *)
Theorem compute_meson_corr_unaveraged_raises
        (propagator1 propagator2 : tensor)
        (source_interpolator sink_interpolator : TwoPoint.interpolator tensor)
        (px py pz : Z) (fold : bool) :
  exists e,
    TwoPoint.compute_meson_corr tensor Gammas spin_prod prop_adjoint einsum
      fftn shape at_momentum mean_axis_0 propagator1 propagator2
      source_interpolator sink_interpolator
      (TwoPoint.OneMomentum [px; py; pz]) false fold = Raise e /\
    (e = NameError "self" \/ (exists label, e = KeyError label) \/
     e = IndexError).
Proof.
  unfold TwoPoint.compute_meson_corr.
  destruct (TwoPoint.resolve tensor Gammas source_interpolator) as [g1|e1] eqn:E1.
  2:{ exists e1. split; [reflexivity|]. right. left.
      destruct source_interpolator as [label|g]; simpl in E1; [|discriminate].
      destruct (find _ Gammas); [discriminate|]. injection E1 as <-. now exists label. }
  destruct (TwoPoint.resolve tensor Gammas sink_interpolator) as [g2|e2] eqn:E2.
  2:{ exists e2. split; [reflexivity|]. right. left.
      destruct sink_interpolator as [label|g]; simpl in E2; [|discriminate].
      destruct (find _ Gammas); [discriminate|]. injection E2 as <-. now exists label. }
  simpl bind.
  assert (Hitem : forall i, (exists L, TwoPoint.item (shape propagator1) i = Ok L)
                            \/ TwoPoint.item (shape propagator1) i = Raise IndexError).
  { intros i. unfold TwoPoint.item.
    destruct (_ || _); [now right|].
    destruct (nth_error _ _); [left; eauto | now right]. }
  destruct (Hitem 1) as [[L ->]| ->]; [|exists IndexError; auto].
  destruct (Hitem 0) as [[T ->]| ->]; [|exists IndexError; auto].
  exists (NameError "self"). split; [reflexivity | now left].
Qed.

End Correlators.

(** C7. A real series of length at least 2 that is symmetric about its
    midpoint is returned unchanged by [fold_correlator]. *)
Theorem fold_correlator_symmetric (C : list R) :
  2 <= len C -> symmetric C -> TwoPoint.fold_correlator C = Ok C.
Proof.
  intros Hlen Hsym. destruct C as [|c0 tl]; [unfold len in Hlen; simpl in Hlen; lia|].
  pose proof (symmetric_tail c0 tl Hsym) as Hrev.
  unfold TwoPoint.fold_correlator.
  rewrite item_last by lia.
  assert (H1 : 1 <= 1 <= len (c0 :: tl) - 1) by lia.
  rewrite <- (Hsym 1 H1).
  destruct (item_in_range (c0 :: tl) 1) as (c1 & _ & ->); [lia|].
  simpl bind.
  unfold TwoPoint.real_eqb.
  destruct (Req_dec_T (TwoPoint.np_sign c1) (TwoPoint.np_sign c1)); [|contradiction].
  unfold TwoPoint.down_to_1, TwoPoint.from_1. simpl skipn.
  now rewrite Hrev, half_of_double.
Qed.

Lemma fold_correlator_1_2_3_2 :
  TwoPoint.fold_correlator [1; 2; 3; 2]%R = Ok [1; 2; 3; 2]%R.
Proof.
  apply (fold_correlator_symmetric [1; 2; 3; 2]%R).
  - unfold len. simpl. lia.
  - intros t Ht. unfold len in *. simpl in Ht.
    assert (Hcases : t = 1 \/ t = 2 \/ t = 3) by lia.
    destruct Hcases as [-> | [-> | ->]]; reflexivity.
Defined.

Local Open Scope R_scope.

(** C1. On the store of the scalars 1 and 2, [statistics] returns the mean 2
    and the standard deviation 1: both loops start again at index 0 after
    [get_datum(0)] has seeded the sum, so the first measurement is counted
    twice. The arithmetic mean is 3/2 and the population standard deviation
    is 1/2. *)
Theorem statistics_counts_first_datum_twice :
  statistics (stored [1; 2]) = Ok ({| value := 2 |}, {| value := 1 |}) /\
  mean [1; 2] = 3 / 2 /\
  population_std [1; 2] = 1 / 2.
Proof.
  split; [|split].
  - cbv -[Rplus Rminus Rmult Rdiv Rinv IZR sqrt].
    f_equal. f_equal; f_equal.
    + lra.
    + match goal with |- sqrt ?e = _ => replace e with 1 by lra end.
      apply sqrt_1.
  - cbv -[Rplus Rminus Rmult Rdiv Rinv IZR]. lra.
  - unfold population_std, mean.
    cbv -[Rplus Rminus Rmult Rdiv Rinv IZR sqrt].
    replace (_ / 2) with ((1 / 2) * (1 / 2)) by lra.
    apply sqrt_square. lra.
Qed.

(** C3. On the store of the scalars 1, 2, 3, 4 with bins of size 2,
    [jackknife_datum(1, 2)] returns 3/2: it takes away bin number 1, where the
    bin that contains measurement 1 is bin 0, without which the result is
    7/2. [jackknife_datum(3, 2)] looks for bin number 3 and raises the
    archive's [KeyError]. *)
Theorem jackknife_datum_takes_index_for_a_bin_number :
  jackknife_datum (stored [1; 2; 3; 4]) 1 2 = Ok {| value := 3 / 2 |} /\
  leave_out_bin_of (stored [1; 2; 3; 4]) 1 2 = Ok {| value := 7 / 2 |} /\
  jackknife_datum (stored [1; 2; 3; 4]) 3 2 = Raise (KeyError "Scalar6.npz").
Proof.
  split; [|split].
  - cbv -[Rplus Rminus Rmult Rdiv Rinv IZR]. do 2 f_equal. lra.
  - cbv -[Rplus Rminus Rmult Rdiv Rinv IZR]. do 2 f_equal. lra.
  - reflexivity.
Qed.

(** C4. On the store of the scalars 1 and 2, the average of
    [jackknife_datum(i, 1)] over [i = 0, 1] is 3/2 and the mean that
    [statistics] returns is 2. *)
Theorem jackknife_average_differs_from_statistics :
  jackknife_average (stored [1; 2]) = Ok (3 / 2) /\
  fmap (fun r => value (fst r)) (statistics (stored [1; 2])) = Ok 2.
Proof.
  split.
  - cbv -[Rplus Rminus Rmult Rdiv Rinv IZR]. f_equal. lra.
  - cbv -[Rplus Rminus Rmult Rdiv Rinv IZR sqrt]. f_equal. lra.
Qed.




End Claims.

(** ** Further properties of the store *)

Module StoreProperties.
Import DataSet Spec Facts ScalarFacts AlgebraFacts EnsembleFacts.

Lemma getinfo_absent {P : Type} (z : Zip.archive P) (name : string) :
  ~ In name (Zip.namelist z) -> Zip.getinfo z name = None.
Proof.
  induction z as [|[n p] z IH]; simpl; [reflexivity|].
  intros Hnot. rewrite IH by tauto.
  destruct (String.eqb_spec n name) as [->|]; [|reflexivity].
  exfalso. apply Hnot. now left.
Qed.

Lemma format_int_not_empty (n : Z) : (1 <= String.length (format_int n))%nat.
Proof.
  unfold format_int.
  assert (Huint : forall d, (1 <= String.length (NilZero.string_of_uint d))%nat).
  { intros d. destruct d; simpl; lia. }
  destruct (Z.to_int n); simpl; [apply Huint | lia].
Qed.

Section AnyStore.
Context {D : Type} `{Datatype D}.

Lemma member_name_not_type (self : DataSet D) (i : Z) :
  member_name self i <> "type".
Proof.
  intros E. apply (f_equal String.length) in E.
  unfold member_name in E. rewrite !append_length in E.
  pose proof (format_int_not_empty i). simpl in E. lia.
Qed.

Lemma members_of_init (zlib : bool) (t : pytype) (name : string)
      (compress : bool) :
  members_below_count (__init__ zlib t name compress : DataSet D).
Proof. intros n [<-|[]]. now left. Qed.

Lemma members_after_add_datum (self self' : DataSet D) (datum : D) :
  members_below_count self -> 0 <= num_data self ->
  add_datum self datum = Ok self' ->
  members_below_count self' /\ num_data self' = num_data self + 1.
Proof.
  intros Hm Hn. unfold add_datum.
  destruct (negb _); [discriminate|]. intros [= <-]. split; [|reflexivity].
  intros name. simpl. unfold Zip.namelist, Zip.write. rewrite map_app, in_app_iff.
  intros [Hin | [<- | []]].
  - destruct (Hm name Hin) as [->|(j & Hj & ->)]; [now left|].
    right. exists j. split; [lia | reflexivity].
  - right. exists (num_data self). split; [lia | reflexivity].
Qed.

Lemma members_after_filled (vs : list D) :
  forall self self' : DataSet D,
    members_below_count self -> 0 <= num_data self ->
    filled self vs = Ok self' ->
    members_below_count self' /\ num_data self' = num_data self + len vs.
Proof.
  unfold filled. induction vs as [|v vs IH]; intros self self' Hm Hn; simpl.
  - intros [= <-]. unfold len. simpl. split; [assumption | lia].
  - destruct (add_datum self v) as [s1|e] eqn:E1; [|discriminate]. simpl.
    destruct (members_after_add_datum self s1 v Hm Hn E1) as [Hm1 Hn1].
    intros E2. destruct (IH s1 self' Hm1 ltac:(lia) E2) as [Hm2 Hn2].
    split; [assumption|]. rewrite Hn2, Hn1. unfold len. simpl List.length. lia.
Qed.

(** X1. Adding a datum of the declared type appends it: the count grows by
    one, the datum is read back at the old count and every other index reads
    as before. *)
Theorem add_datum_then_get_datum (self : DataSet D) (datum : D) :
  type_of datum = datatype self ->
  exists self',
    add_datum self datum = Ok self' /\
    num_data self' = num_data self + 1 /\
    datatype self' = datatype self /\
    get_datum self' (num_data self) = Ok datum /\
    forall i, i <> num_data self -> get_datum self' i = get_datum self i.
Proof.
  intros Ht. unfold add_datum.
  apply pytype_eqb_eq in Ht. rewrite Ht. simpl negb. cbv iota.
  eexists. split; [reflexivity|]. split; [reflexivity|]. split; [reflexivity|].
  split.
  - unfold get_datum, member_name. simpl.
    fold (member_name self (num_data self)). now rewrite getinfo_write_same.
  - intros i Hi. unfold get_datum, member_name. simpl.
    fold (member_name self (num_data self)). fold (member_name self i).
    rewrite getinfo_write_other; [reflexivity|].
    intros E. apply member_name_inj in E. congruence.
Qed.

(** X2. [get_datum] does not check its index against the count: on a store
    that [add_datum] has filled from a new one, an index below zero or not
    below the count is looked up in the archive, which raises [KeyError] for
    the member name of that index. *)
Theorem get_datum_out_of_range (zlib compress : bool) (t : pytype)
        (name : string) (vs : list D) (self : DataSet D) (i : Z) :
  filled (__init__ zlib t name compress) vs = Ok self ->
  i < 0 \/ len vs <= i ->
  get_datum self i = Raise (KeyError (member_name self i)).
Proof.
  intros Hfilled Hi.
  destruct (members_after_filled vs _ self (members_of_init zlib t name compress)
              ltac:(simpl; lia) Hfilled) as [Hm Hn].
  simpl in Hn. unfold get_datum.
  rewrite getinfo_absent; [reflexivity|].
  intros Hin. destruct (Hm _ Hin) as [E|(j & Hj & E)].
  - now apply member_name_not_type in E.
  - apply member_name_inj in E. lia.
Qed.

(** Writing with [set_datum] leaves what the store holds as it is. *)
Lemma set_datum_holds (self self' : DataSet D) (vs : list D) (index : Z)
      (datum : D) :
  holds self vs -> set_datum self index datum = Ok self' ->
  holds self' vs /\ num_data self' = num_data self /\
  datatype self' = datatype self.
Proof.
  intros [Hn Hget]. unfold set_datum.
  destruct (negb _); [discriminate|].
  destruct (index >=? num_data self); [discriminate|].
  intros [= <-]. split; [|split; reflexivity].
  split; [exact Hn|].
  intros i v Hv. unfold get_datum, member_name. simpl.
  fold (member_name self (num_data self)). fold (member_name self (Z.of_nat i)).
  rewrite getinfo_write_other; [exact (Hget i v Hv)|].
  intros E. apply member_name_inj in E.
  assert (Hsome : nth_error vs i <> None) by congruence.
  apply nth_error_Some in Hsome. unfold len in Hn. lia.
Qed.

(** X3. [apply_function] reads every datum, applies [func] and hands the
    result to [set_datum], which saves it under the member name of the count:
    when [func] returns data of the declared type the call succeeds, and the
    store holds the same measurements as before. *)
Theorem apply_function_leaves_the_data (self : DataSet D) (vs : list D)
        (func : D -> result D) :
  holds self vs ->
  (forall v, In v vs ->
             exists w, func v = Ok w /\ type_of w = datatype self) ->
  exists self',
    apply_function self func = Ok self' /\
    holds self' vs /\ num_data self' = num_data self.
Proof.
  intros Hh Hfunc. unfold apply_function.
  assert (Hloop : forall (k : nat) (lo : Z) (s : DataSet D),
             Z.to_nat (num_data self - lo) = k -> 0 <= lo ->
             holds s vs -> num_data s = num_data self ->
             datatype s = datatype self ->
             exists self',
               for_each (xrange lo (num_data self)) s
                 (fun self i =>
                    datum <- get_datum self i ;;
                    new_datum <- func datum ;;
                    set_datum self i new_datum) = Ok self' /\
               holds self' vs /\ num_data self' = num_data self).
  { induction k as [|k IH]; intros lo s Hk Hlo Hs Hns Hts.
    - rewrite xrange_nil by lia. exists s.
      split; [reflexivity | split; assumption].
    - rewrite xrange_cons by lia. cbn [for_each].
      pose proof Hs as [Hn _]. unfold len in Hn.
      destruct (nth_error vs (Z.to_nat lo)) as [v|] eqn:Hv;
        [|apply nth_error_None in Hv; lia].
      rewrite (holds_get s vs lo v Hs Hlo Hv). cbn [bind].
      destruct (Hfunc v (nth_error_In _ _ Hv)) as (w & -> & Hw). cbn [bind].
      destruct (set_datum s lo w) as [s1|e] eqn:E1.
      + destruct (set_datum_holds s s1 vs lo w Hs E1) as (Hs1 & Hn1 & Ht1).
        cbn [bind]. apply (IH (lo + 1) s1); try lia; congruence.
      + exfalso. unfold set_datum in E1.
        rewrite Hts in E1. apply pytype_eqb_eq in Hw. rewrite Hw in E1.
        simpl in E1. replace (lo >=? num_data s) with false in E1 by lia.
        discriminate. }
  apply (Hloop _ 0 self eq_refl); auto; lia.
Qed.

End AnyStore.
Lemma add_datum_to_a_store_of_two :
  exists self',
    add_datum (stored [1; 2]%R) {| value := 3 |} = Ok self' /\
    get_datum self' 2 = Ok {| value := 3 |} /\
    get_datum self' 0 = Ok {| value := 1 |}.
Proof.
  destruct (add_datum_then_get_datum (stored [1; 2]%R) {| value := 3 |})
    as (self' & E & _ & _ & Hnew & Hold); [reflexivity|].
  exists self'. split; [exact E|]. split; [exact Hnew|].
  rewrite (Hold 0) by discriminate. reflexivity.
Defined.

Lemma get_datum_past_the_count :
  get_datum (stored [1; 2]%R) 2 = Raise (KeyError "Scalar2.npz") /\
  get_datum (stored [1; 2]%R) (-1) = Raise (KeyError "Scalar-1.npz").
Proof.
  split.
  - refine (get_datum_out_of_range true true (PyClass "Scalar") "ensemble.zip"
              (scalars [1; 2]%R) (stored [1; 2]%R) 2 eq_refl _).
    right. vm_compute. discriminate.
  - refine (get_datum_out_of_range true true (PyClass "Scalar") "ensemble.zip"
              (scalars [1; 2]%R) (stored [1; 2]%R) (-1) eq_refl _).
    left. reflexivity.
Defined.

Lemma apply_function_doubling :
  exists self',
    apply_function (stored [1; 2]%R)
                   (fun d => Ok {| value := 2 * value d |}) = Ok self' /\
    get_datum self' 0 = Ok {| value := 1 |} /\
    get_datum self' 1 = Ok {| value := 2 |}.
Proof.
  destruct (apply_function_leaves_the_data
              (stored [1; 2]%R) (scalars [1; 2]%R)
              (fun d => Ok {| value := 2 * value d |}))
    as (self' & E & [_ Hget] & _).
  - apply stored_holds.
  - intros v _. eexists. split; reflexivity.
  - exists self'. split; [exact E|].
    split; [exact (Hget 0%nat _ eq_refl) | exact (Hget 1%nat _ eq_refl)].
Defined.

End StoreProperties.

(** ** Further properties of the statistics of a store of scalars *)

Module EnsembleProperties.
Import DataSet Spec Facts ScalarFacts AlgebraFacts EnsembleFacts.
Local Open Scope R_scope.

(** X4. With no indices given, [measure] on a non-empty store of scalars
    returns [func] of the arithmetic mean of the stored measurements. *)
Theorem measure_returns_func_of_mean (self : DataSet Scalar)
        (vs : list Scalar) (func : Scalar -> result pyval) :
  holds self vs -> vs <> [] ->
  measure self func [] = func {| value := mean (map value vs) |}.
Proof.
  intros Hh Hne. pose proof Hh as [Hn _].
  destruct vs as [|v0 rest]; [contradiction|].
  assert (Hpos : (1 <= num_data self)%Z)
    by (rewrite Hn; unfold len; simpl List.length; lia).
  unfold measure.
  assert (Hcount : len (xrange 0 (num_data self)) = num_data self)
    by (unfold len; rewrite xrange_length; lia).
  revert Hcount. rewrite xrange_cons by lia. intros Hcount.
  rewrite (holds_get self _ 0 v0 Hh) by (reflexivity || lia). cbn [bind].
  rewrite (sum_loop self _ Hh) by lia. cbn [bind].
  rewrite Hcount. cbn [d_div Scalar_Datatype].
  replace (num_data self =? 0)%Z with false by lia. cbn [bind].
  f_equal. apply scalar_eq. cbn [value].
  rewrite fold_left_add_value. unfold mean.
  rewrite Hn. unfold between, len. rewrite length_map. simpl List.length.
  change (Z.to_nat (0 + 1)) with 1%nat. simpl skipn.
  rewrite firstn_all2 by lia. simpl. reflexivity.
Qed.

Lemma measure_of_three_scalars :
  measure (stored [1; 2; 6]) (fun d => Ok (PyFloat (value d))) [] =
  Ok (PyFloat (mean [1; 2; 6])).
Proof.
  apply (measure_returns_func_of_mean
           (stored [1; 2; 6]) (scalars [1; 2; 6])
           (fun d => Ok (PyFloat (value d)))).
  - apply stored_holds.
  - discriminate.
Defined.

(** X5. The mean that [statistics] returns on a non-empty store of scalars
    is the arithmetic mean plus the first measurement over the count. *)
Theorem statistics_mean_exceeds_mean (self : DataSet Scalar) (v0 : Scalar)
        (rest : list Scalar) :
  holds self (v0 :: rest) ->
  exists m s,
    statistics self = Ok (m, s) /\
    value m = mean (map value (v0 :: rest))
              + value v0 / IZR (len (v0 :: rest)).
Proof.
  intros Hh. rewrite (statistics_on_scalars self v0 rest Hh).
  eexists. eexists. split; [reflexivity|]. cbn [value].
  unfold mean, len. rewrite length_map. unfold Rdiv. ring.
Qed.

Lemma statistics_mean_of_three_scalars :
  exists m s,
    statistics (stored [1; 2; 6]) = Ok (m, s) /\
    value m = mean [1; 2; 6] + 1 / 3.
Proof.
  destruct (statistics_mean_exceeds_mean
              (stored [1; 2; 6]) {| value := 1 |} (scalars [2; 6]))
    as (m & s & E & Hm).
  - apply (stored_holds [1; 2; 6]).
  - exists m, s. split; [exact E | exact Hm].
Defined.

(** X6. [jackknife_datum(index, 1)] on a store of scalars, for an index
    inside it: with one measurement stored it divides by zero; with more it
    returns the sum of the other measurements over their number. *)
Theorem jackknife_datum_leaves_one_out (self : DataSet Scalar)
        (vs : list Scalar) (index : Z) (v : Scalar) :
  holds self vs -> (0 <= index)%Z ->
  nth_error vs (Z.to_nat index) = Some v ->
  jackknife_datum self index 1 =
  if (len vs =? 1)%Z then Raise ZeroDivisionError
  else Ok {| value := (Rsum (map value vs) - value v) / IZR (len vs - 1) |}.
Proof.
  intros Hh Hi Hv. pose proof Hh as [Hn _].
  assert (Hlt : (index < len vs)%Z).
  { unfold len. assert (Hsome : nth_error vs (Z.to_nat index) <> None)
      by congruence.
    apply nth_error_Some in Hsome. lia. }
  destruct (Z.eqb_spec (len vs) 1) as [H1|H1].
  - unfold jackknife_datum. change (1 <? 1)%Z with false. cbv iota.
    replace (index >=? num_data self)%Z with false by lia.
    assert (Hbins : number_of_bins self 1 = 1%Z).
    { unfold number_of_bins. now rewrite Z.mod_1_r, Z.div_1_r, Hn, H1. }
    rewrite Hbins. unfold sum_of_bins.
    rewrite xrange_nil by lia. cbn [for_each].
    assert (Hindex : index = 0%Z) by lia. subst index.
    rewrite (get_bin_of_size_1 self vs 0 Hh) by lia.
    rewrite (holds_get self vs 0 v Hh Hi Hv). reflexivity.
  - apply (jackknife_datum_of_size_1 self vs index v Hh); try assumption. lia.
Qed.

Lemma jackknife_datum_of_three_scalars :
  jackknife_datum (stored [1; 2; 6]) 1 1 =
  Ok {| value := (Rsum [1; 2; 6] - 2) / 2 |} /\
  jackknife_datum (stored [5]) 0 1 = Raise ZeroDivisionError.
Proof.
  split.
  - apply (jackknife_datum_leaves_one_out
             (stored [1; 2; 6]) (scalars [1; 2; 6]) 1 {| value := 2 |}).
    + apply stored_holds.
    + lia.
    + reflexivity.
  - apply (jackknife_datum_leaves_one_out
             (stored [5]) (scalars [5]) 0 {| value := 5 |}).
    + apply stored_holds.
    + lia.
    + reflexivity.
Defined.

Lemma jackknife_average_of_three_scalars :
  jackknife_average (stored [1; 2; 6]) = Ok (mean [1; 2; 6]).
Proof.
  apply (jackknife_average_is_mean (stored [1; 2; 6]) (scalars [1; 2; 6])).
  - apply stored_holds.
  - vm_compute. discriminate.
Defined.

End EnsembleProperties.

(** ** Further properties of the measurement algebra *)

Module AlgebraProperties.
Import DataSet Spec Facts ScalarFacts AlgebraFacts EnsembleFacts.
Local Open Scope R_scope.

Lemma measurements_floats (o : operator) (x y : R) :
  measurements o (PyFloat x) (PyFloat y) = Ok (PyFloat (real_op o x y)).
Proof. now simp measurements. Qed.

Lemma add_floats_loop (rest : list R) :
  forall acc : R,
    for_each (map PyFloat rest) (PyFloat acc)
             (fun out datum => _add_measurements out datum)
    = Ok (PyFloat (acc + Rsum rest)).
Proof.
  induction rest as [|x rest IH]; intros acc; simpl.
  - do 2 f_equal. lra.
  - unfold _add_measurements at 1. rewrite measurements_floats. cbn [bind real_op].
    rewrite IH. do 2 f_equal. lra.
Qed.

Lemma len_positive {X : Type} (x : X) (l : list X) : (1 <= len (x :: l))%Z.
Proof. unfold len. simpl List.length. lia. Qed.

(** X8. The [_mean] of a non-empty list of floats is their arithmetic
    mean. *)
Theorem mean_of_floats (xs : list R) :
  xs <> [] -> _mean (PyList (map PyFloat xs)) = Ok (PyFloat (mean xs)).
Proof.
  intros Hne. destruct xs as [|x0 rest]; [contradiction|].
  unfold _mean. cbn [map]. rewrite add_floats_loop. cbn [bind].
  pose proof (len_positive x0 rest) as Hpos.
  assert (Hlen : len (PyFloat x0 :: map PyFloat rest) = len (x0 :: rest))
    by (unfold len; simpl; now rewrite length_map).
  rewrite Hlen. simp _div_measurements. cbn [bad_divisor].
  simp _div_measurements. cbn [truediv].
  replace (len (x0 :: rest) =? 0)%Z with false by lia.
  reflexivity.
Qed.

Lemma mean_of_three_floats :
  _mean (PyList [PyFloat 1; PyFloat 2; PyFloat 6]) = Ok (PyFloat (mean [1; 2; 6])).
Proof. apply (mean_of_floats [1; 2; 6]). discriminate. Defined.

Lemma squared_deviations_floats (m : R) (rest : list R) :
  forall acc : R,
    for_each (map PyFloat rest) (PyFloat acc)
      (fun out datum =>
         diff <- _sub_measurements datum (PyFloat m) ;;
         square <- _mul_measurements diff diff ;;
         _add_measurements out square)
    = Ok (PyFloat (acc + Rsum (map (fun x => Rsqr (x - m)) rest))).
Proof.
  induction rest as [|x rest IH]; intros acc; simpl.
  - do 2 f_equal. lra.
  - unfold _sub_measurements at 1, _mul_measurements at 1, _add_measurements at 1.
    rewrite !measurements_floats. cbn [bind real_op].
    rewrite measurements_floats. cbn [bind real_op].
    rewrite measurements_floats. cbn [bind real_op].
    rewrite IH. do 2 f_equal. unfold Rsqr. lra.
Qed.

Lemma squared_deviations_of_floats (xs : list R) :
  xs <> [] ->
  squared_deviations (map PyFloat xs) (PyFloat (mean xs))
  = Ok (PyFloat (squared_deviation_sum xs)).
Proof.
  intros Hne. destruct xs as [|x0 rest]; [contradiction|].
  unfold squared_deviations. cbn [map].
  unfold _sub_measurements at 1, _mul_measurements at 1.
  rewrite measurements_floats. cbn [bind real_op].
  rewrite measurements_floats. cbn [bind real_op].
  rewrite squared_deviations_floats. reflexivity.
Qed.

(** X9. The [_std] of a non-empty list of floats is their population
    standard deviation, as a [numpy.float64]. *)
Theorem std_of_floats (xs : list R) :
  xs <> [] ->
  _std (PyList (map PyFloat xs)) = Ok (NpFloat64 (population_std xs)).
Proof.
  intros Hne. unfold _std. rewrite (mean_of_floats xs Hne). cbn [bind].
  rewrite (squared_deviations_of_floats xs Hne). cbn [bind].
  assert (Hpos : (1 <= len xs)%Z)
    by (destruct xs; [contradiction | apply len_positive]).
  assert (Hlen : len (map PyFloat xs) = len xs)
    by (unfold len; now rewrite length_map).
  rewrite Hlen. simp _div_measurements. cbn [bad_divisor].
  simp _div_measurements. cbn [truediv].
  replace (len xs =? 0)%Z with false by lia. cbn [bind].
  simp _sqrt_measurements. reflexivity.
Qed.

Lemma std_of_three_floats :
  _std (PyList [PyFloat 1; PyFloat 2; PyFloat 6]) =
  Ok (NpFloat64 (population_std [1; 2; 6])).
Proof. apply (std_of_floats [1; 2; 6]). discriminate. Defined.

(** X10. The [_std_jackknife] of a non-empty list of floats divides the sum
    of squared deviations by [float(n) / (n - 1)] before the square root; for
    a list of one float this divisor divides by zero. *)
Theorem std_jackknife_of_floats (xs : list R) :
  xs <> [] ->
  _std_jackknife (PyList (map PyFloat xs)) =
  if (len xs =? 1)%Z then Raise ZeroDivisionError
  else Ok (NpFloat64
             (sqrt (squared_deviation_sum xs
                    / (IZR (len xs) / IZR (len xs - 1))))).
Proof.
  intros Hne. unfold _std_jackknife. rewrite (mean_of_floats xs Hne). cbn [bind].
  rewrite (squared_deviations_of_floats xs Hne). cbn [bind].
  assert (Hpos : (1 <= len xs)%Z)
    by (destruct xs; [contradiction | apply len_positive]).
  assert (Hlen : len (map PyFloat xs) = len xs)
    by (unfold len; now rewrite length_map).
  rewrite Hlen. cbn [truediv].
  destruct (Z.eqb_spec (len xs) 1) as [H1|H1].
  - rewrite H1. reflexivity.
  - replace (len xs - 1 =? 0)%Z with false by lia. cbn [bind].
    simp _div_measurements. cbn [bad_divisor].
    simp _div_measurements. cbn [truediv].
    unfold real_is_zero.
    destruct (Req_dec_T (IZR (len xs) / IZR (len xs - 1)) 0) as [Hzero|_].
    + exfalso.
      assert (Hn : IZR (len xs) <> 0) by (apply not_0_IZR; lia).
      assert (Hn1 : IZR (len xs - 1) <> 0) by (apply not_0_IZR; lia).
      apply Hn. apply (Rmult_eq_reg_r (/ IZR (len xs - 1))).
      * unfold Rdiv in Hzero. rewrite Hzero. ring.
      * now apply Rinv_neq_0_compat.
    + cbn [bind]. simp _sqrt_measurements. reflexivity.
Qed.

Lemma std_jackknife_of_three_floats :
  _std_jackknife (PyList [PyFloat 1; PyFloat 2; PyFloat 6]) =
  Ok (NpFloat64 (sqrt (squared_deviation_sum [1; 2; 6] / (3 / 2)))) /\
  _std_jackknife (PyList [PyFloat 1]) = Raise ZeroDivisionError.
Proof.
  split.
  - apply (std_jackknife_of_floats [1; 2; 6]). discriminate.
  - apply (std_jackknife_of_floats [1]). discriminate.
Defined.

Lemma measurements_ints (o : operator) (x y : Z) :
  measurements o (PyInt x) (PyInt y) = Ok (int_or_long (int_op o x y)).
Proof. now simp measurements. Qed.

(** Adding ints one after the other, as long as every sum fits an int. *)
Lemma add_ints_loop (rest : list Z) :
  forall acc : Z,
    (forall k, (1 <= k <= List.length rest)%nat ->
               is_int (acc + Zsum (firstn k rest)) = true) ->
    for_each (map PyInt rest) (PyInt acc)
             (fun out datum => _add_measurements out datum)
    = Ok (PyInt (acc + Zsum rest)).
Proof.
  induction rest as [|x rest IH]; intros acc Hfit; simpl.
  - do 2 f_equal. lia.
  - unfold _add_measurements at 1. rewrite measurements_ints. cbn [int_op].
    rewrite int_or_long_int.
    + cbn [bind]. rewrite IH.
      * do 2 f_equal. lia.
      * intros k Hk.
        replace (acc + x + Zsum (firstn k rest))%Z
          with (acc + Zsum (firstn (S k) (x :: rest)))%Z by (simpl; lia).
        apply Hfit. simpl. lia.
    + replace (acc + x)%Z with (acc + Zsum (firstn 1 (x :: rest)))%Z
        by (simpl; lia).
      apply Hfit. simpl. lia.
Qed.

(** The floor quotient of an int by a positive number is an int. *)
Lemma quotient_is_int (z n : Z) :
  is_int z = true -> (1 <= n)%Z -> is_int (z / n) = true.
Proof.
  unfold is_int, maxint. intros Hz Hn.
  apply andb_true_iff in Hz. destruct Hz as [Hlo Hhi].
  apply Z.leb_le in Hlo, Hhi. apply andb_true_iff. split; apply Z.leb_le.
  - apply Z.div_le_lower_bound; nia.
  - apply Z.div_le_upper_bound; nia.
Qed.

(** X11. The [_mean] of a non-empty list of ints is an int, the sum divided
    by the count with Python 2's floor division, as long as the sum of every
    initial part of the list fits an int; a sum that does not is a [long],
    which the measurement algebra does not take. *)
Theorem mean_of_ints_is_floored (zs : list Z) :
  zs <> [] ->
  (forall k, (1 <= k <= List.length zs)%nat ->
             is_int (Zsum (firstn k zs)) = true) ->
  _mean (PyList (map PyInt zs)) = Ok (PyInt (Zsum zs / len zs)).
Proof.
  intros Hne Hfit. destruct zs as [|z0 rest]; [contradiction|].
  unfold _mean. cbn [map]. rewrite add_ints_loop.
  2:{ intros k Hk. apply (Hfit (S k)). simpl. lia. }
  cbn [bind].
  pose proof (len_positive z0 rest) as Hpos.
  assert (Hlen : len (PyInt z0 :: map PyInt rest) = len (z0 :: rest))
    by (unfold len; simpl; now rewrite length_map).
  rewrite Hlen. simp _div_measurements. cbn [bad_divisor].
  simp _div_measurements. cbn [truediv].
  replace (len (z0 :: rest) =? 0)%Z with false by lia.
  rewrite int_or_long_int; [reflexivity|].
  apply quotient_is_int; [|exact Hpos].
  specialize (Hfit (List.length (z0 :: rest)) ltac:(simpl; lia)).
  now rewrite firstn_all in Hfit.
Qed.

Lemma mean_of_1_and_2 :
  _mean (PyList [PyInt 1; PyInt 2]) = Ok (PyInt 1).
Proof.
  apply (mean_of_ints_is_floored [1; 2]%Z); [discriminate|].
  intros k Hk. assert (Ek : k = 1%nat \/ k = 2%nat) by (simpl in Hk; lia).
  destruct Ek as [-> | ->]; reflexivity.
Defined.

(** X12. [_add_measurements], [_sub_measurements] and [_mul_measurements]
    raise the [TypeError] "cannot be summed" whenever one of the two operands
    is a leaf that is no number, array, sequence or mapping, whatever the
    other operand is. *)
Theorem measurements_raise_on_unsupported_leaf (o : operator) (a b : pyval) :
  unsupported_leaf a = true \/ unsupported_leaf b = true ->
  measurements o a b = Raise (TypeError CannotBeSummed).
Proof.
  intros [Ha|Hb].
  - now apply measurements_unsupported_leaf.
  - destruct b; try discriminate; destruct a; simp measurements; reflexivity.
Qed.

Lemma sub_of_a_list_and_None :
  _sub_measurements (PyList [PyFloat 1]) PyNone =
  Raise (TypeError CannotBeSummed).
Proof.
  apply (measurements_raise_on_unsupported_leaf Minus (PyList [PyFloat 1]) PyNone).
  right. reflexivity.
Defined.

Lemma zip_with_pairs {X Y B : Type} (f : X -> Y -> result B) (l : list X) :
  forall l' : list Y,
    (forall p, In p (combine l l') -> exists r, f (fst p) (snd p) = Ok r) ->
    exists rs,
      zip_with f l l' = Ok rs /\
      List.length rs = Nat.min (List.length l) (List.length l') /\
      Forall2 (fun p r => f (fst p) (snd p) = Ok r) (combine l l') rs.
Proof.
  induction l as [|x l IH]; intros [|y l'] Hpairs; simpl;
    try (exists []; repeat split; constructor).
  destruct (Hpairs (x, y) (or_introl eq_refl)) as (r & Hr). simpl in Hr.
  destruct (IH l') as (rs & Hrs & Hlen & Hall).
  { intros p Hp. apply Hpairs. now right. }
  exists (r :: rs). rewrite Hr, Hrs. simpl.
  split; [reflexivity|]. split; [now rewrite Hlen|].
  now constructor.
Qed.

(** X13. On two lists the three operations work on the pairs that [zip]
    forms, and on nothing else. When the operation returns for every pair,
    the result is the list of what it returns for the pairs, in their
    order: it has as many items as the shorter list, and the surplus items
    of the longer list are not looked at, whatever they are. *)
Theorem measurements_of_lists_truncate (o : operator) (l l' : list pyval) :
  (forall p, In p (combine l l') ->
             exists r, measurements o (fst p) (snd p) = Ok r) ->
  exists rs,
    measurements o (PyList l) (PyList l') = Ok (PyList rs) /\
    List.length rs = Nat.min (List.length l) (List.length l') /\
    Forall2 (fun p r => measurements o (fst p) (snd p) = Ok r)
            (combine l l') rs.
Proof.
  intros Hpairs. rewrite measurements_lists.
  destruct (zip_with_pairs (measurements o) l l' Hpairs)
    as (rs & -> & Hlen & Hall).
  exists rs. split; [reflexivity|]. split; assumption.
Qed.

Lemma add_of_lists_of_unequal_length :
  _add_measurements (PyList [PyFloat 1]) (PyList [PyFloat 10; PyNone]) =
  Ok (PyList [PyFloat (1 + 10)]).
Proof.
  destruct (measurements_of_lists_truncate Plus [PyFloat 1]
              [PyFloat 10; PyNone])
    as (rs & E & Hlen & Hall).
  - intros p [<-|[]]. simpl. eexists. apply measurements_floats.
  - unfold _add_measurements. rewrite E.
    destruct rs as [|r [|r' rs]]; try discriminate.
    inversion Hall as [|? ? ? ? Hr _]; subst. simpl in Hr.
    rewrite measurements_floats in Hr. injection Hr as <-. reflexivity.
Defined.

End AlgebraProperties.

(** ** Further properties of [fold_correlator] *)

Module FoldProperties.
Import DataSet Spec Facts ScalarFacts.
Import TwoPoint.
Local Open Scope R_scope.

Lemma pointwise_length (f : R -> R -> R) (u v : list R) :
  List.length u = List.length v -> List.length (pointwise f u v) = List.length u.
Proof.
  intros Hlen. unfold pointwise. rewrite length_map, length_combine. lia.
Qed.

Lemma pointwise_snoc (f : R -> R -> R) (u v : list R) (a b : R) :
  List.length u = List.length v ->
  pointwise f (u ++ [a]) (v ++ [b]) = pointwise f u v ++ [f a b].
Proof.
  revert v. induction u as [|x u IH]; intros [|y v] Hlen; simpl in Hlen;
    try discriminate; [reflexivity|].
  unfold pointwise in *. simpl. f_equal. apply IH. lia.
Qed.

Lemma pointwise_rev (f : R -> R -> R) (u : list R) :
  forall v, List.length u = List.length v ->
            rev (pointwise f u v) = pointwise f (rev u) (rev v).
Proof.
  induction u as [|x u IH]; intros [|y v] Hlen; simpl in Hlen;
    try discriminate; [reflexivity|].
  simpl rev. rewrite pointwise_snoc by (rewrite !length_rev; lia).
  rewrite <- IH by lia. reflexivity.
Qed.

Lemma pointwise_swap (f g : R -> R -> R) (u : list R) :
  (forall x y, f x y = g y x) ->
  forall v, pointwise f u v = pointwise g v u.
Proof.
  intros Hfg. induction u as [|x u IH]; intros [|y v]; try reflexivity.
  unfold pointwise in *. simpl. now rewrite Hfg, IH.
Qed.

Lemma pointwise_nth (f : R -> R -> R) (u : list R) :
  forall (v : list R) (k : nat) (a b : R),
    nth_error u k = Some a -> nth_error v k = Some b ->
    nth_error (pointwise f u v) k = Some (f a b).
Proof.
  induction u as [|x u IH]; intros [|y v] [|k] a b; simpl; try discriminate.
  - now intros [= ->] [= ->].
  - apply IH.
Qed.

(** The folded samples of the symmetric branch read the same in both
    directions; those of the antisymmetric branch change their sign. *)
Lemma folded_sum_is_palindrome (tl : list R) :
  rev (array_half (array_add (rev tl) tl)) = array_half (array_add (rev tl) tl).
Proof.
  unfold array_half. rewrite <- map_rev. f_equal.
  change (array_add (rev tl) tl) with (pointwise Rplus (rev tl) tl).
  rewrite pointwise_rev by apply length_rev. rewrite rev_involutive.
  apply pointwise_swap. intros x y. lra.
Qed.

Lemma folded_difference_changes_sign (tl : list R) :
  rev (array_half (array_sub tl (rev tl))) =
  map Ropp (array_half (array_sub tl (rev tl))).
Proof.
  unfold array_half. rewrite <- map_rev.
  change (array_sub tl (rev tl)) with (pointwise Rminus tl (rev tl)).
  rewrite pointwise_rev by (now rewrite length_rev). rewrite rev_involutive.
  rewrite (pointwise_swap Rminus (fun x y => y - x)) by reflexivity.
  unfold pointwise. rewrite !map_map. apply map_ext. intros [x y]. simpl. lra.
Qed.

Lemma item_0 {X : Type} (x : X) (l : list X) : item (x :: l) 0 = Ok x.
Proof.
  destruct (item_in_range (x :: l) 0) as (y & Hy & ->);
    [unfold len; simpl List.length; lia|].
  simpl in Hy. congruence.
Qed.

Lemma item_succ {X : Type} (x : X) (l : list X) (k : nat) (y : X) :
  nth_error l k = Some y -> item (x :: l) (Z.of_nat (S k)) = Ok y.
Proof.
  intros Hy.
  assert (Hk : (k < List.length l)%nat)
    by (apply nth_error_Some; congruence).
  destruct (item_in_range (x :: l) (Z.of_nat (S k))) as (z & Hz & ->);
    [unfold len; simpl List.length; lia|].
  rewrite Nat2Z.id in Hz. simpl in Hz. congruence.
Qed.

Lemma item_1 {X : Type} (x y : X) (l : list X) : item (x :: y :: l) 1 = Ok y.
Proof. exact (item_succ x (y :: l) 0 y eq_refl). Qed.

Lemma item_minus_1 (x g : R) (l : list R) :
  nth_error (rev l) 0 = Some g -> item (x :: l) (-1) = Ok g.
Proof.
  intros Hg. rewrite nth_error_rev in Hg.
  destruct (Nat.ltb_spec 0 (List.length l)) as [Hpos|]; [|discriminate].
  rewrite item_last by (unfold len; simpl List.length; lia).
  replace (len (x :: l) - 1)%Z with (Z.of_nat (S (List.length l - 1)))
    by (unfold len; simpl List.length; lia).
  now apply item_succ.
Qed.

Lemma np_sign_of_opposite (x : R) :
  x <> 0 -> np_sign x <> np_sign (- x).
Proof.
  intros Hx. unfold np_sign.
  destruct (Rlt_dec x 0), (Rlt_dec 0 x), (Rlt_dec (- x) 0), (Rlt_dec 0 (- x));
    lra.
Qed.

Lemma half_of_difference_with_opposite (l : list R) :
  array_half (array_sub l (map Ropp l)) = l.
Proof.
  unfold array_half, array_sub.
  induction l as [|x l IH]; simpl; [reflexivity|].
  rewrite IH. f_equal. lra.
Qed.

(** A series whose samples after the first read the same in both directions
    is returned as it is. *)
Lemma fold_of_palindrome (c0 g : R) (G : list R) :
  rev (g :: G) = g :: G -> fold_correlator (c0 :: g :: G) = Ok (c0 :: g :: G).
Proof.
  intros Hrev. unfold fold_correlator.
  rewrite item_1.
  rewrite (item_minus_1 c0 g (g :: G)) by now rewrite Hrev.
  rewrite item_0. cbn [bind].
  unfold real_eqb.
  destruct (Req_dec_T (np_sign g) (np_sign g)); [|contradiction].
  unfold down_to_1, from_1. cbn [skipn].
  now rewrite Hrev, half_of_double.
Qed.

(** So is a series whose samples after the first change sign when read
    backwards, when the first of them is not zero. *)
Lemma fold_of_antipalindrome (c0 g : R) (G : list R) :
  rev (g :: G) = map Ropp (g :: G) -> g <> 0 ->
  fold_correlator (c0 :: g :: G) = Ok (c0 :: g :: G).
Proof.
  intros Hrev Hg. unfold fold_correlator.
  rewrite item_1.
  rewrite (item_minus_1 c0 (- g) (g :: G)) by now rewrite Hrev.
  rewrite item_0. cbn [bind].
  unfold real_eqb.
  destruct (Req_dec_T (np_sign g) (np_sign (- g))) as [E|_];
    [now apply np_sign_of_opposite in E|].
  unfold down_to_1, from_1. cbn [skipn].
  now rewrite Hrev, half_of_difference_with_opposite.
Qed.

(** X14. Folding is idempotent: the fold of a series of at least two
    samples is returned unchanged when it is folded again. *)
Theorem fold_correlator_is_idempotent (C F : list R) :
  (2 <= len C)%Z -> fold_correlator C = Ok F -> fold_correlator F = Ok F.
Proof.
  intros Hlen Hfold. destruct C as [|c0 [|c1 tl]];
    try (unfold len in Hlen; simpl in Hlen; lia).
  assert (Hlast : exists cl rl, rev (c1 :: tl) = cl :: rl).
  { destruct (rev (c1 :: tl)) as [|cl rl] eqn:Hr; [|eauto].
    apply (f_equal (@List.length R)) in Hr. rewrite length_rev in Hr.
    discriminate. }
  destruct Hlast as (cl & rl & Hr).
  unfold fold_correlator in Hfold. rewrite item_1 in Hfold.
  rewrite (item_minus_1 c0 cl (c1 :: tl)) in Hfold by now rewrite Hr.
  rewrite item_0 in Hfold. cbn [bind] in Hfold.
  unfold down_to_1, from_1 in Hfold. cbn [skipn] in Hfold.
  unfold real_eqb in Hfold.
  pose proof (folded_sum_is_palindrome (c1 :: tl)) as Hsum.
  pose proof (folded_difference_changes_sign (c1 :: tl)) as Hdiff.
  remember (array_half (array_add (rev (c1 :: tl)) (c1 :: tl))) as A eqn:HA.
  remember (array_half (array_sub (c1 :: tl) (rev (c1 :: tl)))) as B eqn:HB.
  rewrite Hr in HA, HB. simpl in HA, HB.
  destruct (Req_dec_T (np_sign c1) (np_sign cl)) as [Hsame|Hother];
    injection Hfold as <-.
  - destruct A as [|g G]; [discriminate|].
    now apply fold_of_palindrome.
  - destruct B as [|g G]; [discriminate|].
    injection HB as Hg _.
    apply fold_of_antipalindrome; [exact Hdiff|].
    intros Hzero. apply Hother. replace cl with c1 by lra. reflexivity.
Qed.

Lemma fold_of_the_fold_of_1_2_3_4 :
  fold_correlator [1; (2 + 4) / 2; (3 + 3) / 2; (4 + 2) / 2] =
  Ok [1; (2 + 4) / 2; (3 + 3) / 2; (4 + 2) / 2].
Proof.
  apply (fold_correlator_is_idempotent [1; 4; 3; 2]).
  - unfold len. simpl. lia.
  - unfold fold_correlator. rewrite item_1.
    rewrite (item_minus_1 1 2 [4; 3; 2] eq_refl), item_0. cbn [bind].
    unfold real_eqb.
    destruct (Req_dec_T (np_sign 4) (np_sign 2)) as [_|Hne].
    + simpl. repeat f_equal; lra.
    + exfalso. apply Hne. unfold np_sign.
      destruct (Rlt_dec 4 0), (Rlt_dec 0 4), (Rlt_dec 2 0), (Rlt_dec 0 2); lra.
Defined.

(** X15. What [fold_correlator] returns for a series of [T >= 2] samples:
    a series of the same length with the same first sample, whose sample at
    [t >= 1] is [(C[T-t] + C[t]) / 2] when [C[1]] and [C[-1]] have the same
    sign and [(C[t] - C[T-t]) / 2] when they have not. *)
Theorem fold_correlator_samples (C : list R) (c1 clast : R) :
  (2 <= len C)%Z -> item C 1 = Ok c1 -> item C (-1) = Ok clast ->
  exists F,
    fold_correlator C = Ok F /\ len F = len C /\ item F 0 = item C 0 /\
    forall (t : Z) (a b : R),
      (1 <= t <= len C - 1)%Z ->
      item C t = Ok a -> item C (len C - t) = Ok b ->
      item F t = Ok (if real_eqb (np_sign c1) (np_sign clast)
                     then (b + a) / 2 else (a - b) / 2).
Proof.
  intros Hlen H1 Hlast. destruct C as [|c0 [|c1' tl]];
    try (unfold len in Hlen; simpl in Hlen; lia).
  set (body := c1' :: tl) in *.
  assert (Hbody : List.length body = S (List.length tl)) by reflexivity.
  unfold fold_correlator. rewrite H1, Hlast, item_0. cbn [bind].
  unfold down_to_1, from_1. cbn [skipn].
  assert (Hsample : forall (f : R -> R -> R) (u v : list R) (t : Z) (x y : R),
             List.length u = List.length body ->
             List.length v = List.length body ->
             (1 <= t <= len (c0 :: body) - 1)%Z ->
             nth_error u (Z.to_nat (t - 1)) = Some x ->
             nth_error v (Z.to_nat (t - 1)) = Some y ->
             item (c0 :: array_half (pointwise f u v)) t = Ok (f x y / 2)).
  { intros f u v t x y Hu Hv Ht Hx Hy.
    replace t with (Z.of_nat (S (Z.to_nat (t - 1)))) at 1 by lia.
    apply item_succ. unfold array_half.
    rewrite nth_error_map, (pointwise_nth f u v _ x y Hx Hy). reflexivity. }
  assert (Hfrom : forall (t : Z) (a : R),
             (1 <= t <= len (c0 :: body) - 1)%Z ->
             item (c0 :: body) t = Ok a ->
             nth_error body (Z.to_nat (t - 1)) = Some a).
  { intros t a Ht Ha.
    destruct (item_in_range (c0 :: body) t) as (x & Hx & Ex); [lia|].
    rewrite Ex in Ha. injection Ha as ->.
    replace (Z.to_nat t) with (S (Z.to_nat (t - 1))) in Hx by lia.
    exact Hx. }
  assert (Hdown : forall (t : Z) (b : R),
             (1 <= t <= len (c0 :: body) - 1)%Z ->
             item (c0 :: body) (len (c0 :: body) - t) = Ok b ->
             nth_error (rev body) (Z.to_nat (t - 1)) = Some b).
  { intros t b Ht Hb. rewrite nth_error_rev.
    unfold len in Ht. simpl List.length in Ht.
    replace (Z.to_nat (t - 1) <? List.length body)%nat with true
      by (symmetry; apply Nat.ltb_lt; lia).
    apply (Hfrom (len (c0 :: body) - t)%Z b) in Hb;
      [|unfold len; simpl List.length; lia].
    replace (List.length body - S (Z.to_nat (t - 1)))%nat
      with (Z.to_nat (len (c0 :: body) - t - 1))
      by (unfold len; simpl List.length; lia).
    exact Hb. }
  destruct (real_eqb (np_sign c1) (np_sign clast)).
  - eexists. split; [reflexivity|]. split; [|split].
    + unfold len. cbn [List.length]. unfold array_half.
      rewrite length_map.
      change (array_add (rev body) body) with (pointwise Rplus (rev body) body).
      rewrite pointwise_length, length_rev by apply length_rev. reflexivity.
    + now rewrite !item_0.
    + intros t a b Ht Ha Hb.
      apply (Hsample Rplus (rev body) body t b a);
        [apply length_rev | reflexivity | exact Ht | now apply Hdown
        | now apply Hfrom].
  - eexists. split; [reflexivity|]. split; [|split].
    + unfold len. cbn [List.length]. unfold array_half.
      rewrite length_map.
      change (array_sub body (rev body)) with (pointwise Rminus body (rev body)).
      rewrite pointwise_length by (now rewrite length_rev). reflexivity.
    + now rewrite !item_0.
    + intros t a b Ht Ha Hb.
      apply (Hsample Rminus body (rev body) t a b);
        [reflexivity | apply length_rev | exact Ht | now apply Hfrom
        | now apply Hdown].
Qed.

Lemma fold_correlator_of_1_4_3_2 :
  exists F,
    fold_correlator [1; 4; 3; 2] = Ok F /\ len F = 4%Z /\
    item F 0 = Ok 1 /\
    item F 1 = Ok (if real_eqb (np_sign 4) (np_sign 2)
                   then (2 + 4) / 2 else (4 - 2) / 2).
Proof.
  destruct (fold_correlator_samples [1; 4; 3; 2] 4 2)
    as (F & E & Hlen & H0 & Hsamples).
  - unfold len. simpl. lia.
  - reflexivity.
  - reflexivity.
  - exists F. split; [exact E|]. split; [exact Hlen|]. split; [exact H0|].
    apply (Hsamples 1%Z 4 2); [unfold len; simpl; lia | reflexivity | reflexivity].
Defined.

(** X16. A series of fewer than two samples has no [correlator[1]]:
    [fold_correlator] raises [IndexError]. *)
Theorem fold_correlator_too_short (C : list R) :
  (len C < 2)%Z -> fold_correlator C = Raise IndexError.
Proof.
  intros Hlen. destruct C as [|c0 [|c1 tl]];
    [reflexivity | reflexivity | unfold len in Hlen; simpl in Hlen; lia].
Qed.

Lemma fold_correlator_of_one_sample :
  fold_correlator [5] = Raise IndexError.
Proof.
  apply (fold_correlator_too_short [5]). unfold len. simpl. lia.
Defined.

Lemma antisymmetric_tail (c0 : R) (tl : list R) :
  antisymmetric (c0 :: tl) -> rev tl = map Ropp tl.
Proof.
  intros Hanti. apply nth_error_ext. intros k.
  rewrite nth_error_rev, nth_error_map.
  destruct (Nat.ltb_spec k (List.length tl)) as [Hk|Hk].
  - assert (Ht : (1 <= Z.of_nat (S k) <= len (c0 :: tl) - 1)%Z)
      by (unfold len; simpl List.length; lia).
    destruct (item_in_range (c0 :: tl) (Z.of_nat (S k))) as (x & Hx & Ex);
      [unfold len; simpl List.length; lia|].
    destruct (item_in_range (c0 :: tl) (len (c0 :: tl) - Z.of_nat (S k)))
      as (y & Hy & Ey); [unfold len; simpl List.length; lia|].
    pose proof (Hanti _ x y Ht Ex Ey) as Hxy.
    rewrite Nat2Z.id in Hx. simpl in Hx.
    replace (Z.to_nat (len (c0 :: tl) - Z.of_nat (S k)))
      with (S (List.length tl - S k)) in Hy
      by (unfold len; simpl List.length; lia).
    simpl in Hy. rewrite Hx, Hy. simpl. f_equal. lra.
  - apply nth_error_None in Hk. now rewrite Hk.
Qed.

(** X17. A series of at least two samples that is antisymmetric about its
    midpoint and whose sample at 1 is not zero is returned unchanged. *)
Theorem fold_correlator_antisymmetric (C : list R) (c1 : R) :
  (2 <= len C)%Z -> antisymmetric C -> item C 1 = Ok c1 -> c1 <> 0 ->
  fold_correlator C = Ok C.
Proof.
  intros Hlen Hanti H1 Hc1. destruct C as [|c0 [|c1' tl]];
    try (unfold len in Hlen; simpl in Hlen; lia).
  rewrite item_1 in H1. injection H1 as ->.
  apply fold_of_antipalindrome; [|exact Hc1].
  now apply (antisymmetric_tail c0).
Qed.

Lemma fold_correlator_of_an_antisymmetric_series :
  fold_correlator [7; 2; 0; -2] = Ok [7; 2; 0; -2].
Proof.
  apply (fold_correlator_antisymmetric [7; 2; 0; -2] 2).
  - unfold len. simpl. lia.
  - intros t a b Ht. unfold len in *. simpl in Ht.
    assert (Hcases : (t = 1 \/ t = 2 \/ t = 3)%Z) by lia.
    destruct Hcases as [-> | [-> | ->]]; intros [= <-] [= <-]; lra.
  - reflexivity.
  - lra.
Defined.

End FoldProperties.

(** ** Properties of [filter_correlators] and of the lattice momenta *)

Module CorrelatorProperties.
Import DataSet Spec Facts ScalarFacts FoldProperties.
Import TwoPoint.

Lemma masses_eqb_eq (p q : list R) : masses_eqb p q = true <-> p = q.
Proof.
  unfold masses_eqb. destruct (list_eq_dec Req_dec_T p q); split;
    congruence.
Qed.

Lemma momentum_eqb_eq (p q : list Z) : momentum_eqb p q = true <-> p = q.
Proof.
  unfold momentum_eqb. destruct (list_eq_dec Z.eq_dec p q); split;
    congruence.
Qed.

Lemma attributes_eqb_eq (a b : attributes) :
  attributes_eqb a b = true <-> a = b.
Proof.
  unfold attributes_eqb. rewrite !andb_true_iff, !String.eqb_eq,
    masses_eqb_eq, momentum_eqb_eq.
  destruct a, b; simpl. split.
  - intros [[[[-> ->] ->] ->] ->]. reflexivity.
  - intros [= -> -> -> -> ->]. repeat split.
Qed.

Lemma narrow_entries {X V : Type} (eqb : X -> X -> bool)
      (field : attributes -> X) (param : option X)
      (d : list (attributes * V)) :
  narrow eqb field param (map fst d) =
  map fst (filter (fun kv => meets eqb (field (fst kv)) param) d).
Proof.
  destruct param as [p|]; simpl.
  - induction d as [|kv d IH]; simpl; [reflexivity|].
    destruct (eqb (field (fst kv)) p); simpl; now rewrite IH.
  - f_equal. induction d as [|kv d IH]; simpl; [reflexivity | now rewrite <- IH].
Qed.

Lemma filter_twice {X : Type} (f g : X -> bool) (l : list X) :
  filter g (filter f l) = filter (fun x => f x && g x) l.
Proof.
  induction l as [|x l IH]; simpl; [reflexivity|].
  destruct (f x); simpl; [destruct (g x)|]; now rewrite IH.
Qed.

Lemma getitem_of_entry {V : Type} (data : list (attributes * V))
      (kv : attributes * V) :
  NoDup (map fst data) -> In kv data -> getitem data (fst kv) = Ok (snd kv).
Proof.
  unfold getitem. induction data as [|e data IH]; intros Hnodup Hin;
    [contradiction|].
  inversion Hnodup as [|? ? Hfresh Hrest]; subst. simpl.
  destruct (attributes_eqb (fst e) (fst kv)) eqn:E.
  - apply attributes_eqb_eq in E. destruct Hin as [->|Hin]; [reflexivity|].
    exfalso. apply Hfresh. rewrite E. now apply in_map.
  - destruct Hin as [->|Hin]; [|now apply IH].
    assert (Hrefl : attributes_eqb (fst kv) (fst kv) = true)
      by now apply attributes_eqb_eq.
    congruence.
Qed.

Lemma getitem_of_entries {V : Type} (data chosen : list (attributes * V)) :
  NoDup (map fst data) -> incl chosen data ->
  comprehension (getitem data) (map fst chosen) = Ok (map snd chosen).
Proof.
  intros Hnodup. induction chosen as [|kv chosen IH]; intros Hincl; simpl;
    [reflexivity|].
  rewrite (getitem_of_entry data kv Hnodup) by (apply Hincl; now left).
  simpl. rewrite IH; [reflexivity|].
  intros x Hx. apply Hincl. now right.
Qed.

Lemma combine_fst_snd {X Y : Type} (l : list (X * Y)) :
  combine (map fst l) (map snd l) = l.
Proof.
  induction l as [|[x y] l IH]; simpl; [reflexivity | now rewrite IH].
Qed.

(** X18. On a dict of correlators (distinct keys), [filter_correlators]
    returns the entries whose attributes equal every criterion that is
    supplied, the masses of the criterion being rounded to 8 digits first and
    those of the keys not: the one array itself when exactly one entry is
    selected, and otherwise the dict of the selected entries in their order,
    which is empty when none is. *)
Theorem filter_correlators_selects {V : Type} (round8 : R -> R)
        (data : list (attributes * V))
        (label' : option string) (masses' : option (list R))
        (momentum' : option (list Z)) (source_type' sink_type' : option string) :
  NoDup (map fst data) ->
  filter_correlators round8 data label' masses' momentum'
                     source_type' sink_type' =
  match filter (fun kv => selected round8 label' masses' momentum'
                                   source_type' sink_type' (fst kv)) data with
  | [kv] => Ok (TheCorrelator (snd kv))
  | chosen => Ok (Correlators chosen)
  end.
Proof.
  intros Hnodup. unfold filter_correlators. cbv zeta.
  rewrite narrow_entries.
  rewrite narrow_entries, filter_twice.
  rewrite narrow_entries, filter_twice.
  rewrite narrow_entries, filter_twice.
  rewrite narrow_entries, filter_twice.
  match goal with
  | |- context [filter ?f data] =>
      change (filter f data)
        with (filter (fun kv => selected round8 label' masses' momentum'
                                         source_type' sink_type' (fst kv)) data)
  end.
  set (chosen := filter _ data).
  assert (Hincl : incl chosen data) by (intros x Hx; now apply filter_In in Hx).
  destruct chosen as [|kv [|kv' rest]] eqn:Hchosen.
  - reflexivity.
  - simpl. rewrite (getitem_of_entry data kv Hnodup) by (apply Hincl; now left).
    reflexivity.
  - rewrite <- Hchosen in *.
    destruct (map fst chosen) as [|a [|a' l]] eqn:Hkeys;
      try (rewrite Hchosen in Hkeys; discriminate).
    rewrite <- Hkeys.
    rewrite (getitem_of_entries data chosen Hnodup Hincl). simpl.
    now rewrite combine_fst_snd.
Qed.

Lemma filter_correlators_by_label :
  filter_correlators (fun x => x)
    [ ({| label := "pion"; masses := [(1 / 10)%R]; momentum := [0; 0; 0];
          source_type := "point"; sink_type := "point" |}, 1);
      ({| label := "rho"; masses := [(1 / 10)%R]; momentum := [0; 0; 0];
          source_type := "point"; sink_type := "point" |}, 2) ]
    (Some "pion") None None None None
  = Ok (TheCorrelator 1).
Proof.
  rewrite filter_correlators_selects; [reflexivity|].
  constructor; [|constructor; [|constructor]].
  - simpl. intros [E|[]]. discriminate E.
  - simpl. tauto.
Defined.

Lemma xrange_In_iff (lo hi i : Z) : In i (xrange lo hi) <-> lo <= i < hi.
Proof.
  unfold xrange. rewrite in_map_iff. split.
  - intros (k & <- & Hk). apply in_seq in Hk. lia.
  - intros Hi. exists (Z.to_nat (i - lo)). split; [lia|].
    apply in_seq. lia.
Qed.

(** X19. The momenta that [_get_all_momenta] returns for [p] on a lattice of
    extent [L]: exactly the vectors [(px % L, py % L, pz % L)] for the
    [px, py, pz] of the scan range [-L // 2 .. L // 2 - 1] whose squared
    length is that of [p]. *)
Theorem get_all_momenta_members (p0 p1 p2 L T : Z) :
  exists ms,
    _get_all_momenta [p0; p1; p2] L T = Ok ms /\
    forall q,
      In q ms <->
      exists px py pz,
        (- L / 2 <= px < L / 2) /\ (- L / 2 <= py < L / 2) /\
        (- L / 2 <= pz < L / 2) /\
        px ^ 2 + py ^ 2 + pz ^ 2 = p0 ^ 2 + p1 ^ 2 + p2 ^ 2 /\
        q = [px mod L; py mod L; pz mod L].
Proof.
  eexists. split; [reflexivity|]. intros q.
  rewrite in_flat_map. split.
  - intros (px & Hpx & Hin). apply in_flat_map in Hin as (py & Hpy & Hin).
    apply in_flat_map in Hin as (pz & Hpz & Hin).
    apply xrange_In_iff in Hpx, Hpy, Hpz.
    destruct (Z.eqb_spec (px ^ 2 + py ^ 2 + pz ^ 2) (p0 ^ 2 + p1 ^ 2 + p2 ^ 2))
      as [Hnorm|]; [|contradiction].
    destruct Hin as [<-|[]]. exists px, py, pz. auto.
  - intros (px & py & pz & Hpx & Hpy & Hpz & Hnorm & ->).
    exists px. split; [now apply xrange_In_iff|].
    apply in_flat_map. exists py. split; [now apply xrange_In_iff|].
    apply in_flat_map. exists pz. split; [now apply xrange_In_iff|].
    rewrite Hnorm, Z.eqb_refl. now left.
Qed.

Lemma xrange_split (k : nat) :
  forall lo mid hi : Z,
    Z.to_nat (mid - lo) = k -> lo <= mid <= hi ->
    xrange lo hi = xrange lo mid ++ xrange mid hi.
Proof.
  induction k as [|k IH]; intros lo mid hi Hk Hle.
  - replace mid with lo by lia. now rewrite (xrange_nil lo lo) by lia.
  - rewrite (xrange_cons lo hi), (xrange_cons lo mid) by lia.
    simpl. f_equal. apply IH; lia.
Qed.

Lemma flat_map_nothing {X Y : Type} (f : X -> list Y) (l : list X) :
  (forall x, In x l -> f x = []) -> flat_map f l = [].
Proof.
  induction l as [|x l IH]; intros Hf; simpl; [reflexivity|].
  rewrite (Hf x) by now left. apply IH. intros y Hy. apply Hf. now right.
Qed.

(** A scan over a range that contains 0 finds what it finds at 0, when
    nothing is found anywhere else. *)
Lemma scan_finds_zero {Y : Type} (f : Z -> list Y) (lo hi : Z) :
  lo <= 0 < hi -> (forall x, x <> 0 -> f x = []) ->
  flat_map f (xrange lo hi) = f 0.
Proof.
  intros Hrange Hf.
  rewrite (xrange_split _ lo 0 hi eq_refl) by lia.
  rewrite (xrange_cons 0 hi) by lia.
  rewrite flat_map_app. simpl.
  rewrite !flat_map_nothing, app_nil_r; [reflexivity | |];
    intros x Hx; apply xrange_In_iff in Hx; apply Hf; lia.
Qed.

(** X20. On a lattice of extent at least 2 the zero momentum has no other
    equivalent: [_get_all_momenta((0, 0, 0), L, T)] is [[(0, 0, 0)]]. *)
Theorem get_all_momenta_of_zero (L T : Z) :
  2 <= L -> _get_all_momenta [0; 0; 0] L T = Ok [[0; 0; 0]].
Proof.
  intros HL. unfold _get_all_momenta.
  change (item [0; 0; 0] 0) with (Ok 0 : result Z).
  change (item [0; 0; 0] 1) with (Ok 0 : result Z).
  change (item [0; 0; 0] 2) with (Ok 0 : result Z).
  cbn [bind]. change (0 ^ 2 + 0 ^ 2 + 0 ^ 2) with 0.
  assert (Hrange : - L / 2 <= 0 < L / 2).
  { split.
    - apply Z.div_le_upper_bound; lia.
    - apply Z.div_str_pos. lia. }
  f_equal.
  rewrite scan_finds_zero; [|exact Hrange|].
  - rewrite scan_finds_zero; [|exact Hrange|].
    + rewrite scan_finds_zero; [|exact Hrange|].
      * rewrite Z.mod_0_l by lia. reflexivity.
      * intros pz Hpz.
        destruct (Z.eqb_spec (0 ^ 2 + 0 ^ 2 + pz ^ 2) 0); [nia | reflexivity].
    + intros py Hpy. apply flat_map_nothing. intros pz _.
      destruct (Z.eqb_spec (0 ^ 2 + py ^ 2 + pz ^ 2) 0); [nia | reflexivity].
  - intros px Hpx. apply flat_map_nothing. intros py _.
    apply flat_map_nothing. intros pz _.
    destruct (Z.eqb_spec (px ^ 2 + py ^ 2 + pz ^ 2) 0); [nia | reflexivity].
Qed.

Lemma get_all_momenta_of_zero_on_4 :
  _get_all_momenta [0; 0; 0] 4 8 = Ok [[0; 0; 0]].
Proof. apply (get_all_momenta_of_zero 4 8). lia. Defined.

Section Propagators.
Variable tensor : Type.
Variable Gammas : list (string * tensor).
Variables spin_prod einsum : tensor -> tensor -> tensor.
Variables prop_adjoint fftn : tensor -> tensor.
Variable shape : tensor -> list Z.
Variable at_momentum : tensor -> Z -> Z -> Z -> result tensor.
Variable mean_axis_0 : list tensor -> tensor.

(** X21. With the default arguments (zero momentum, [average_momenta=True])
    on propagators of time extent [T] and spatial extent [L >= 2],
    [compute_meson_corr] returns one array: the mean over the single
    zero-momentum slice of the Fourier transform of the traced product of
    the propagators. *)
Theorem compute_meson_corr_at_zero_momentum
        (propagator1 propagator2 : tensor)
        (source_interpolator sink_interpolator : interpolator tensor)
        (gamma1 gamma2 c : tensor) (T L : Z) (axes : list Z) (fold : bool) :
  resolve tensor Gammas source_interpolator = Ok gamma1 ->
  resolve tensor Gammas sink_interpolator = Ok gamma2 ->
  shape propagator1 = T :: L :: axes -> 2 <= L ->
  at_momentum
    (fftn (_compute_correlator tensor spin_prod prop_adjoint einsum
             propagator1 propagator2 gamma1 gamma2)) 0 0 0 = Ok c ->
  compute_meson_corr tensor Gammas spin_prod prop_adjoint einsum fftn shape
    at_momentum mean_axis_0 propagator1 propagator2
    source_interpolator sink_interpolator (OneMomentum [0; 0; 0]) true fold
  = Ok (SingleArray (mean_axis_0 [c])).
Proof.
  intros Hg1 Hg2 Hshape HL Hc. unfold compute_meson_corr.
  rewrite Hg1, Hg2. cbn [bind].
  change (item [0; 0; 0] 0) with (Ok 0 : result Z). cbn [bind].
  rewrite Hshape, item_1, item_0. cbn [bind for_each].
  rewrite (get_all_momenta_of_zero L T HL). cbn [bind comprehension].
  change (item [0; 0; 0] 0) with (Ok 0 : result Z).
  change (item [0; 0; 0] 1) with (Ok 0 : result Z).
  change (item [0; 0; 0] 2) with (Ok 0 : result Z).
  cbn [bind]. rewrite Hc. reflexivity.
Qed.

End Propagators.

Lemma compute_meson_corr_of_constant_arrays :
  compute_meson_corr Z [] (fun g p => p) (fun p => p)
    (fun p q => p + q) (fun c => c) (fun _ => [8; 4; 4; 4])
    (fun c _ _ _ => Ok c) (fun cs => hd 0 cs)
    3 5 (Matrix 1) (Matrix 1) (OneMomentum [0; 0; 0]) true false
  = Ok (SingleArray 8).
Proof.
  apply (compute_meson_corr_at_zero_momentum Z [] (fun g p => p)
           (fun p q => p + q) (fun p => p) (fun c => c) (fun _ => [8; 4; 4; 4])
           (fun c _ _ _ => Ok c) (fun cs => hd 0 cs)
           3 5 (Matrix 1) (Matrix 1) 1 1 8 8 4 [4; 4] false);
    try reflexivity.
  lia.
Defined.

End CorrelatorProperties.

(** ** Loading a store from its archive *)

Module LoadProperties.
Import DataSet Spec Facts ScalarFacts AlgebraFacts EnsembleFacts StoreProperties.

Lemma prefix_append (a b : string) : String.prefix a (a ++ b) = true.
Proof.
  induction a as [|c a IH]; simpl.
  - now destruct b.
  - destruct (ascii_dec c c); [exact IH | contradiction].
Qed.

Lemma substring_skip (a b : string) (m : nat) :
  substring (String.length a) m (a ++ b) = substring 0 m b.
Proof. induction a as [|c a IH]; simpl; [reflexivity | exact IH]. Qed.

Lemma substring_take (b c : string) :
  substring 0 (String.length b) (b ++ c) = b.
Proof.
  induction b as [|x b IH]; simpl; [now destruct c | now rewrite IH].
Qed.

Lemma substring_nothing (s : string) (n : nat) : substring n 0 s = "".
Proof.
  revert n. induction s as [|c s IH]; intros [|n]; simpl; auto.
Qed.

(** The slice that [load] takes from a member name is the numeral. *)
Lemma slice_of_member_name (name numeral : string) :
  slice_to_minus_4 (name ++ numeral ++ ".npz") (String.length name) = numeral.
Proof.
  unfold slice_to_minus_4. rewrite !append_length. simpl String.length.
  replace (String.length name + (String.length numeral + 4) - 4
           - String.length name)%nat
    with (String.length numeral) by lia.
  rewrite substring_skip. apply substring_take.
Qed.

Lemma fold_max (m : Z) (rest : list Z) :
  forall x, Forall (fun j => j <= m) rest -> x <= m ->
            x = m \/ In m rest -> fold_left Z.max rest x = m.
Proof.
  induction rest as [|y rest IH]; intros x Hall Hx Hm; simpl.
  - now destruct Hm.
  - inversion Hall as [|? ? Hy Hrest]; subst. apply IH; [assumption | lia |].
    destruct Hm as [->|[->|Hin]]; [left; lia | left; lia | now right].
Qed.

Lemma max_of_bounded (m : Z) (data : list Z) :
  Forall (fun j => j <= m) data -> In m data -> py_max data = m.
Proof.
  destruct data as [|x rest]; [intros _ []|].
  intros Hall Hin. inversion Hall; subst. simpl.
  apply fold_max; [assumption | assumption |].
  destruct Hin as [->|Hin]; [now left | now right].
Qed.

Lemma decimal_of_format_int (n : Z) : decimal (format_int n) = Some n.
Proof.
  unfold decimal, format_int.
  assert (canonical : Z.to_int n <> Decimal.Pos Decimal.Nil /\
                      Z.to_int n <> Decimal.Neg Decimal.Nil).
  { destruct n as [|p|p]; simpl; split; try discriminate;
      intros [= E']; now apply (DecimalPos.Unsigned.to_uint_nonnil p). }
  rewrite NilZero.isi by apply canonical.
  simpl. now rewrite DecimalZ.of_to.
Qed.

Section AnyStore.
Context {D : Type} `{Datatype D}.
Variable int : string -> option Z.

Lemma holds_of_the_same_archive (a b : DataSet D) (vs : list D) :
  datatype b = datatype a -> zfile b = zfile a -> num_data b = num_data a ->
  holds a vs -> holds b vs.
Proof.
  intros Ht Hz Hn [Hlen Hget]. split; [congruence|].
  intros i v Hv. unfold get_datum, member_name. rewrite Ht, Hz.
  exact (Hget i v Hv).
Qed.

Lemma kept_of_init (zlib : bool) (t : pytype) (name : string)
      (compress : bool) :
  kept_by_add_datum (__init__ zlib t name compress : DataSet D).
Proof.
  split; [reflexivity|]. split; [apply members_of_init|].
  simpl. split; lia.
Qed.

Lemma kept_after_add_datum (self self' : DataSet D) (datum : D) :
  kept_by_add_datum self -> add_datum self datum = Ok self' ->
  kept_by_add_datum self'.
Proof.
  intros (Htype & Hm & Hn & Hlast) E.
  destruct (members_after_add_datum self self' datum Hm Hn E) as [Hm' Hn'].
  assert (Hn'' : 0 <= num_data self') by lia.
  unfold add_datum in E. destruct (negb _); [discriminate|].
  injection E as <-. split; [|split; [exact Hm' | split; [exact Hn''|]]].
  - simpl. rewrite getinfo_write_other; [exact Htype|].
    apply member_name_not_type.
  - intros _. simpl. unfold Zip.namelist, Zip.write.
    rewrite map_app, in_app_iff. right. left. simpl.
    unfold member_name. simpl.
    replace (num_data self + 1 - 1) with (num_data self) by lia. reflexivity.
Qed.

Lemma kept_after_filled (vs : list D) :
  forall self self' : DataSet D,
    kept_by_add_datum self -> filled self vs = Ok self' ->
    kept_by_add_datum self'.
Proof.
  unfold filled. induction vs as [|v vs IH]; intros self self' Hk; simpl.
  - now intros [= <-].
  - destruct (add_datum self v) as [s1|e] eqn:E1; [|discriminate]. simpl.
    apply IH. exact (kept_after_add_datum self s1 v Hk E1).
Qed.

(** The names of an archive that only holds the type marker and members of
    indices below [n] are read back as those indices. *)
Lemma names_read (t : pytype) (n : Z) (names : list string) :
  startswith "type" (tp_name t) = false ->
  (forall j, 0 <= j < n ->
             lacks (tp_name t ++ format_int j ++ ".npz") "jackknife" = true) ->
  (forall j, 0 <= j < n -> int (format_int j) = Some j) ->
  Forall (fun name =>
            name = "type" \/
            exists j, 0 <= j < n /\
                      name = (tp_name t ++ format_int j ++ ".npz")%string)
         names ->
  exists data,
    ints int
         (map (fun fname => slice_to_minus_4 fname (String.length (tp_name t)))
              (filter (fun fname => startswith fname (tp_name t)
                                    && lacks fname "jackknife") names))
    = inr data /\
    Forall (fun j => 0 <= j < n) data /\
    forall j, In (tp_name t ++ format_int j ++ ".npz")%string names ->
              In j data.
Proof.
  intros Htype Hlacks Hint. induction names as [|name names IH]; intros Hall.
  - exists []. split; [reflexivity|]. split; [constructor | intros j []].
  - inversion Hall as [|? ? Hname Hnames]; subst.
    destruct (IH Hnames) as (data & E & Hdata & Hin).
    destruct Hname as [->|(k & Hk & ->)].
    + exists data. cbn [filter]. rewrite Htype. cbn [andb]. split; [exact E|].
      split; [exact Hdata|]. intros j [Ej|Hj]; [|now apply Hin].
      exfalso. apply (f_equal String.length) in Ej.
      rewrite !append_length in Ej. pose proof (format_int_not_empty j).
      simpl in Ej. lia.
    + exists (k :: data). cbn [filter]. unfold startswith at 1.
      rewrite prefix_append, (Hlacks k Hk). cbn [andb map ints].
      rewrite slice_of_member_name, (Hint k Hk), E.
      split; [reflexivity|]. split; [now constructor|].
      intros j [Ej|Hj]; [|right; now apply Hin].
      left. apply append_inv_head, append_inv_tail in Ej.
      now apply format_int_inj.
Qed.

(** [load] on the archive of a store that [add_datum] has kept. *)
Lemma load_of_kept (zlib : bool) (fname : string) (cache : Zip.archive D)
      (self : DataSet D) :
  kept_by_add_datum self ->
  startswith "type" (tp_name (datatype self)) = false ->
  (forall j, 0 <= j < num_data self ->
             lacks (member_name self j) "jackknife" = true) ->
  (forall j, 0 <= j < num_data self -> int (format_int j) = Some j) ->
  exists out,
    load zlib int fname (zfile self) cache = Loaded out /\
    datatype out = datatype self /\ num_data out = num_data self /\
    zfile out = zfile self /\ filename out = fname /\
    pyQCDcache out = cache /\ jackknifes_cached out = false.
Proof.
  intros (Htype & Hm & Hn & Hlast) Hstart Hlacks Hint.
  destruct (names_read (datatype self) (num_data self)
              (Zip.namelist (zfile self)) Hstart Hlacks Hint)
    as (data & E & Hdata & Hin).
  { apply Forall_forall. exact Hm. }
  unfold load. rewrite Htype. cbv zeta. rewrite E.
  destruct (Z.ltb_spec 0 (len data)) as [Hsome|Hnone].
  - assert (Hpos : 0 < num_data self).
    { destruct data as [|j data]; [unfold len in Hsome; simpl in Hsome; lia|].
      inversion Hdata; subst. lia. }
    eexists. split; [reflexivity|]. simpl.
    repeat split.
    rewrite (max_of_bounded (num_data self - 1) data).
    + lia.
    + apply Forall_forall. intros j Hj.
      rewrite Forall_forall in Hdata. specialize (Hdata j Hj). lia.
    + apply Hin. exact (Hlast Hpos).
  - eexists. split; [reflexivity|]. simpl. repeat split.
    destruct data as [|j data];
      [|unfold len in Hnone; simpl List.length in Hnone; lia].
    destruct (Z.eq_dec (num_data self) 0) as [->|Hne]; [reflexivity|].
    destruct (Hin (num_data self - 1) (Hlast ltac:(lia))).
Qed.

(** X22. Saving and loading is a round trip. When measurements of the
    declared type are added to a new store and the archive is loaded again,
    [load] returns a store of the same data type under the file name given
    that holds the same measurements: the count is their number and
    [get_datum] reads each of them at its position. This needs a class whose
    name is no prefix of ["type"], member names without ["jackknife"], and
    [int] reading back the numerals of the indices. *)
Theorem load_after_filling (zlib zlib' compress : bool) (t : pytype)
        (fname : string) (cache : Zip.archive D) (vs : list D) :
  Forall (fun v => type_of v = t) vs ->
  startswith "type" (tp_name t) = false ->
  (forall i, 0 <= i < len vs ->
             lacks (tp_name t ++ format_int i ++ ".npz") "jackknife" = true) ->
  (forall i, 0 <= i < len vs -> int (format_int i) = Some i) ->
  exists self out,
    filled (__init__ zlib t fname compress) vs = Ok self /\
    load zlib' int fname (zfile self) cache = Loaded out /\
    holds out vs /\ datatype out = t /\ filename out = fname.
Proof.
  intros Htypes Hstart Hlacks Hint.
  destruct (filled_holds vs (__init__ zlib t fname compress) []
              (holds_init zlib t fname compress) Htypes)
    as (self & E & Hh & Ht).
  simpl in Hh, Ht. pose proof Hh as [Hn _].
  pose proof (kept_after_filled vs _ self
                (kept_of_init zlib t fname compress) E) as Hk.
  destruct (load_of_kept zlib' fname cache self Hk) as (out & L & Ho).
  - now rewrite Ht.
  - intros j Hj. unfold member_name. rewrite Ht. apply Hlacks. lia.
  - intros j Hj. apply Hint. lia.
  - destruct Ho as (Hto & Hno & Hzo & Hfo & _).
    exists self, out. split; [exact E|]. split; [exact L|].
    split; [|split; congruence].
    exact (holds_of_the_same_archive self out vs Hto Hzo Hno Hh).
Qed.

(** X23. [set_datum] saves under the member name of the count, so the
    archive it leaves is the one that [add_datum] would leave: the store
    itself still counts the measurements it had, but loading the archive
    returns a store with one measurement more, the datum that was set being
    the last one and all earlier ones as they were. *)
Theorem load_after_set_datum (zlib zlib' compress : bool) (t : pytype)
        (fname : string) (cache : Zip.archive D) (vs : list D)
        (index : Z) (datum : D) :
  Forall (fun v => type_of v = t) vs ->
  type_of datum = t -> index < len vs ->
  startswith "type" (tp_name t) = false ->
  (forall i, 0 <= i <= len vs ->
             lacks (tp_name t ++ format_int i ++ ".npz") "jackknife" = true) ->
  (forall i, 0 <= i <= len vs -> int (format_int i) = Some i) ->
  exists self self' out,
    filled (__init__ zlib t fname compress) vs = Ok self /\
    set_datum self index datum = Ok self' /\
    num_data self' = len vs /\
    load zlib' int fname (zfile self') cache = Loaded out /\
    holds out (vs ++ [datum]).
Proof.
  intros Htypes Hdatum Hindex Hstart Hlacks Hint.
  destruct (filled_holds vs (__init__ zlib t fname compress) []
              (holds_init zlib t fname compress) Htypes)
    as (self & E & Hh & Ht).
  simpl in Hh, Ht. pose proof Hh as [Hn _].
  pose proof (kept_after_filled vs _ self
                (kept_of_init zlib t fname compress) E) as Hk.
  destruct (add_datum_holds self vs datum Hh (eq_trans Hdatum (eq_sym Ht)))
    as (added & Ea & Hha & Hta).
  pose proof (kept_after_add_datum self added datum Hk Ea) as Hka.
  assert (Hzfile : set_datum self index datum
                   = Ok (with_zfile self (zfile added))).
  { unfold set_datum. unfold add_datum in Ea.
    destruct (negb _); [discriminate|].
    replace (index >=? num_data self) with false by lia.
    injection Ea as <-. reflexivity. }
  pose proof Hha as [Hna _].
  assert (Hlen : len (vs ++ [datum]) = len vs + 1).
  { unfold len. rewrite length_app. simpl. lia. }
  destruct (load_of_kept zlib' fname cache added Hka) as (out & L & Ho).
  - now rewrite Hta, Ht.
  - intros j Hj. unfold member_name. rewrite Hta, Ht. apply Hlacks. lia.
  - intros j Hj. apply Hint. lia.
  - destruct Ho as (Hto & Hno & Hzo & _).
    exists self, (with_zfile self (zfile added)), out.
    split; [exact E|].
    split; [exact Hzfile|]. split; [exact Hn|]. split; [exact L|].
    exact (holds_of_the_same_archive added out _ Hto Hzo Hno Hha).
Qed.

(** X24. A store of a class whose name is a prefix of ["type"] cannot be
    loaded: the type marker, the first member of every archive, then passes
    for a datum, what is left of its name after the slice is the empty text,
    and [load] raises the [ValueError] of [int] on it. *)
Theorem load_of_a_prefix_of_type (zlib : bool) (t : pytype) (fname : string)
        (cache : Zip.archive D) (first : member D)
        (rest : Zip.archive (member D)) :
  Zip.getinfo (("type", first) :: rest) "type" = Some (Pickled t) ->
  startswith "type" (tp_name t) = true ->
  int "" = None ->
  load zlib int fname (("type", first) :: rest) cache = InvalidLiteral "".
Proof.
  intros Htype Hstart Hint. unfold load. rewrite Htype. cbv zeta.
  cbn [Zip.namelist map fst filter]. rewrite Hstart.
  change (lacks "type" "jackknife") with true. cbn [andb map ints].
  unfold slice_to_minus_4. simpl String.length. cbn [Nat.sub].
  rewrite substring_nothing, Hint. reflexivity.
Qed.

End AnyStore.

Lemma load_of_three_scalars :
  exists self out,
    filled empty_scalars (scalars [1; 2; 3]%R) = Ok self /\
    load true decimal "ensemble.zip" (zfile self) [] = Loaded out /\
    num_data out = 3 /\ get_datum out 2 = Ok {| value := 3 |}.
Proof.
  destruct (load_after_filling decimal true true true (PyClass "Scalar")
              "ensemble.zip" [] (scalars [1; 2; 3]%R))
    as (self & out & E & L & Hh & _).
  - repeat constructor.
  - reflexivity.
  - intros i Hi. change (len (scalars [1; 2; 3]%R)) with 3 in Hi.
    assert (Ei : i = 0 \/ i = 1 \/ i = 2) by lia.
    destruct Ei as [-> | [-> | ->]]; reflexivity.
  - intros i _. apply decimal_of_format_int.
  - destruct Hh as [Hn Hget].
    exists self, out. split; [exact E|]. split; [exact L|].
    split; [exact Hn | exact (Hget 2%nat _ eq_refl)].
Defined.

Lemma load_after_setting_the_first_of_two :
  exists self self' out,
    filled empty_scalars (scalars [1; 2]%R) = Ok self /\
    set_datum self 0 {| value := 5 |} = Ok self' /\
    num_data self' = 2 /\
    load true decimal "ensemble.zip" (zfile self') [] = Loaded out /\
    num_data out = 3 /\
    get_datum out 0 = Ok {| value := 1 |} /\
    get_datum out 2 = Ok {| value := 5 |}.
Proof.
  destruct (load_after_set_datum decimal true true true (PyClass "Scalar")
              "ensemble.zip" [] (scalars [1; 2]%R) 0 {| value := 5 |})
    as (self & self' & out & E & S & Hn' & L & [Hn Hget]).
  - repeat constructor.
  - reflexivity.
  - reflexivity.
  - reflexivity.
  - intros i Hi. change (len (scalars [1; 2]%R)) with 2 in Hi.
    assert (Ei : i = 0 \/ i = 1 \/ i = 2) by lia.
    destruct Ei as [-> | [-> | ->]]; reflexivity.
  - intros i _. apply decimal_of_format_int.
  - exists self, self', out. split; [exact E|]. split; [exact S|].
    split; [exact Hn'|]. split; [exact L|]. split; [exact Hn|].
    split; [exact (Hget 0%nat _ eq_refl) | exact (Hget 2%nat _ eq_refl)].
Defined.

Lemma load_of_a_class_named_t :
  load true decimal "ensemble.zip"
       (zfile (__init__ true (PyClass "t") "ensemble.zip" true
               : DataSet Scalar)) []
  = InvalidLiteral "".
Proof.
  apply (load_of_a_prefix_of_type decimal true (PyClass "t")); reflexivity.
Defined.

End LoadProperties.

(** ** The cache of jackknife data *)

Module CacheProperties.
Import DataSet Spec Facts ScalarFacts AlgebraFacts EnsembleFacts StoreProperties
       CorrelatorProperties.

Lemma bind_assoc {A B C : Type} (c : result A) (f : A -> result B)
      (g : B -> result C) :
  bind (bind c f) g = bind c (fun a => bind (f a) g).
Proof. now destruct c. Qed.

Lemma xrange_NoDup (lo hi : Z) : NoDup (xrange lo hi).
Proof.
  unfold xrange. generalize (seq_NoDup (Z.to_nat (hi - lo)) 0).
  induction (seq 0 (Z.to_nat (hi - lo))) as [|k ks IH]; intros Hnd; simpl.
  - constructor.
  - inversion Hnd as [|? ? Hk Hks]; subst. constructor; [|now apply IH].
    rewrite in_map_iff. intros (k' & E & Hin).
    assert (k' = k) by lia. now subst.
Qed.

Lemma numeral_has_no_underscore (n : Z) :
  ~ In "_"%char (list_ascii_of_string (format_int n)).
Proof.
  assert (Hd : forall d, ~ In "_"%char
                           (list_ascii_of_string (NilEmpty.string_of_uint d))).
  { induction d; simpl; try tauto; intros [E|Hin]; try discriminate; tauto. }
  assert (Hu : forall d, ~ In "_"%char
                           (list_ascii_of_string (NilZero.string_of_uint d))).
  { intros d. destruct d; try apply Hd. simpl. intros [E|[]]. discriminate. }
  unfold format_int. destruct (Z.to_int n) as [d|d]; simpl; [apply Hu|].
  intros [E|Hin]; [discriminate | exact (Hu d Hin)].
Qed.

(** Two texts without underscore that are followed by one are equal when
    the whole texts are. *)
Lemma separated_by_underscore (a : string) :
  forall (b x y : string),
    ~ In "_"%char (list_ascii_of_string a) ->
    ~ In "_"%char (list_ascii_of_string b) ->
    (a ++ String "_" x)%string = (b ++ String "_" y)%string -> a = b.
Proof.
  induction a as [|c a IH]; intros [|c' b] x y Ha Hb E; simpl in *.
  - reflexivity.
  - injection E as E _. exfalso. apply Hb. now left.
  - injection E as E _. exfalso. apply Ha. now left.
  - injection E as -> E. f_equal. apply (IH b x y); tauto.
Qed.

Section AnyStore.
Context {D : Type} `{Datatype D}.

Lemma jackknife_filename_index (self : DataSet D) (binsize i j : Z) :
  jackknife_filename self binsize i = jackknife_filename self binsize j ->
  i = j.
Proof.
  unfold jackknife_filename. intros E.
  do 5 apply append_inv_head in E.
  apply append_inv_tail in E. now apply format_int_inj.
Qed.

Lemma jackknife_filename_binsize (self : DataSet D) (b b' i i' : Z) :
  jackknife_filename self b i = jackknife_filename self b' i' -> b = b'.
Proof.
  unfold jackknife_filename. intros E.
  do 3 apply append_inv_head in E.
  apply format_int_inj.
  apply (separated_by_underscore _ _ _ _ (numeral_has_no_underscore b)
           (numeral_has_no_underscore b') E).
Qed.

Lemma number_of_bins_bounds (self : DataSet D) (binsize : Z) :
  1 <= binsize -> 0 < num_data self ->
  1 <= number_of_bins self binsize <= num_data self.
Proof.
  intros Hb Hn. unfold number_of_bins.
  pose proof (Z.div_mod (num_data self) binsize ltac:(lia)) as Hdm.
  pose proof (Z.mod_pos_bound (num_data self) binsize ltac:(lia)) as Hm.
  assert (Hq : 0 <= num_data self / binsize) by (apply Z.div_pos; lia).
  destruct (Z.gtb_spec (num_data self mod binsize) 0); nia.
Qed.

Section Loops.
Variable datum : Z -> result D.
Variable name : Z -> string.
Variable func : D -> result pyval.
Variable collect : list pyval -> pyval -> list pyval.
Hypothesis name_inj : forall i j, name i = name j -> i = j.

(** The loop that writes the cache: every datum is computed and saved under
    its name, and no other file is touched. *)
Lemma cache_written (indices : list Z) :
  NoDup indices ->
  forall files0 files : Zip.archive D,
    for_each indices files0
      (fun files i =>
         new_datum <- datum i ;; Ok (Zip.write files (name i) new_datum))
    = Ok files ->
    (forall n, (forall i, In i indices -> n <> name i) ->
               Zip.getinfo files n = Zip.getinfo files0 n) /\
    Zip.namelist files = Zip.namelist files0 ++ map name indices /\
    forall i, In i indices ->
              exists d, datum i = Ok d /\ Zip.getinfo files (name i) = Some d.
Proof.
  induction indices as [|i indices IH]; intros Hnd files0 files; simpl.
  - intros [= <-]. rewrite app_nil_r. repeat split; tauto.
  - inversion Hnd as [|? ? Hi Hrest]; subst.
    destruct (datum i) as [d|e] eqn:Ed; [|discriminate]. cbn [bind].
    intros E. destruct (IH Hrest _ _ E) as (Hframe & Hnames & Hfiles).
    split; [|split].
    + intros n Hn. rewrite Hframe by (intros j Hj; apply Hn; now right).
      apply getinfo_write_other. intros En.
      exact (Hn i (or_introl eq_refl) (eq_sym En)).
    + rewrite Hnames. unfold Zip.namelist, Zip.write.
      rewrite map_app, <- app_assoc. reflexivity.
    + intros j [<-|Hj]; [|now apply Hfiles].
      exists d. split; [exact Ed|].
      rewrite Hframe; [apply getinfo_write_same|].
      intros j Hj En. apply name_inj in En. now subst.
Qed.

(** The loop succeeds as soon as every datum can be computed. *)
Lemma cache_can_be_written (indices : list Z) :
  (forall i, In i indices -> exists d, datum i = Ok d) ->
  forall files0 : Zip.archive D,
  exists files,
    for_each indices files0
      (fun files i =>
         new_datum <- datum i ;; Ok (Zip.write files (name i) new_datum))
    = Ok files.
Proof.
  induction indices as [|i indices IH]; intros Hd files0; simpl.
  - now exists files0.
  - destruct (Hd i (or_introl eq_refl)) as (d & ->). cbn [bind].
    apply IH. intros j Hj. apply Hd. now right.
Qed.

(** The loop over recomputed data only succeeds when every datum can be
    computed. *)
Lemma recomputed_data (indices : list Z) :
  forall out0 out : list pyval,
    for_each indices out0
      (fun out i =>
         new_datum <- datum i ;;
         measurement <- func new_datum ;;
         Ok (collect out measurement))
    = Ok out ->
    forall i, In i indices -> exists d, datum i = Ok d.
Proof.
  induction indices as [|i indices IH]; intros out0 out; simpl.
  - intros _ i [].
  - destruct (datum i) as [d|e] eqn:Ed; [|discriminate]. cbn [bind].
    destruct (func d) as [m|e]; [|discriminate]. cbn [bind].
    intros E j [<-|Hj]; [exists d; exact Ed | exact (IH _ _ E j Hj)].
Qed.

(** Reading the data from files that hold them is the same as recomputing
    them. *)
Lemma cache_replayed (files : Zip.archive D) (indices : list Z) :
  (forall i, In i indices ->
             exists d, datum i = Ok d /\ Zip.getinfo files (name i) = Some d) ->
  forall out0 : list pyval,
    for_each indices out0
      (fun out i =>
         match Zip.getinfo files (name i) with
         | None => Raise (IOError (name i))
         | Some jackknife_datum =>
             measurement <- func jackknife_datum ;;
             Ok (collect out measurement)
         end)
    = for_each indices out0
        (fun out i =>
           new_datum <- datum i ;;
           measurement <- func new_datum ;;
           Ok (collect out measurement)).
Proof.
  intros Hfiles out0. apply for_each_ext. intros out i Hi.
  destruct (Hfiles i Hi) as (d & -> & ->). reflexivity.
Qed.

(** The loop over recomputed data collects the measurements that are not
    [None], in their order. *)
Lemma measurements_collected (indices : list Z) :
  forall (data : list D) (ms out0 : list pyval),
    comprehension datum indices = Ok data ->
    comprehension func data = Ok ms ->
    for_each indices out0
      (fun out i =>
         new_datum <- datum i ;;
         measurement <- func new_datum ;;
         Ok (if is_None measurement then out else out ++ [measurement]))
    = Ok (out0 ++ filter (fun m => negb (is_None m)) ms).
Proof.
  induction indices as [|i indices IH]; intros data ms out0; simpl.
  - intros [= <-]. simpl. intros [= <-]. simpl. now rewrite app_nil_r.
  - destruct (datum i) as [d|e]; [|discriminate]. cbn [bind].
    destruct (comprehension datum indices) as [ds|e] eqn:Eds; [|discriminate].
    cbn [bind]. intros [= <-]. simpl.
    destruct (func d) as [m|e]; [|discriminate]. cbn [bind].
    destruct (comprehension func ds) as [ms'|e] eqn:Ems; [|discriminate].
    cbn [bind]. intros [= <-].
    rewrite (IH ds ms' _ eq_refl Ems). simpl.
    destruct (is_None m); simpl; [reflexivity|].
    now rewrite <- app_assoc.
Qed.
End Loops.

(** The uncached loop of [jackknife], with the jackknife datum of bin [i]
    as one computation. *)
Lemma uncached_loop (self : DataSet D) (func : D -> result pyval)
      (binsize : Z) (data_sum : D) (indices : list Z) (out0 : list pyval) :
  for_each indices out0
    (fun out i =>
       bin <- _get_bin self binsize i ;;
       new_datum <- d_div (d_sub data_sum bin)
                          (number_of_bins self binsize - 1) ;;
       measurement <- func new_datum ;;
       Ok (if is_None measurement then out else out ++ [measurement]))
  = for_each indices out0
      (fun out i =>
         new_datum <- (bin <- _get_bin self binsize i ;;
                       d_div (d_sub data_sum bin)
                             (number_of_bins self binsize - 1)) ;;
         measurement <- func new_datum ;;
         Ok (if is_None measurement then out else out ++ [measurement])).
Proof.
  apply for_each_ext. intros out i _. now rewrite bind_assoc.
Qed.

Lemma writing_loop (self : DataSet D) (binsize : Z) (data_sum : D)
      (indices : list Z) (files0 : Zip.archive D) :
  for_each indices files0
    (fun files i =>
       bin <- _get_bin self binsize i ;;
       new_datum <- d_div (d_sub data_sum bin)
                          (number_of_bins self binsize - 1) ;;
       Ok (Zip.write files (jackknife_filename self binsize i) new_datum))
  = for_each indices files0
      (fun files i =>
         new_datum <- (bin <- _get_bin self binsize i ;;
                       d_div (d_sub data_sum bin)
                             (number_of_bins self binsize - 1)) ;;
         Ok (Zip.write files (jackknife_filename self binsize i) new_datum)).
Proof.
  apply for_each_ext. intros files i _. now rewrite bind_assoc.
Qed.

(** What [generate_jackknife_cache] leaves behind. *)
Lemma generated_cache (self self' : DataSet D) (binsize : Z) :
  generate_jackknife_cache self binsize = Ok self' ->
  1 <= binsize /\
  exists data_sum files,
    sum_of_bins self binsize (number_of_bins self binsize) = Ok data_sum /\
    self' = with_cache self true files /\
    Zip.namelist files =
      Zip.namelist (pyQCDcache self)
      ++ map (jackknife_filename self binsize)
             (xrange 0 (number_of_bins self binsize)) /\
    forall i, 0 <= i < number_of_bins self binsize ->
      exists d,
        (bin <- _get_bin self binsize i ;;
         d_div (d_sub data_sum bin) (number_of_bins self binsize - 1)) = Ok d /\
        Zip.getinfo files (jackknife_filename self binsize i) = Some d.
Proof.
  unfold generate_jackknife_cache.
  destruct (Z.ltb_spec binsize 1) as [|Hb]; [discriminate|].
  destruct (sum_of_bins self binsize (number_of_bins self binsize))
    as [data_sum|e]; [|discriminate].
  cbn [bind]. rewrite writing_loop.
  destruct (for_each _ _ _) as [files|e] eqn:E; [|discriminate].
  cbn [bind]. intros [= <-]. split; [assumption|].
  exists data_sum, files. split; [reflexivity|]. split; [reflexivity|].
  destruct (cache_written _ (jackknife_filename self binsize)
              (jackknife_filename_index self binsize)
              _ (xrange_NoDup 0 _) _ _ E) as (_ & Hnames & Hfiles).
  split; [exact Hnames|].
  intros i Hi. apply Hfiles. apply xrange_In_iff. lia.
Qed.

(** X25. The cache gives what recomputation gives. On a store whose
    jackknife data are not cached yet, when [jackknife] without the cache
    returns a mean and an error, [jackknife] with the cache returns the same
    two: it writes the jackknife datum of every bin to the cache, reads them
    back and measures them, whatever files the cache held before. The store
    it leaves has the cache marked as written and the data as they were. *)
Theorem jackknife_with_cache_agrees (self self0 : DataSet D)
        (func : D -> result pyval) (binsize : Z) (mean std : pyval) :
  jackknifes_cached self = false ->
  jackknife self func binsize false = Ok (mean, std, self0) ->
  exists self',
    jackknife self func binsize true = Ok (mean, std, self') /\
    jackknifes_cached self' = true /\
    zfile self' = zfile self /\ num_data self' = num_data self /\
    datatype self' = datatype self.
Proof.
  intros Hc Hu. unfold jackknife in *.
  destruct (Z.ltb_spec binsize 1) as [|Hb]; [discriminate|].
  rewrite Hc. cbn [negb].
  destruct (sum_of_bins self binsize (number_of_bins self binsize))
    as [data_sum|e] eqn:Esum; [|discriminate].
  cbn [bind] in Hu. rewrite uncached_loop in Hu.
  destruct (for_each (xrange 0 (number_of_bins self binsize)) [] _)
    as [out|e] eqn:Eloop in Hu; [|discriminate].
  cbn [bind] in Hu.
  pose proof (recomputed_data _ _ _ _ _ _ Eloop) as Hdata.
  destruct (cache_can_be_written _ (jackknife_filename self binsize)
              _ Hdata (pyQCDcache self)) as (files & Efiles).
  destruct (cache_written _ (jackknife_filename self binsize)
              (jackknife_filename_index self binsize)
              _ (xrange_NoDup 0 _) _ _ Efiles) as (_ & _ & Hfiles).
  unfold generate_jackknife_cache.
  replace (binsize <? 1) with false by lia.
  rewrite Esum. cbn [bind]. rewrite writing_loop, Efiles. cbn [bind].
  change (pyQCDcache (with_cache self true files)) with files.
  change (jackknife_filename (with_cache self true files) binsize)
    with (jackknife_filename self binsize).
  rewrite (cache_replayed _ (jackknife_filename self binsize) func
             _ files _ Hfiles), Eloop.
  cbn [bind].
  destruct (_mean (PyList out)) as [m|e]; [|discriminate]. cbn [bind] in *.
  destruct (_std_jackknife (PyList out)) as [s|e]; [|discriminate].
  cbn [bind] in *. injection Hu as <- <- _.
  eexists. split; [reflexivity|]. repeat split.
Qed.

(** X26. The cache is marked as written once, whatever the bin size. After
    a [jackknife] with the cache on a store with data and an empty cache
    directory, a [jackknife] with the cache and another bin size generates
    nothing: the file of its first bin was never written, and it raises. *)
Theorem jackknife_with_another_binsize_raises (self self' : DataSet D)
        (func func' : D -> result pyval) (binsize binsize' : Z)
        (mean std : pyval) :
  pyQCDcache self = [] -> jackknifes_cached self = false ->
  0 < num_data self -> 1 <= binsize' -> binsize' <> binsize ->
  jackknife self func binsize true = Ok (mean, std, self') ->
  jackknifes_cached self' = true /\
  Zip.getinfo (pyQCDcache self') (jackknife_filename self' binsize' 0) = None /\
  exists e, jackknife self' func' binsize' true = Raise e.
Proof.
  intros Hempty Hc Hn Hb' Hne. unfold jackknife at 1.
  destruct (Z.ltb_spec binsize 1) as [|Hb]; [discriminate|].
  rewrite Hc. cbn [negb].
  destruct (generate_jackknife_cache self binsize) as [cached|e] eqn:Egen;
    [|discriminate].
  cbn [bind].
  destruct (for_each _ _ _) as [out|e]; [|discriminate]. cbn [bind].
  destruct (_mean (PyList out)) as [m|e]; [|discriminate]. cbn [bind].
  destruct (_std_jackknife (PyList out)) as [s|e]; [|discriminate].
  cbn [bind]. intros [= _ _ <-].
  destruct (generated_cache self cached binsize Egen)
    as (_ & data_sum & files & _ & -> & Hnames & _).
  rewrite Hempty in Hnames. simpl in Hnames.
  change (pyQCDcache (with_cache self true files)) with files.
  change (jackknife_filename (with_cache self true files) binsize' 0)
    with (jackknife_filename self binsize' 0).
  assert (Habsent : Zip.getinfo files (jackknife_filename self binsize' 0)
                    = None).
  { apply getinfo_absent. rewrite Hnames, in_map_iff. intros (i & E & _).
    apply jackknife_filename_binsize in E. congruence. }
  split; [reflexivity|]. split; [exact Habsent|].
  unfold jackknife. replace (binsize' <? 1) with false by lia.
  cbn [jackknifes_cached with_cache negb bind].
  change (number_of_bins (with_cache self true files) binsize')
    with (number_of_bins self binsize').
  pose proof (number_of_bins_bounds self binsize' Hb' Hn) as Hbins.
  rewrite xrange_cons by lia. cbn [for_each].
  change (pyQCDcache (with_cache self true files)) with files.
  change (jackknife_filename (with_cache self true files) binsize' 0)
    with (jackknife_filename self binsize' 0).
  rewrite Habsent. eexists. reflexivity.
Qed.

(** X27. The file that [generate_jackknife_cache] writes for bin [i] holds
    what [jackknife_datum(i, binsize)] returns: both subtract bin [i] from
    the sum of all bins. *)
Theorem cache_holds_jackknife_datum (self self' : DataSet D)
        (binsize i : Z) :
  generate_jackknife_cache self binsize = Ok self' ->
  0 <= i < number_of_bins self binsize ->
  exists d,
    Zip.getinfo (pyQCDcache self') (jackknife_filename self binsize i)
    = Some d /\
    jackknife_datum self i binsize = Ok d.
Proof.
  intros Egen Hi.
  destruct (generated_cache self self' binsize Egen)
    as (Hb & data_sum & files & Esum & -> & _ & Hfiles).
  destruct (Hfiles i Hi) as (d & Ed & Ef).
  exists d. split; [exact Ef|].
  assert (Hn : 0 < num_data self).
  { destruct (Z.lt_ge_cases 0 (num_data self)) as [|Hle]; [assumption|].
    exfalso. unfold number_of_bins in Hi.
    pose proof (Z.div_mod (num_data self) binsize ltac:(lia)).
    pose proof (Z.mod_pos_bound (num_data self) binsize ltac:(lia)).
    destruct (Z.gtb_spec (num_data self mod binsize) 0); nia. }
  pose proof (number_of_bins_bounds self binsize Hb Hn).
  unfold jackknife_datum. replace (binsize <? 1) with false by lia.
  replace (i >=? num_data self) with false by lia.
  rewrite Esum. cbn [bind]. exact Ed.
Qed.

Lemma comprehension_ext {X Y : Type} (f g : X -> result Y) (l : list X) :
  (forall x, In x l -> f x = g x) -> comprehension f l = comprehension g l.
Proof.
  induction l as [|x l IH]; intros Hext; simpl; [reflexivity|].
  rewrite (Hext x (or_introl eq_refl)), IH; [reflexivity|].
  intros y Hy. apply Hext. now right.
Qed.

(** X28. [jackknife] without the cache measures the jackknife datum of
    every bin and drops the measurements that are [None]: on a store with
    data, when the jackknife data and [func] of each are returned, the
    result is [_mean] and [_std_jackknife] of the measurements that are not
    [None], in the order of the bins. When every measurement is [None]
    nothing is left, and [jackknife] raises the [IndexError] of [_mean] on
    the empty list. *)
Theorem jackknife_drops_None (self : DataSet D) (func : D -> result pyval)
        (binsize : Z) (data : list D) (ms : list pyval) :
  1 <= binsize -> 0 < num_data self ->
  comprehension (fun i => jackknife_datum self i binsize)
                (xrange 0 (number_of_bins self binsize)) = Ok data ->
  comprehension func data = Ok ms ->
  jackknife self func binsize false =
  (let out := filter (fun m => negb (is_None m)) ms in
   mean <- _mean (PyList out) ;;
   std <- _std_jackknife (PyList out) ;;
   Ok (mean, std, self))
  /\
  (Forall (fun m => m = PyNone) ms ->
   jackknife self func binsize false = Raise IndexError).
Proof.
  intros Hb Hn Edata Ems.
  pose proof (number_of_bins_bounds self binsize Hb Hn) as Hbins.
  assert (Esum : exists data_sum,
             sum_of_bins self binsize (number_of_bins self binsize)
             = Ok data_sum).
  { rewrite xrange_cons in Edata by lia. cbn [comprehension] in Edata.
    unfold jackknife_datum at 1 in Edata.
    replace (binsize <? 1) with false in Edata by lia.
    replace (0 >=? num_data self) with false in Edata by lia.
    destruct (sum_of_bins self binsize (number_of_bins self binsize))
      as [data_sum|e]; [now exists data_sum | discriminate]. }
  destruct Esum as (data_sum & Esum).
  assert (Edata' :
            comprehension
              (fun i => bin <- _get_bin self binsize i ;;
                        d_div (d_sub data_sum bin)
                              (number_of_bins self binsize - 1))
              (xrange 0 (number_of_bins self binsize)) = Ok data).
  { rewrite <- Edata. apply comprehension_ext. intros i Hi.
    apply xrange_In in Hi. unfold jackknife_datum.
    replace (binsize <? 1) with false by lia.
    replace (i >=? num_data self) with false by lia.
    now rewrite Esum. }
  assert (Eall : jackknife self func binsize false =
                 (let out := filter (fun m => negb (is_None m)) ms in
                  mean <- _mean (PyList out) ;;
                  std <- _std_jackknife (PyList out) ;;
                  Ok (mean, std, self))).
  { unfold jackknife. replace (binsize <? 1) with false by lia.
    rewrite Esum. cbn [bind]. rewrite uncached_loop.
    rewrite (measurements_collected _ func _ data ms [] Edata' Ems).
    reflexivity. }
  split; [exact Eall|].
  intros Hnone. rewrite Eall.
  assert (Hout : filter (fun m => negb (is_None m)) ms = []).
  { clear -Hnone. induction Hnone as [|m ms -> _ IH]; simpl; auto. }
  cbv zeta. rewrite Hout. reflexivity.
Qed.

End AnyStore.

Lemma jackknife_of_three_scalars_with_cache :
  exists mean std self',
    jackknife (stored [1; 2; 3]%R) (fun d => Ok (PyFloat (value d))) 1 false
    = Ok (mean, std, stored [1; 2; 3]%R) /\
    jackknife (stored [1; 2; 3]%R) (fun d => Ok (PyFloat (value d))) 1 true
    = Ok (mean, std, self').
Proof.
  assert (E : exists mean std,
             jackknife (stored [1; 2; 3]%R)
                       (fun d => Ok (PyFloat (value d))) 1 false
             = Ok (mean, std, stored [1; 2; 3]%R)).
  { do 2 eexists.
    cbv -[Rplus Rminus Rmult Rdiv Rinv IZR sqrt Ropp measurements
          _div_measurements _sqrt_measurements].
    repeat (progress (simp measurements _div_measurements _sqrt_measurements);
            cbv -[Rplus Rminus Rmult Rdiv Rinv IZR sqrt Ropp measurements
                  _div_measurements _sqrt_measurements]).
    destruct (Req_dec_T _ _) as [E|_]; [exfalso; lra|].
    repeat (progress (simp measurements _div_measurements _sqrt_measurements);
            cbv -[Rplus Rminus Rmult Rdiv Rinv IZR sqrt Ropp measurements
                  _div_measurements _sqrt_measurements]).
    reflexivity. }
  destruct E as (mean & std & E).
  destruct (jackknife_with_cache_agrees (stored [1; 2; 3]%R) _ _ 1 mean std
              eq_refl E)
    as (self' & E' & _).
  exists mean, std, self'. split; [exact E | exact E'].
Defined.

Lemma jackknife_of_three_scalars_with_binsize_1_then_2 :
  exists mean std self',
    jackknife (stored [1; 2; 3]%R) (fun d => Ok (PyFloat (value d))) 1 true
    = Ok (mean, std, self') /\
    exists e,
      jackknife self' (fun d => Ok (PyFloat (value d))) 2 true = Raise e.
Proof.
  assert (E : exists mean std self',
             jackknife (stored [1; 2; 3]%R)
                       (fun d => Ok (PyFloat (value d))) 1 true
             = Ok (mean, std, self')).
  { do 3 eexists.
    cbv -[Rplus Rminus Rmult Rdiv Rinv IZR sqrt Ropp measurements
          _div_measurements _sqrt_measurements].
    repeat (progress (simp measurements _div_measurements _sqrt_measurements);
            cbv -[Rplus Rminus Rmult Rdiv Rinv IZR sqrt Ropp measurements
                  _div_measurements _sqrt_measurements]).
    destruct (Req_dec_T _ _) as [E|_]; [exfalso; lra|].
    repeat (progress (simp measurements _div_measurements _sqrt_measurements);
            cbv -[Rplus Rminus Rmult Rdiv Rinv IZR sqrt Ropp measurements
                  _div_measurements _sqrt_measurements]).
    reflexivity. }
  destruct E as (mean & std & self' & E).
  destruct (jackknife_with_another_binsize_raises
              (stored [1; 2; 3]%R) self' _ (fun d => Ok (PyFloat (value d)))
              1 2 mean std eq_refl eq_refl eq_refl ltac:(discriminate)
              ltac:(discriminate) E)
    as (_ & _ & Hraise).
  exists mean, std, self'. split; [exact E | exact Hraise].
Defined.

Lemma cache_of_three_scalars :
  exists self' d,
    generate_jackknife_cache (stored [1; 2; 3]%R) 1 = Ok self' /\
    Zip.getinfo (pyQCDcache self') "pyQCDcache/Scalar_jackknife_binsize1_2.npz"
    = Some d /\
    jackknife_datum (stored [1; 2; 3]%R) 2 1 = Ok d.
Proof.
  assert (E : exists self',
             generate_jackknife_cache (stored [1; 2; 3]%R) 1 = Ok self').
  { eexists. cbv -[Rplus Rminus Rmult Rdiv Rinv IZR sqrt Ropp]. reflexivity. }
  destruct E as (self' & E).
  destruct (cache_holds_jackknife_datum (stored [1; 2; 3]%R) self' 1 2 E)
    as (d & Hfile & Hdatum).
  - vm_compute. split; [discriminate | reflexivity].
  - exists self', d. split; [exact E|]. split; [exact Hfile | exact Hdatum].
Defined.

Lemma jackknife_of_three_scalars_without_measurement :
  jackknife (stored [1; 2; 3]%R) (fun _ => Ok PyNone) 1 false
  = Raise IndexError.
Proof.
  assert (E : exists data,
             comprehension (fun i => jackknife_datum (stored [1; 2; 3]%R) i 1)
                           (xrange 0 (number_of_bins (stored [1; 2; 3]%R) 1))
             = Ok data).
  { eexists. cbv -[Rplus Rminus Rmult Rdiv Rinv IZR sqrt Ropp]. reflexivity. }
  destruct E as (data & E).
  destruct (jackknife_drops_None (stored [1; 2; 3]%R) (fun _ => Ok PyNone) 1
              data (map (fun _ => PyNone) data))
    as [_ Hraise].
  - lia.
  - reflexivity.
  - exact E.
  - apply comprehension_map. apply Forall_forall. reflexivity.
  - apply Hraise. apply Forall_forall. intros m Hm.
    apply in_map_iff in Hm. destruct Hm as (d & <- & _). reflexivity.
Defined.

End CacheProperties.
